(** * SuitPagosSap: the data-processing core of the SAP sales dashboard

    A shallow embedding of [procesos.py] (class [SAPDataProcessor]) and of
    the filter and the stock indicators of [app.py] (class
    [SAPDashboard]), with the properties the specification states about
    them.

    Tables are pandas [DataFrame]s: an ordered list of column labels and a
    list of rows, each row holding one cell per column.  Python exceptions
    are values of [exn], and a computation that may raise lives in the
    [result] monad; [try ... except] is [catch]. *)

From Stdlib Require Import QArith Qcanon.
From stdpp Require Import numbers.
From stdpp Require Import base option list strings gmap.

Local Open Scope string_scope.

(* ===================================================================== *)
(** * Numbers *)
(* ===================================================================== *)

(** A number: the value of an [int64] or [float64] cell or scalar.  Every
    [int64] and every finite [float64] is a rational; the infinities and
    NaN are those of [float64].  The type says which numbers there are.
    What an operation of numpy returns on them, rounded in [float64] and
    wrapped around in [int64], is the matter of [Aritmetica] below. *)
Inductive float64 : Type :=
  | Fin (q : Qc)
  | PInf
  | NInf
  | NaN.

Global Instance float64_eq_dec : EqDecision float64.
Proof. solve_decision. Defined.

Definition of_Z (z : Z) : float64 := Fin (Qc_of_Z z).
Definition of_nat (n : nat) : float64 := of_Z (Z.of_nat n).

Definition is_finite (x : float64) : bool :=
  match x with Fin _ => true | _ => false end.

Definition is_nan (x : float64) : bool :=
  match x with NaN => true | _ => false end.

(** Sign of a number: [Lt] negative, [Eq] zero, [Gt] positive; none for NaN. *)
Definition fsign (x : float64) : option comparison :=
  match x with
  | Fin q => Some (q ?= 0)%Qc
  | PInf => Some Gt
  | NInf => Some Lt
  | NaN => None
  end.

(** [x > 0] on numbers; false for NaN.  Comparisons are exact in both
    [int64] and [float64]. *)
Definition fpos (x : float64) : bool :=
  match fsign x with Some Gt => true | _ => false end.

(** ** The arithmetic of the columns *)

(** The numeric columns that the program sums: the products
    [Cantidad * Valor_Neto], the payment amounts and the stock
    quantities.  Each has its own dtype. *)
Inductive columna : Type :=
  | Importes
  | Monto_Pago
  | Stock_Total.

(** Integers up to [2^53] in magnitude are held exactly by [int64] and by
    [float64] alike. *)
Definition max_exacto : Z := (2 ^ 53)%Z.

Definition suma_Z (l : list Z) : Z := foldr Z.add 0%Z l.

Definition suma_abs (l : list Z) : Z := foldr (λ z acc, Z.abs z + acc)%Z 0%Z l.

(** The operations of numpy that [calcular_kpis] and the summary use, as
    the dtypes of the columns at hand make them: a result is rounded to
    the nearest [float64], or wraps around modulo [2^64] in [int64], and
    a sum is taken in the order numpy chooses.  Nothing is assumed of
    them but what holds in every dtype: on integers they are exact as
    long as every number met, partial sums included, stays within
    [2^53] in magnitude. *)
Record Aritmetica : Type := mkAritmetica {
  (** one entry of [ventas_df['Cantidad'] * ventas_df['Valor_Neto']] *)
  producto : float64 → float64 → float64;
  (** [s.sum()] of one of the summed columns, given with its NaN
      entries, which [sum] skips *)
  suma : columna → list float64 → float64;
  (** [total_ventas - total_pagado] *)
  diferencia : float64 → float64 → float64;
  producto_exacto : ∀ a b : Z,
    (Z.abs a ≤ max_exacto)%Z → (Z.abs b ≤ max_exacto)%Z →
    (Z.abs (a * b) ≤ max_exacto)%Z →
    producto (of_Z a) (of_Z b) = of_Z (a * b);
  suma_exacta : ∀ (c : columna) (l : list Z),
    (suma_abs l ≤ max_exacto)%Z →
    suma c (of_Z <$> l) = of_Z (suma_Z l);
  diferencia_exacta : ∀ a b : Z,
    (Z.abs a ≤ max_exacto)%Z → (Z.abs b ≤ max_exacto)%Z →
    (Z.abs (a - b) ≤ max_exacto)%Z →
    diferencia (of_Z a) (of_Z b) = of_Z (a - b);
}.

(** ** Exact arithmetic *)

(** The arithmetic in which no result is rounded and none wraps around:
    that of numpy wherever the numbers stay small enough, as they do in
    the examples of this file. *)
Definition fneg (x : float64) : float64 :=
  match x with
  | Fin q => Fin (- q)%Qc
  | PInf => NInf
  | NInf => PInf
  | NaN => NaN
  end.

Definition fadd (x y : float64) : float64 :=
  match x, y with
  | NaN, _ | _, NaN => NaN
  | Fin a, Fin b => Fin (a + b)%Qc
  | PInf, NInf | NInf, PInf => NaN
  | PInf, _ | _, PInf => PInf
  | NInf, _ | _, NInf => NInf
  end.

Definition fsub (x y : float64) : float64 := fadd x (fneg y).

Definition fmul (x y : float64) : float64 :=
  match x, y with
  | Fin a, Fin b => Fin (a * b)%Qc
  | _, _ =>
      match fsign x, fsign y with
      | Some Eq, Some _ | Some _, Some Eq => NaN
      | Some Gt, Some Gt | Some Lt, Some Lt => PInf
      | Some Gt, Some Lt | Some Lt, Some Gt => NInf
      | _, _ => NaN
      end
  end.

(** The exact sum of the entries that are not NaN. *)
Definition nansum (xs : list float64) : float64 :=
  foldl fadd (Fin 0%Qc) (filter (λ x, is_nan x = false) xs).

Definition aritmetica_exacta : Aritmetica.
Proof.
  refine (mkAritmetica fmul (λ _, nansum) fsub _ _ _).
  - intros a b _ _ _. unfold of_Z. simpl. by rewrite Z2Qc_inj_mul.
  - intros _ l _. unfold nansum.
    assert (Hf : filter (λ x, is_nan x = false) (of_Z <$> l) = of_Z <$> l).
    { induction l as [|z l IH]; [done|].
      rewrite fmap_cons, filter_cons_True by done. by f_equal. }
    rewrite Hf. clear Hf.
    assert (H : ∀ a, foldl fadd (of_Z a) (of_Z <$> l) = of_Z (a + suma_Z l)).
    { induction l as [|z l IH]; intros a; simpl.
      - by rewrite Z.add_0_r.
      - unfold of_Z at 1 2. simpl. rewrite <- Z2Qc_inj_add.
        fold (of_Z (a + z)). rewrite IH. by rewrite Z.add_assoc. }
    rewrite <- Z2Qc_inj_0. apply (H 0%Z).
  - intros a b _ _ _. unfold of_Z, fsub. simpl.
    by rewrite Z2Qc_inj_sub.
Defined.

(** ** The arithmetic of [int64] columns *)

(** Two's complement: the representative of [z] modulo [2^64] between
    [-2^63] and [2^63 - 1]. *)
Definition wrap64 (z : Z) : Z := ((z + 2 ^ 63) mod 2 ^ 64 - 2 ^ 63)%Z.

(** The integer held by an entry of an [int64] column. *)
Definition int64_of (x : float64) : Z :=
  match x with Fin q => Qnum q | _ => 0%Z end.

(** The arithmetic of numpy when the quantities, net values, payment
    amounts and stock quantities are all [int64] columns: products, sums
    and differences wrap around silently. *)
Definition aritmetica_int64 : Aritmetica.
Proof.
  refine (mkAritmetica
            (λ x y, of_Z (wrap64 (int64_of x * int64_of y)))
            (λ _ l, of_Z (wrap64 (suma_Z (int64_of <$> l))))
            (λ x y, of_Z (wrap64 (int64_of x - int64_of y))) _ _ _).
  all: assert (Hw : ∀ z, (Z.abs z ≤ max_exacto)%Z → wrap64 z = z)
    by (intros z Hz; unfold wrap64, max_exacto in *;
        rewrite Z.mod_small by lia; lia).
  - intros a b _ _ Hab. simpl. by rewrite (Hw _ Hab).
  - intros _ l Hl.
    assert (Hi : int64_of <$> (of_Z <$> l) = l).
    { clear Hl. induction l as [|z l IH]; [done|]. csimpl. by rewrite IH. }
    rewrite Hi. rewrite Hw; [done|].
    clear Hi. revert Hl. generalize max_exacto.
    induction l as [|z l IH]; intros m Hm; simpl in *; [lia|].
    specialize (IH (m - Z.abs z)%Z). lia.
  - intros a b _ _ Hab. simpl. by rewrite (Hw _ Hab).
Defined.

(** ** The arithmetic of [float64] columns *)

(** [2^e] for an integer exponent. *)
Definition pow2 (e : Z) : Qc :=
  if (0 <=? e)%Z then Qc_of_Z (2 ^ e) else (/ Qc_of_Z (2 ^ (- e)))%Qc.

(** The binary exponent of the positive rational [n/d]: the [k] with
    [2^k <= n/d < 2^(k+1)]. *)
Definition exponente (n d : positive) : Z :=
  let a := Z.log2 (Zpos n) in
  let b := Z.log2 (Zpos d) in
  if (Zpos d * 2 ^ Z.max 0 (a - b) <=? Zpos n * 2 ^ Z.max 0 (b - a))%Z
  then (a - b)%Z else (a - b - 1)%Z.

(** The integer nearest to [n/d * 2^(-e)], ties to even. *)
Definition mantisa (n d : positive) (e : Z) : Z :=
  let num := (Zpos n * 2 ^ Z.max 0 (- e))%Z in
  let den := (Zpos d * 2 ^ Z.max 0 e)%Z in
  let qt := (num / den)%Z in
  let rm := (num mod den)%Z in
  if (2 * rm <? den)%Z then qt
  else if (den <? 2 * rm)%Z then (qt + 1)%Z
  else if Z.even qt then qt else (qt + 1)%Z.

(** The [float64] nearest to the positive rational [n/d], ties to the even
    mantissa: a mantissa of 53 bits, exponents down to [-1074], infinity
    from [2^1024] on. *)
Definition redondear_pos (n d : positive) : float64 :=
  let e := Z.max (exponente n d - 52) (-1074) in
  let m := mantisa n d e in
  if (0 <=? e)%Z && (2 ^ 1024 <=? m * 2 ^ e)%Z then PInf
  else Fin (Qc_of_Z m * pow2 e)%Qc.

Definition redondear (q : Qc) : float64 :=
  match Qnum q with
  | Z0 => Fin 0%Qc
  | Zpos n => redondear_pos n (Qden q)
  | Zneg n => fneg (redondear_pos n (Qden q))
  end.

(** A number as a [float64]. *)
Definition a_float64 (x : float64) : float64 :=
  match x with Fin q => redondear q | _ => x end.

(** An operation of [float64]: the operands as [float64], the exact
    result, rounded. *)
Definition redondeada (op : float64 → float64 → float64) (x y : float64)
  : float64 :=
  a_float64 (op (a_float64 x) (a_float64 y)).

(** The sum of the entries that are not NaN, added from left to right.
    numpy adds the entries of a long column in blocks, in another order;
    no property below depends on the order. *)
Definition suma_float64 (xs : list float64) : float64 :=
  foldl (redondeada fadd) (Fin 0%Qc) (filter (λ x, is_nan x = false) xs).

(** The arithmetic of numpy when the quantities, net values, payment
    amounts and stock quantities are all [float64] columns: every
    product, every addition and the difference is rounded to the nearest
    [float64]. *)
Definition aritmetica_float64 : Aritmetica.
Proof.
  assert (Hexp : ∀ n, exponente n 1 = Z.log2 (Zpos n)).
  { intros n.
    pose proof (Z.log2_spec (Zpos n) ltac:(done)) as [Hlo _].
    pose proof (Z.log2_nonneg (Zpos n)) as Ha.
    unfold exponente. change (Z.log2 1) with 0%Z. cbv zeta.
    rewrite !Z.sub_0_r, (Z.max_r 0 (Z.log2 (Zpos n))) by lia.
    rewrite (Z.max_l 0 (0 - Z.log2 (Zpos n))) by lia.
    by rewrite (proj2 (Z.leb_le _ _)) by lia. }
  assert (Hman : ∀ n e, (e ≤ 0)%Z → mantisa n 1 e = (Zpos n * 2 ^ (- e))%Z).
  { intros n e He. unfold mantisa. cbv zeta.
    rewrite (Z.max_l 0 e), (Z.max_r 0 (- e)) by lia.
    change (1 * 2 ^ 0)%Z with 1%Z.
    by rewrite Z.div_1_r, Z.mod_1_r. }
  assert (Hpow : ∀ j x, (0 ≤ j)%Z →
                 (Qc_of_Z (x * 2 ^ j) * pow2 (- j))%Qc = Qc_of_Z x).
  { intros j x Hj. unfold pow2.
    destruct (decide (j = 0)%Z) as [->|Hne].
    - rewrite Z.pow_0_r, Z.mul_1_r.
      change (0 <=? - 0)%Z with true. change (2 ^ (- 0))%Z with 1%Z. cbv iota.
      by rewrite Z2Qc_inj_1, Qcmult_1_r.
    - assert (H : (0 <=? - j)%Z = false) by (apply Z.leb_gt; lia).
      rewrite H, Z.opp_involutive, Z2Qc_inj_mul.
      rewrite <- Qcmult_assoc, Qcmult_inv_r, Qcmult_1_r; [done|].
      rewrite <- Z2Qc_inj_0. intros Hq%Z2Qc_inj.
      pose proof (Z.pow_pos_nonneg 2 j). lia. }
  assert (Hpos : ∀ n, (Zpos n ≤ max_exacto)%Z →
                 redondear_pos n 1 = of_Z (Zpos n)).
  { intros n Hn. unfold max_exacto in Hn.
    pose proof (Z.log2_spec (Zpos n) ltac:(done)) as [Hlo Hhi].
    pose proof (Z.log2_nonneg (Zpos n)) as Ha.
    assert (Ha53 : (Z.log2 (Zpos n) ≤ 53)%Z).
    { rewrite <- (Z.log2_pow2 53) by done. by apply Z.log2_le_mono. }
    unfold redondear_pos. rewrite Hexp. cbv zeta.
    set (a := Z.log2 (Zpos n)) in *.
    rewrite (Z.max_l (a - 52) (-1074)) by lia.
    destruct (decide (a ≤ 52)%Z) as [Hle|Hgt].
    - rewrite Hman by lia.
      assert (Hov : ((0 <=? a - 52)%Z
                     && (2 ^ 1024
                         <=? Zpos n * 2 ^ (- (a - 52)) * 2 ^ (a - 52))%Z)
                    = false).
      { destruct (decide (a = 52)%Z) as [E|E].
        - rewrite E. change (- (52 - 52))%Z with 0%Z.
          change (52 - 52)%Z with 0%Z.
          rewrite !Z.mul_1_r. apply andb_false_intro2, Z.leb_gt.
          assert (2 ^ 53 < 2 ^ 1024)%Z by (by apply Z.pow_lt_mono_r). lia.
        - apply andb_false_intro1, Z.leb_gt. lia. }
      rewrite Hov. unfold of_Z. f_equal.
      replace (a - 52)%Z with (- (52 - a))%Z at 2 by lia.
      replace (- (a - 52))%Z with (52 - a)%Z by lia.
      apply Hpow. lia.
    - assert (a = 53)%Z as Ha' by lia.
      assert (Zpos n = 2 ^ 53)%Z as Hn'.
      { rewrite Ha' in Hlo. lia. }
      assert (n = 9007199254740992%positive) as -> by (by injection Hn').
      vm_compute. f_equal. by apply Qc_is_canon. }
  assert (Hr : ∀ z, (Z.abs z ≤ max_exacto)%Z → a_float64 (of_Z z) = of_Z z).
  { intros z Hz. unfold a_float64, of_Z, redondear.
    destruct z as [|n|n]; simpl.
    - by rewrite Z2Qc_inj_0.
    - by apply Hpos.
    - rewrite Hpos by done. unfold of_Z. simpl. by rewrite <- Z2Qc_inj_opp. }
  refine (mkAritmetica (redondeada fmul) (λ _, suma_float64)
            (redondeada fsub) _ _ _).
  - intros a b Ha Hb Hab. unfold redondeada. rewrite !Hr by done.
    unfold of_Z at 1 2. simpl fmul. rewrite <- Z2Qc_inj_mul. by apply Hr.
  - intros _ l Hl. unfold suma_float64.
    assert (Hf : filter (λ x, is_nan x = false) (of_Z <$> l) = of_Z <$> l).
    { clear Hl. induction l as [|z l IH]; [done|].
      rewrite fmap_cons, filter_cons_True by done. by f_equal. }
    rewrite Hf. clear Hf.
    assert (H : ∀ a, (Z.abs a + suma_abs l ≤ max_exacto)%Z →
                foldl (redondeada fadd) (of_Z a) (of_Z <$> l)
                = of_Z (a + suma_Z l)).
    { clear Hl. induction l as [|z l IH]; intros a Ha; simpl in Ha |- *.
      - by rewrite Z.add_0_r.
      - assert (Hs : (0 ≤ suma_abs l)%Z).
        { clear. induction l as [|y l IH]; simpl; lia. }
        unfold redondeada at 2. rewrite !Hr by lia.
        unfold of_Z at 1 2. simpl fadd. rewrite <- Z2Qc_inj_add.
        fold (of_Z (a + z)). rewrite Hr by lia.
        rewrite IH by lia. by rewrite Z.add_assoc. }
    rewrite <- Z2Qc_inj_0. apply (H 0%Z). simpl. lia.
  - intros a b Ha Hb Hab. unfold redondeada. rewrite !Hr by done.
    unfold of_Z at 1 2, fsub. simpl fneg. simpl fadd.
    rewrite <- Z2Qc_inj_opp, <- Z2Qc_inj_add. by apply Hr.
Defined.

(* ===================================================================== *)
(** * Cells, exceptions and the exception monad *)
(* ===================================================================== *)

(** Timestamps ([datetime64[ns]]) are nanoseconds since the epoch. *)
Definition Timestamp := Z.

(** One cell of a table.  [VNull] is [None] / [NaT]; a float cell holding
    [NaN] is null as well (see [isna]). *)
Inductive value : Type :=
  | VNull
  | VNum (x : float64)
  | VStr (s : string)
  | VDate (t : Timestamp).

Global Instance value_eq_dec : EqDecision value.
Proof. solve_decision. Defined.

Definition isna (v : value) : bool :=
  match v with
  | VNull | VNum NaN => true
  | _ => false
  end.

(** The argument of a [KeyError]: the label that was looked up, or the
    list of the labels that were not found. *)
Inductive key : Type :=
  | Label (c : string)
  | Labels (l : list string).

Coercion Label : string >-> key.

Global Instance key_eq_dec : EqDecision key.
Proof. solve_decision. Defined.

(** [repr] of a string and of a list of strings. *)
Definition repr_str (c : string) : string := "'" ++ c ++ "'".

Definition repr_list (l : list string) : string :=
  "[" ++ String.concat ", " (repr_str <$> l) ++ "]".

Inductive exn : Type :=
  | FileNotFoundError (msg : string)
  | KeyError (k : key)
  | ValueError (msg : string)
  | TypeError (msg : string)
  | AttributeError (msg : string)
  | Exception (msg : string).

Global Instance exn_eq_dec : EqDecision exn.
Proof. solve_decision. Defined.

(** [str(e)] *)
Definition str_exn (e : exn) : string :=
  match e with
  | KeyError (Label c) => repr_str c
  | KeyError (Labels l) => repr_list l
  | FileNotFoundError m | ValueError m | TypeError m
  | AttributeError m | Exception m => m
  end.

Inductive result (A : Type) : Type :=
  | Ok (a : A)
  | Raise (e : exn).
Global Arguments Ok {A} a.
Global Arguments Raise {A} e.

Global Instance result_eq_dec `{EqDecision A} : EqDecision (result A).
Proof. solve_decision. Defined.

Global Instance result_ret : MRet result := @Ok.
Global Instance result_bind : MBind result := λ A B f m,
  match m with Ok a => f a | Raise e => Raise e end.
Global Instance result_fmap : FMap result := λ A B f m,
  match m with Ok a => Ok (f a) | Raise e => Raise e end.

(** [try: m  except Exception as e: h e] *)
Definition catch {A} (m : result A) (h : exn → result A) : result A :=
  match m with Ok a => Ok a | Raise e => h e end.

(* ===================================================================== *)
(** * Series and data frames *)
(* ===================================================================== *)

Abbreviation Series := (list value).
Abbreviation Row := (list value).

Record DataFrame : Type := mkDF {
  columns : list string;
  rows : list Row;
}.

Global Instance DataFrame_eq_dec : EqDecision DataFrame.
Proof. solve_decision. Defined.

(** Position of a column label. *)
Fixpoint col_index (c : string) (cols : list string) : option nat :=
  match cols with
  | [] => None
  | c' :: cols' =>
      if decide (c = c') then Some 0%nat else S <$> col_index c cols'
  end.

(** The cell of row [r] at position [i]. *)
Definition cell (i : nat) (r : Row) : value := nth i r VNull.

(** [len(df)] *)
Definition len (df : DataFrame) : nat := length (rows df).

(** [df.empty]: some axis has length zero. *)
Definition empty (df : DataFrame) : bool :=
  match columns df, rows df with
  | [], _ | _, [] => true
  | _, _ => false
  end.

(** [df[c]]: raises [KeyError] when the label is absent. *)
Definition getitem (df : DataFrame) (c : string) : result Series :=
  match col_index c (columns df) with
  | Some i => Ok (cell i <$> rows df)
  | None => Raise (KeyError c)
  end.

(** Selection of the entries of [l] whose mask bit is set. *)
Fixpoint select_mask {A} (l : list A) (m : list bool) : list A :=
  match l, m with
  | x :: l', b :: m' => if b then x :: select_mask l' m' else select_mask l' m'
  | _, _ => []
  end.

(** [df[mask]]: boolean indexing keeps the rows whose mask bit is set. *)
Definition loc (df : DataFrame) (mask : list bool) : DataFrame :=
  mkDF (columns df) (select_mask (rows df) mask).

(** [s.unique()]: distinct values in order of first appearance. *)
Fixpoint unique (s : Series) : Series :=
  match s with
  | [] => []
  | v :: s' => v :: filter (λ w, w ≠ v) (unique s')
  end.

(** [s.isin(values)] *)
Definition isin (values : list value) (s : Series) : list bool :=
  (λ v, bool_decide (v ∈ values)) <$> s.

(** [s.isin(strs)] for a list of Python strings. *)
Definition isin_str (strs : list string) (s : Series) : list bool :=
  isin (VStr <$> strs) s.

(** [s == x] for a Python string [x]. *)
Definition eq_str (x : string) (s : Series) : list bool :=
  (λ v, bool_decide (v = VStr x)) <$> s.

(** A cell read as a number in arithmetic: nulls are [NaN]; a text or
    timestamp cell makes the arithmetic raise [TypeError].  (On a column
    of text alone pandas repeats or concatenates the text instead of
    raising; in [calcular_kpis] the subtraction that follows then raises,
    so the outcome of the [try] block is the same.) *)
Definition as_float (v : value) : result float64 :=
  match v with
  | VNum x => Ok x
  | VNull => Ok NaN
  | VStr _ | VDate _ => Raise (TypeError "unsupported operand type(s)")
  end.

Fixpoint as_floats (s : Series) : result (list float64) :=
  match s with
  | [] => Ok []
  | v :: s' => x ← as_float v; xs ← as_floats s'; mret (x :: xs)
  end.

(** [a * b], element by element. *)
Definition series_mul (ar : Aritmetica) (a b : Series)
  : result (list float64) :=
  xs ← as_floats a; ys ← as_floats b; mret (zip_with (producto ar) xs ys).

(** [s.sum()] of the column [c].  A column without entries sums to 0, as
    every numeric dtype has it. *)
Definition series_sum (ar : Aritmetica) (c : columna) (s : Series)
  : result float64 :=
  suma ar c <$> as_floats s.

(* ===================================================================== *)
(** * KPIs: [SAPDataProcessor.calcular_kpis] *)
(* ===================================================================== *)

Definition KPIs : Type := float64 * float64 * float64.

(** The [try] block of [calcular_kpis]. *)
Definition calcular_kpis_body (ar : Aritmetica)
    (ventas_df pagos_df : DataFrame) : result KPIs :=
  cantidad ← getitem ventas_df "Cantidad";
  valor_neto ← getitem ventas_df "Valor_Neto";
  importes ← series_mul ar cantidad valor_neto;
  let total_ventas := suma ar Importes importes in
  doc_venta ← getitem ventas_df "Doc_Venta";
  let docs_ventas := unique doc_venta in
  referencia ← getitem pagos_df "Referencia_Factura";
  let pagos_filtrados := loc pagos_df (isin docs_ventas referencia) in
  monto_pago ← getitem pagos_filtrados "Monto_Pago";
  total_pagado ← series_sum ar Monto_Pago monto_pago;
  let pendiente_cobrar := diferencia ar total_ventas total_pagado in
  mret (total_ventas, total_pagado, pendiente_cobrar).

Definition calcular_kpis (ar : Aritmetica) (ventas_df pagos_df : DataFrame)
  : result KPIs :=
  catch (calcular_kpis_body ar ventas_df pagos_df)
        (λ _, mret (Fin 0%Qc, Fin 0%Qc, Fin 0%Qc)).

(* ===================================================================== *)
(** * Filters: [SAPDataProcessor.aplicar_filtros] *)
(* ===================================================================== *)

(** Truth value of an optional list ([if productos:]): [None] and the
    empty list are false. *)
Definition truthy_list {A} (o : option (list A)) : bool :=
  match o with
  | Some (_ :: _) => true
  | _ => false
  end.

(** Truth value of an optional string: [None] and [""] are false. *)
Definition truthy_str (o : option string) : bool :=
  match o with
  | Some (String _ _) => true
  | _ => false
  end.

(** [df.copy()]: tables are values, a copy is the table itself. *)
Definition copy (df : DataFrame) : DataFrame := df.

(** [df[df[c].isin(strs)]] *)
Definition filtrar_isin (df : DataFrame) (c : string) (strs : list string)
  : result DataFrame :=
  s ← getitem df c; mret (loc df (isin_str strs s)).

(** [df[df[c] == x]] *)
Definition filtrar_eq (df : DataFrame) (c : string) (x : string)
  : result DataFrame :=
  s ← getitem df c; mret (loc df (eq_str x s)).

(** The [try] block of [aplicar_filtros]. *)
Definition aplicar_filtros_body (df_filtrado : DataFrame)
    (productos clientes : option (list string)) (moneda : option string)
  : result DataFrame :=
  df_filtrado ←
    (if truthy_list productos
     then filtrar_isin df_filtrado "Producto" (default [] productos)
     else mret df_filtrado);
  df_filtrado ←
    (if truthy_list clientes
     then filtrar_isin df_filtrado "Nombre_Cliente" (default [] clientes)
     else mret df_filtrado);
  df_filtrado ←
    (if truthy_str moneda && bool_decide (moneda ≠ Some "Todas")
     then filtrar_eq df_filtrado "Moneda" (default "" moneda)
     else mret df_filtrado);
  mret df_filtrado.

Definition aplicar_filtros (df : DataFrame)
    (productos clientes : option (list string)) (moneda : option string)
  : result DataFrame :=
  let df_filtrado := copy df in
  catch (aplicar_filtros_body df_filtrado productos clientes moneda)
        (λ _, mret df).

(* ===================================================================== *)
(** * Filters of the dashboard: [SAPDashboard.aplicar_filtros_completos] *)
(* ===================================================================== *)

(** A calendar date ([datetime.date]) is a day number counted from the
    epoch. *)
Definition date := Z.

Definition ns_per_day : Z := 86400000000000.

(** [pd.to_datetime(d)] for a date: midnight of that day. *)
Definition to_datetime_date (d : date) : Timestamp := (d * ns_per_day)%Z.

(** One comparison of a cell with a timestamp: [NaT] compares false, a
    timestamp compares by [cmp], a cell of any other kind, a number or
    NaN included, makes the comparison raise [TypeError]. *)
Definition cmp_cell (cmp : Timestamp → Timestamp → bool) (ts : Timestamp)
    (v : value) : result bool :=
  match v with
  | VNull => Ok false
  | VDate t => Ok (cmp t ts)
  | _ => Raise (TypeError "Invalid comparison with Timestamp")
  end.

Fixpoint cmp_series (cmp : Timestamp → Timestamp → bool) (ts : Timestamp)
    (s : Series) : result (list bool) :=
  match s with
  | [] => Ok []
  | v :: s' => b ← cmp_cell cmp ts v; bs ← cmp_series cmp ts s'; mret (b :: bs)
  end.

(** [df[df[c] >= ts]] *)
Definition filtrar_ge (df : DataFrame) (c : string) (ts : Timestamp)
  : result DataFrame :=
  s ← getitem df c; m ← cmp_series Z.geb ts s; mret (loc df m).

(** [df[df[c] <= ts]] *)
Definition filtrar_le (df : DataFrame) (c : string) (ts : Timestamp)
  : result DataFrame :=
  s ← getitem df c; m ← cmp_series Z.leb ts s; mret (loc df m).

(** The [try] block of [aplicar_filtros_completos]. *)
Definition aplicar_filtros_completos_body (df_filtrado : DataFrame)
    (productos clientes canales : option (list string))
    (moneda : option string) (fecha_desde fecha_hasta : option date)
  : result DataFrame :=
  df_filtrado ← aplicar_filtros df_filtrado productos clientes moneda;
  df_filtrado ←
    (if truthy_list canales
     then filtrar_isin df_filtrado "Canal" (default [] canales)
     else mret df_filtrado);
  df_filtrado ←
    match fecha_desde with
    | Some d => filtrar_ge df_filtrado "Fecha_Doc" (to_datetime_date d)
    | None => mret df_filtrado
    end;
  df_filtrado ←
    match fecha_hasta with
    | Some d => filtrar_le df_filtrado "Fecha_Doc" (to_datetime_date d)
    | None => mret df_filtrado
    end;
  mret df_filtrado.

Definition aplicar_filtros_completos (ventas_df : DataFrame)
    (productos clientes canales : option (list string))
    (moneda : option string) (fecha_desde fecha_hasta : option date)
  : result DataFrame :=
  let df_filtrado := copy ventas_df in
  catch (aplicar_filtros_completos_body df_filtrado productos clientes canales
           moneda fecha_desde fecha_hasta)
        (λ _, mret ventas_df).

(* ===================================================================== *)
(** * The processor object and its state *)
(* ===================================================================== *)

(** The attributes of a [SAPDataProcessor] instance; the three tables are
    [None] until loaded. *)
Record SAPDataProcessor : Type := mkProcessor {
  data_path : string;
  ventas_df : option DataFrame;
  pagos_df : option DataFrame;
  stock_df : option DataFrame;
}.

(** [SAPDataProcessor(data_path)] *)
Definition __init__ (data_path : string) : SAPDataProcessor :=
  mkProcessor data_path None None None.

(** Methods that assign to [self]: the state is threaded, and an
    exception leaves the assignments made before it in place. *)
Definition M (A : Type) : Type :=
  SAPDataProcessor → result A * SAPDataProcessor.

Global Instance M_ret : MRet M := λ A a self, (Ok a, self).
Global Instance M_bind : MBind M := λ A B f m self,
  match m self with
  | (Ok a, self') => f a self'
  | (Raise e, self') => (Raise e, self')
  end.

Definition lift {A} (r : result A) : M A := λ self, (r, self).

Definition raise {A} (e : exn) : M A := lift (Raise e).

(** [try: m  except ...: h e], with the state reached at the raise. *)
Definition catchM {A} (m : M A) (h : exn → M A) : M A := λ self,
  match m self with
  | (Ok a, self') => (Ok a, self')
  | (Raise e, self') => h e self'
  end.

(** What Python raises when an attribute of [None] is read, and when
    [None] is subscripted. *)
Definition none_attribute (attr : string) : exn :=
  AttributeError ("'NoneType' object has no attribute '" ++ attr ++ "'").

Definition none_subscript : exn :=
  TypeError "'NoneType' object is not subscriptable".

(** Reading a table of the processor in an expression that raises [e]
    when the table is still [None]. *)
Definition get_ventas (e : exn) : M DataFrame := λ self,
  (from_option Ok (Raise e) (ventas_df self), self).
Definition get_pagos (e : exn) : M DataFrame := λ self,
  (from_option Ok (Raise e) (pagos_df self), self).
Definition get_stock (e : exn) : M DataFrame := λ self,
  (from_option Ok (Raise e) (stock_df self), self).

Definition set_ventas (df : DataFrame) : M unit := λ self,
  (Ok (), mkProcessor (data_path self) (Some df) (pagos_df self) (stock_df self)).
Definition set_pagos (df : DataFrame) : M unit := λ self,
  (Ok (), mkProcessor (data_path self) (ventas_df self) (Some df) (stock_df self)).
Definition set_stock (df : DataFrame) : M unit := λ self,
  (Ok (), mkProcessor (data_path self) (ventas_df self) (pagos_df self) (Some df)).

(* ===================================================================== *)
(** * Schema validation: [_validar_estructura_datos] *)
(* ===================================================================== *)

Definition columnas_requeridas : list (string * list string) :=
  [("ventas", ["Doc_Venta"; "Fecha_Doc"; "Cliente"; "Nombre_Cliente"; "Canal";
               "Producto"; "Cantidad"; "Valor_Neto"; "Moneda"]);
   ("pagos", ["Doc_Pago"; "Fecha_Pago"; "Cliente"; "Nombre_Cliente"; "Banco";
              "Monto_Pago"; "Moneda"; "Referencia_Factura"]);
   ("stock", ["Material"; "Descripción"; "Centro"; "Tipo_Almacén";
              "Stock_Total"; "Unidad_Medida"])].

(** Python does not fix the order in which a set lists its elements: it
    varies with the hash seed of the process.  The order is a parameter
    of the model, some arrangement of the elements. *)
Record SetOrder : Type := mkSetOrder {
  set_iter : list string → list string;
  set_iter_perm : ∀ l, set_iter l ≡ₚ l;
}.

(** The elements of [set(required) - set(df.columns)]. *)
Definition columnas_faltantes (required : list string) (df : DataFrame)
  : list string :=
  filter (λ c, c ∉ columns df) required.

(** The text of a list of strings between braces. *)
Definition braces (l : list string) : string :=
  "{" ++ String.concat ", " (repr_str <$> l) ++ "}".

(** [str] of a set of strings with the elements [l]. *)
Definition repr_set (so : SetOrder) (l : list string) : string :=
  braces (set_iter so l).

Definition validar_dataset (so : SetOrder) (nombre : string)
    (required : list string) (df : DataFrame) : result unit :=
  match columnas_faltantes required df with
  | [] => Ok ()
  | faltantes =>
      Raise (ValueError ("Columnas faltantes en " ++ nombre ++ ": "
                         ++ repr_set so faltantes))
  end.

(** [columnas_requeridas[nombre]] *)
Definition requeridas (nombre : string) : list string :=
  default [] (snd <$> (snd <$> list_find (λ p, fst p = nombre) columnas_requeridas)).

Definition _validar_estructura_datos (so : SetOrder) : M unit :=
  v ← get_ventas (none_attribute "columns");
  _ ← lift (validar_dataset so "ventas" (requeridas "ventas") v);
  p ← get_pagos (none_attribute "columns");
  _ ← lift (validar_dataset so "pagos" (requeridas "pagos") p);
  s ← get_stock (none_attribute "columns");
  lift (validar_dataset so "stock" (requeridas "stock") s).

(* ===================================================================== *)
(** * Cleaning: [_limpiar_datos] *)
(* ===================================================================== *)

(** How pandas reads text and foreign cells as numbers and as timestamps.
    The conversions of [pd.to_numeric] and [pd.to_datetime] are taken as
    given: a failed conversion is [NaN], respectively [None]. *)
Record Conversions : Type := mkConversions {
  numeric_of_str : string → float64;
  numeric_of_date : Timestamp → float64;
  datetime_of_str : string → option Timestamp;
  datetime_of_num : float64 → option Timestamp;
}.

Section Carga.
Context (conv : Conversions) (so : SetOrder).

(** One cell of [pd.to_numeric(s, errors='coerce')]. *)
Definition to_numeric_cell (v : value) : float64 :=
  match v with
  | VNum x => x
  | VNull => NaN
  | VStr s => numeric_of_str conv s
  | VDate t => numeric_of_date conv t
  end.

Definition to_numeric (s : Series) : list float64 := to_numeric_cell <$> s.

(** [s.fillna(0)] on a float series. *)
Definition fillna0 (xs : list float64) : Series :=
  (λ x, VNum (if is_nan x then Fin 0%Qc else x)) <$> xs.

(** One cell of [pd.to_datetime(s, errors='coerce')]: [None] is a cell
    that does not parse. *)
Definition parse_datetime (v : value) : option Timestamp :=
  match v with
  | VDate t => Some t
  | VNull => None
  | VStr s => datetime_of_str conv s
  | VNum x => datetime_of_num conv x
  end.

Definition to_datetime (s : Series) : Series :=
  (λ v, from_option VDate VNull (parse_datetime v)) <$> s.

(** [df.dropna(subset=[c])]: a label of [subset] that is not a column
    raises [KeyError] with the list of the labels not found. *)
Definition dropna (df : DataFrame) (c : string) : result DataFrame :=
  if bool_decide (c ∈ columns df)
  then s ← getitem df c; mret (loc df ((λ v, negb (isna v)) <$> s))
  else Raise (KeyError (Labels [c])).

(** A row with the cell at position [i] replaced. *)
Definition set_cell (i : nat) (r : Row) (v : value) : Row := <[i := v]> r.

(** [df[c] = s]: an existing column is replaced, a new label is
    appended as the last column. *)
Definition setitem (df : DataFrame) (c : string) (s : Series) : DataFrame :=
  match col_index c (columns df) with
  | Some i => mkDF (columns df) (zip_with (set_cell i) (rows df) s)
  | None =>
      mkDF (columns df ++ [c])%list
           (zip_with (λ r v, (r ++ [v])%list) (rows df) s)
  end.

(** [df[c] = pd.to_numeric(df[c], errors='coerce').fillna(0)] *)
Definition coerce_numeric (df : DataFrame) (c : string) : result DataFrame :=
  s ← getitem df c; mret (setitem df c (fillna0 (to_numeric s))).

(** [if c in df.columns: df[c] = pd.to_datetime(df[c], errors='coerce')] *)
Definition coerce_datetime (df : DataFrame) (c : string) : result DataFrame :=
  if bool_decide (c ∈ columns df)
  then s ← getitem df c; mret (setitem df c (to_datetime s))
  else mret df.

Definition _limpiar_datos : M unit :=
  (* ventas *)
  v ← get_ventas (none_attribute "dropna");
  v ← lift (dropna v "Doc_Venta");
  _ ← set_ventas v;
  v ← lift (coerce_numeric v "Cantidad");
  _ ← set_ventas v;
  v ← lift (coerce_numeric v "Valor_Neto");
  _ ← set_ventas v;
  v ← lift (coerce_datetime v "Fecha_Doc");
  _ ← set_ventas v;
  (* pagos *)
  p ← get_pagos (none_attribute "dropna");
  p ← lift (dropna p "Referencia_Factura");
  _ ← set_pagos p;
  p ← lift (coerce_numeric p "Monto_Pago");
  _ ← set_pagos p;
  p ← lift (coerce_datetime p "Fecha_Pago");
  _ ← set_pagos p;
  (* stock *)
  s ← get_stock none_subscript;
  s ← lift (coerce_numeric s "Stock_Total");
  set_stock s.

(* =================================================================== *)
(** * Loading: [cargar_datos] *)
(* =================================================================== *)

(** The files on disk: the table stored under each path. *)
Definition FileSystem : Type := gmap string DataFrame.

Definition archivos : list (string * string) :=
  [("ventas", "F_ventas_sap.xlsx");
   ("pagos", "F_pagos_clientes.xlsx");
   ("stock", "MM_stock_actual.xlsx")].

(** [archivos[nombre]] *)
Definition archivo (nombre : string) : string :=
  default "" (snd <$> (snd <$> list_find (λ p, fst p = nombre) archivos)).

(** [base / name] *)
Definition path_join (base name : string) : string :=
  if decide (base = ".") then name else base ++ "/" ++ name.

(** [path.exists()] *)
Definition path_exists (fs : FileSystem) (path : string) : bool :=
  bool_decide (is_Some (fs !! path)).

(** [pd.read_excel(path)] *)
Definition read_excel (fs : FileSystem) (path : string) : result DataFrame :=
  match fs !! path with
  | Some df => Ok df
  | None =>
      Raise (FileNotFoundError ("No such file or directory: '" ++ path ++ "'"))
  end.

(** The loop that checks that the files exist. *)
Fixpoint verificar_archivos (fs : FileSystem) (base : string)
    (l : list (string * string)) : result unit :=
  match l with
  | [] => Ok ()
  | (nombre, archivo) :: l' =>
      if path_exists fs (path_join base archivo)
      then verificar_archivos fs base l'
      else Raise (FileNotFoundError ("No se encontró el archivo: " ++ archivo))
  end.

(** [self.ventas_df, self.pagos_df, self.stock_df], read once the three
    have been assigned. *)
Definition tablas : M (DataFrame * DataFrame * DataFrame) :=
  v ← get_ventas none_subscript;
  p ← get_pagos none_subscript;
  s ← get_stock none_subscript;
  mret (v, p, s).

(** The [try] block of [cargar_datos]. *)
Definition cargar_datos_body (fs : FileSystem)
  : M (DataFrame * DataFrame * DataFrame) :=
  base ← (λ self, (Ok (data_path self), self));
  _ ← lift (verificar_archivos fs base archivos);
  v ← lift (read_excel fs (path_join base (archivo "ventas")));
  _ ← set_ventas v;
  p ← lift (read_excel fs (path_join base (archivo "pagos")));
  _ ← set_pagos p;
  s ← lift (read_excel fs (path_join base (archivo "stock")));
  _ ← set_stock s;
  _ ← _validar_estructura_datos so;
  _ ← _limpiar_datos;
  tablas.

(** The two [except] clauses: a [FileNotFoundError] is raised again as
    it is, any other exception is wrapped in a plain [Exception]. *)
Definition cargar_datos_except {A} (e : exn) : M A :=
  match e with
  | FileNotFoundError _ => raise e
  | _ => raise (Exception ("Error al cargar los archivos: " ++ str_exn e))
  end.

Definition cargar_datos (fs : FileSystem)
  : M (DataFrame * DataFrame * DataFrame) :=
  catchM (cargar_datos_body fs) cargar_datos_except.

End Carga.

(* ===================================================================== *)
(** * The Excel report: [generar_reporte_excel] *)
(* ===================================================================== *)

(** The workbook behind the returned bytes: its sheets in the order they
    were written, each with the table written to it.  Cell styles and
    column widths are not part of the model. *)
Record Sheet : Type := mkSheet {
  sheet_name : string;
  sheet_data : DataFrame;
}.

Global Instance Sheet_eq_dec : EqDecision Sheet.
Proof. solve_decision. Defined.

Definition Workbook : Type := list Sheet.

(** [df.to_excel(writer, sheet_name=name, index=False)] *)
Definition to_excel (writer : Workbook) (df : DataFrame) (name : string)
  : Workbook :=
  (writer ++ [mkSheet name df])%list.

(** The name of the Python type of a cell. *)
Definition type_name (v : value) : string :=
  match v with
  | VNull => "NoneType"
  | VNum _ => "float"
  | VStr _ => "str"
  | VDate _ => "Timestamp"
  end.

(** What Python raises when a cell that is no number is compared with an
    integer by [op]. *)
Definition not_supported (op : string) (v : value) : exn :=
  TypeError ("'" ++ op ++ "' not supported between instances of '"
             ++ type_name v ++ "' and 'int'").

(** One cell of [s > 0]. *)
Definition gt0_cell (v : value) : result bool :=
  if isna v then Ok false
  else match v with
       | VNum x => Ok (fpos x)
       | _ => Raise (not_supported ">" v)
       end.

Fixpoint gt0_series (s : Series) : result (list bool) :=
  match s with
  | [] => Ok []
  | v :: s' => b ← gt0_cell v; bs ← gt0_series s'; mret (b :: bs)
  end.

(** [len(df[c].unique()) if not df.empty else 0] *)
Definition contar_unicos (df : DataFrame) (c : string) : result nat :=
  if negb (empty df)
  then s ← getitem df c; mret (length (unique s))
  else mret 0%nat.

Definition metricas : list string :=
  ["Total Ventas";
   "Total Pagado";
   "Pendiente por Cobrar";
   "Productos Únicos";
   "Clientes Únicos";
   "Transacciones de Venta";
   "Transacciones de Pago";
   "Materiales en Stock";
   "Centros de Distribución";
   "Stock Total (Unidades)"].

(** [pd.DataFrame({'Métrica': labels, 'Valor': values})] *)
Definition resumen_frame (labels : list string) (values : list float64)
  : DataFrame :=
  mkDF ["Métrica"; "Valor"]
       (zip_with (λ l x, [VStr l; VNum x]) labels values).

Definition _crear_hoja_resumen (ar : Aritmetica) (writer : Workbook)
    (ventas_df pagos_df stock_df : DataFrame) : result Workbook :=
  '(total_ventas, total_pagado, pendiente) ← calcular_kpis ar ventas_df pagos_df;
  productos ← contar_unicos ventas_df "Producto";
  clientes ← contar_unicos ventas_df "Nombre_Cliente";
  materiales ←
    (if negb (empty stock_df)
     then s ← getitem stock_df "Stock_Total";
          m ← gt0_series s;
          mret (len (loc stock_df m))
     else mret 0%nat);
  centros ← contar_unicos stock_df "Centro";
  stock_total ←
    (if negb (empty stock_df)
     then s ← getitem stock_df "Stock_Total"; series_sum ar Stock_Total s
     else mret (Fin 0%Qc));
  let resumen_df :=
    resumen_frame metricas
      [total_ventas; total_pagado; pendiente;
       of_nat productos; of_nat clientes;
       of_nat (len ventas_df); of_nat (len pagos_df);
       of_nat materiales; of_nat centros; stock_total] in
  mret (to_excel writer resumen_df "Resumen").

(** The [try] block of [generar_reporte_excel]. *)
Definition generar_reporte_excel_body (ar : Aritmetica)
    (ventas_df pagos_df stock_df : DataFrame) (incluir_resumen : bool)
  : result Workbook :=
  let writer := [] in
  let writer := to_excel writer ventas_df "Ventas" in
  let writer := to_excel writer pagos_df "Pagos" in
  let writer := to_excel writer stock_df "Stock" in
  if incluir_resumen
  then _crear_hoja_resumen ar writer ventas_df pagos_df stock_df
  else mret writer.

Definition generar_reporte_excel (ar : Aritmetica)
    (ventas_df pagos_df stock_df : DataFrame) (incluir_resumen : bool)
  : result Workbook :=
  catch (generar_reporte_excel_body ar ventas_df pagos_df stock_df
           incluir_resumen)
        (λ e, Raise (Exception ("Error al generar el reporte: " ++ str_exn e))).

(* ===================================================================== *)
(** * Indicators of the dashboard: [SAPDashboard.crear_graficos],
      [mostrar_tablas_datos] *)
(* ===================================================================== *)

(** [x <= c] for a number [x] and a constant [c]; false for NaN. *)
Definition fle (x : float64) (c : Z) : bool :=
  match x with
  | Fin q => bool_decide (q ≤ Qc_of_Z c)%Qc
  | NInf => true
  | PInf | NaN => false
  end.

(** The classification of a stock quantity in [crear_graficos]:
    ['Sin Stock' if x <= 0 else 'Stock Bajo' if x <= 50 else 'Stock Normal']. *)
Definition estado (x : float64) : string :=
  if fle x 0 then "Sin Stock"
  else if fle x 50 then "Stock Bajo"
  else "Stock Normal".

(** One call of that lambda by [Series.apply]: on a cell that is not a
    number the comparison with [0] raises [TypeError]. *)
Definition estado_cell (v : value) : result string :=
  match v with
  | VNum x => Ok (estado x)
  | _ => Raise (not_supported "<=" v)
  end.

Fixpoint estado_series (s : Series) : result (list string) :=
  match s with
  | [] => Ok []
  | v :: s' => e ← estado_cell v; es ← estado_series s'; mret (e :: es)
  end.

(** The stock table with its [Estado] column, as [crear_graficos] builds
    it when the table is not empty; [None] stands for the branch that
    only shows a notice. *)
Definition stock_status (stock_df : DataFrame) : result (option DataFrame) :=
  if negb (empty stock_df)
  then
    let stock_status := copy stock_df in
    s ← getitem stock_status "Stock_Total";
    e ← estado_series s;
    mret (Some (setitem stock_status "Estado" (VStr <$> e)))
  else mret None.

(** One cell of [s <= 0]. *)
Definition le0_cell (v : value) : result bool :=
  if isna v then Ok false
  else match v with
       | VNum x => Ok (fle x 0)
       | _ => Raise (not_supported "<=" v)
       end.

Fixpoint le0_series (s : Series) : result (list bool) :=
  match s with
  | [] => Ok []
  | v :: s' => b ← le0_cell v; bs ← le0_series s'; mret (b :: bs)
  end.

(** The figures of the inventory tab of [mostrar_tablas_datos]; the total
    stock is the number that the tab then prints without decimals. *)
Record Inventario : Type := mkInventario {
  materiales_en_stock : nat;
  materiales_agotados : nat;
  stock_total : float64;
  centros_distribucion : nat;
  tipos_almacen : nat;
}.

Global Instance Inventario_eq_dec : EqDecision Inventario.
Proof. solve_decision. Defined.

(** The inventory tab: the five figures when the stock table is not
    empty, [None] for the branch that only shows a notice. *)
Definition inventario (ar : Aritmetica) (stock_df : DataFrame)
  : result (option Inventario) :=
  if negb (empty stock_df)
  then
    s ← getitem stock_df "Stock_Total";
    m ← gt0_series s;
    let en_stock := len (loc stock_df m) in
    s ← getitem stock_df "Stock_Total";
    m ← le0_series s;
    let agotados := len (loc stock_df m) in
    s ← getitem stock_df "Stock_Total";
    total ← series_sum ar Stock_Total s;
    centro ← getitem stock_df "Centro";
    tipo ← getitem stock_df "Tipo_Almacén";
    mret (Some (mkInventario en_stock agotados total
                  (length (unique centro)) (length (unique tipo))))
  else mret None.

(** Number of occurrences of a label, as [value_counts] counts them. *)
Definition cuenta (l : string) (labels : list string) : nat :=
  length (filter (λ x, x = l) labels).

(** The label of a stock quantity by its thresholds. *)
Definition estado_de (q : Qc) (l : string) : Prop :=
  (l = "Sin Stock" ↔ (q ≤ 0)%Qc)
  ∧ (l = "Stock Bajo" ↔ (0 < q)%Qc ∧ (q ≤ Qc_of_Z 50)%Qc)
  ∧ (l = "Stock Normal" ↔ (Qc_of_Z 50 < q)%Qc).

Definition stock_demo : DataFrame :=
  mkDF ["Material"; "Centro"; "Tipo_Almacén"; "Stock_Total"]
       [[VStr "MAT1000"; VStr "1100"; VStr "Z01"; VNum (of_Z 0)];
        [VStr "MAT1001"; VStr "1100"; VStr "Z02"; VNum (of_Z 50)];
        [VStr "MAT1002"; VStr "1200"; VStr "Z01"; VNum (of_Z 51)];
        [VStr "MAT1003"; VStr "1200"; VStr "Z01"; VNum (of_Z 7)]].

(* ===================================================================== *)
(** * Vocabulary of the specification: KPIs *)
(* ===================================================================== *)

(** The cell of row [r] under label [c]; null when the label is absent. *)
Definition field (df : DataFrame) (c : string) (r : Row) : value :=
  from_option (λ i, cell i r) VNull (col_index c (columns df)).

(** The finite number held by a cell, zero for any other cell. *)
Definition amount (v : value) : Qc :=
  match v with VNum (Fin q) => q | _ => 0%Qc end.

Definition has_column (df : DataFrame) (c : string) : bool :=
  bool_decide (c ∈ columns df).

Definition finite_cell (v : value) : bool :=
  match v with VNum (Fin _) => true | _ => false end.

(** Column [c] exists and holds a finite number in every row. *)
Definition finite_column (df : DataFrame) (c : string) : bool :=
  has_column df c && forallb (λ r, finite_cell (field df c r)) (rows df).

(** The number held by a cell of a finite column. *)
Definition numero (v : value) : float64 := Fin (amount v).

(** Quantity times unit net value of a sales row. *)
Definition importe (ar : Aritmetica) (ventas : DataFrame) (r : Row) : float64 :=
  producto ar (numero (field ventas "Cantidad" r))
              (numero (field ventas "Valor_Neto" r)).

(** Sum over the sales rows of quantity times unit net value. *)
Definition total_ventas_spec (ar : Aritmetica) (ventas : DataFrame) : float64 :=
  suma ar Importes (importe ar ventas <$> rows ventas).

(** The document ids that occur in the sales table. *)
Definition docs_ventas_spec (ventas : DataFrame) : list value :=
  field ventas "Doc_Venta" <$> rows ventas.

(** A payment row is matched when its invoice reference is a document id
    of the sales table. *)
Definition pago_casado (ventas pagos : DataFrame) (r : Row) : Prop :=
  field pagos "Referencia_Factura" r ∈ docs_ventas_spec ventas.

Global Instance pago_casado_dec ventas pagos r :
  Decision (pago_casado ventas pagos r).
Proof. unfold pago_casado. apply _. Defined.

(** Sum of the payment amounts over the matched payment rows. *)
Definition total_pagado_spec (ar : Aritmetica) (ventas pagos : DataFrame)
  : float64 :=
  suma ar Monto_Pago
    ((λ r, numero (field pagos "Monto_Pago" r))
     <$> filter (pago_casado ventas pagos) (rows pagos)).

(** The tables the data model describes, as far as the KPIs read them. *)
Definition ventas_ok (ventas : DataFrame) : bool :=
  has_column ventas "Doc_Venta"
  && finite_column ventas "Cantidad"
  && finite_column ventas "Valor_Neto".

Definition pagos_ok (pagos : DataFrame) : bool :=
  has_column pagos "Referencia_Factura"
  && finite_column pagos "Monto_Pago".

(** The integer held by a cell, zero for a cell that holds none. *)
Definition entero (v : value) : Z :=
  match v with VNum (Fin q) => Qnum q | _ => 0%Z end.

(** The cell holds an integer of magnitude at most [2^53]. *)
Definition entero_cell (v : value) : bool :=
  bool_decide (v = VNum (of_Z (entero v)))
  && bool_decide (Z.abs (entero v) ≤ max_exacto)%Z.

(** Column [c] exists and holds such an integer in every row. *)
Definition columna_entera (df : DataFrame) (c : string) : bool :=
  has_column df c && forallb (λ r, entero_cell (field df c r)) (rows df).

(** The amounts of the sales rows and all the payment amounts, as
    integers. *)
Definition importes_Z (ventas : DataFrame) : list Z :=
  (λ r, entero (field ventas "Cantidad" r)
        * entero (field ventas "Valor_Neto" r))%Z <$> rows ventas.

Definition montos_Z (pagos : DataFrame) : list Z :=
  (λ r, entero (field pagos "Monto_Pago" r)) <$> rows pagos.

(** Tables of integers small enough for the arithmetic to be exact:
    quantities, net values and payment amounts are integers, and the
    magnitudes of all amounts and of all payments add up to at most
    [2^53]. *)
Definition tablas_enteras (ventas pagos : DataFrame) : bool :=
  has_column ventas "Doc_Venta"
  && columna_entera ventas "Cantidad"
  && columna_entera ventas "Valor_Neto"
  && has_column pagos "Referencia_Factura"
  && columna_entera pagos "Monto_Pago"
  && bool_decide (suma_abs (importes_Z ventas) + suma_abs (montos_Z pagos)
                  ≤ max_exacto)%Z.

(** The two totals of the specification as sums of integers. *)
Definition total_ventas_Z (ventas : DataFrame) : Z := suma_Z (importes_Z ventas).

Definition total_pagado_Z (ventas pagos : DataFrame) : Z :=
  suma_Z ((λ r, entero (field pagos "Monto_Pago" r))
          <$> filter (pago_casado ventas pagos) (rows pagos)).

Definition ejemplo_ventas : DataFrame :=
  mkDF ["Doc_Venta"; "Cantidad"; "Valor_Neto"]
       [[VNum (of_Z 1); VNum (of_Z 2); VNum (of_Z 100)]].

Definition ejemplo_pagos : DataFrame :=
  mkDF ["Referencia_Factura"; "Monto_Pago"]
       [[VNum (of_Z 1); VNum (of_Z 150)];
        [VNum (of_Z 2); VNum (of_Z 999)]].

(** A sale of 3037000500 units at 3037000500 each, whose amount is
    beyond [2^63], and a sale of 3 units at 0.1 each. *)
Definition ventas_grandes : DataFrame :=
  mkDF ["Doc_Venta"; "Cantidad"; "Valor_Neto"]
       [[VNum (of_Z 1); VNum (of_Z 3037000500); VNum (of_Z 3037000500)]].

Definition ventas_decimales : DataFrame :=
  mkDF ["Doc_Venta"; "Cantidad"; "Valor_Neto"]
       [[VNum (of_Z 1); VNum (of_Z 3); VNum (Fin (Q2Qc (1 # 10)))]].

Definition pagos_vacios : DataFrame :=
  mkDF ["Referencia_Factura"; "Monto_Pago"] [].

Definition cero : KPIs := (Fin 0%Qc, Fin 0%Qc, Fin 0%Qc).

Definition total_pagado_de (k : KPIs) : float64 := k.1.2.

Definition ejemplo_ventas_dup : DataFrame :=
  mkDF (columns ejemplo_ventas) (rows ejemplo_ventas ++ rows ejemplo_ventas)%list.

(* ===================================================================== *)
(** * Vocabulary of the specification: filters *)
(* ===================================================================== *)

(** A row passes a list filter on column [c]: an absent or empty list
    lets every row pass. *)
Definition pasa_lista (df : DataFrame) (c : string) (o : option (list string))
    (r : Row) : Prop :=
  truthy_list o → field df c r ∈ VStr <$> default [] o.

(** A row passes the currency filter: absent, empty and ["Todas"] let
    every row pass. *)
Definition pasa_moneda (df : DataFrame) (moneda : option string) (r : Row)
  : Prop :=
  truthy_str moneda && bool_decide (moneda ≠ Some "Todas") →
  field df "Moneda" r = VStr (default "" moneda).

Definition pasa_filtros (df : DataFrame)
    (productos clientes : option (list string)) (moneda : option string)
    (r : Row) : Prop :=
  pasa_lista df "Producto" productos r
  ∧ pasa_lista df "Nombre_Cliente" clientes r
  ∧ pasa_moneda df moneda r.

Global Instance pasa_lista_dec df c o r : Decision (pasa_lista df c o r).
Proof. unfold pasa_lista. apply _. Defined.
Global Instance pasa_moneda_dec df m r : Decision (pasa_moneda df m r).
Proof. unfold pasa_moneda. apply _. Defined.
Global Instance pasa_filtros_dec df p c m r : Decision (pasa_filtros df p c m r).
Proof. unfold pasa_filtros. apply _. Defined.

(** Whether the [try] block of [aplicar_filtros] raises depends on the
    column labels and the filters only. *)
Definition filtros_fallan (cols : list string)
    (productos clientes : option (list string)) (moneda : option string)
  : Prop :=
  (truthy_list productos ∧ "Producto" ∉ cols)
  ∨ (truthy_list clientes ∧ "Nombre_Cliente" ∉ cols)
  ∨ (truthy_str moneda && bool_decide (moneda ≠ Some "Todas")
     ∧ "Moneda" ∉ cols).

Global Instance filtros_fallan_dec cols p c m : Decision (filtros_fallan cols p c m).
Proof. unfold filtros_fallan. apply _. Defined.

Definition lista_ausente (o : option (list string)) : Prop :=
  o = None ∨ o = Some [].

Definition moneda_ausente (o : option string) : Prop :=
  o = None ∨ o = Some "Todas".

Definition ventas_sin_cliente : DataFrame :=
  mkDF ["Producto"] [[VStr "Laptop"]; [VStr "Tablet"]].

(* ===================================================================== *)
(** * Vocabulary of the specification: date range *)
(* ===================================================================== *)

(** A cell of a [datetime64] column: a timestamp or [NaT]. *)
Definition datetime_cell (v : value) : bool :=
  match v with VDate _ | VNull => true | _ => false end.

Definition datetime_column (df : DataFrame) (c : string) : bool :=
  has_column df c && forallb (λ r, datetime_cell (field df c r)) (rows df).

(** The lower bound, inclusive; an absent bound accepts every cell. *)
Definition desde_ok (desde : option date) (v : value) : bool :=
  match desde, v with
  | None, _ => true
  | Some d, VDate t => (to_datetime_date d <=? t)%Z
  | Some _, _ => false
  end.

(** The upper bound, inclusive; an absent bound accepts every cell. *)
Definition hasta_ok (hasta : option date) (v : value) : bool :=
  match hasta, v with
  | None, _ => true
  | Some d, VDate t => (t <=? to_datetime_date d)%Z
  | Some _, _ => false
  end.

Definition en_rango (desde hasta : option date) (v : value) : bool :=
  desde_ok desde v && hasta_ok hasta v.

Definition ventas_fechas : DataFrame :=
  mkDF ["Canal"; "Fecha_Doc"]
       [[VStr "Online"; VDate (to_datetime_date 9%Z)];
        [VStr "Online"; VDate (to_datetime_date 10%Z)];
        [VStr "Tienda"; VDate (to_datetime_date 20%Z)];
        [VStr "Tienda"; VDate (to_datetime_date 21%Z)];
        [VStr "Tienda"; VNull]].

(** The outcome of one comparison on a [datetime64] cell. *)
Definition cmp_ok (cmp : Timestamp → Timestamp → bool) (ts : Timestamp)
    (v : value) : bool :=
  match v with VDate t => cmp t ts | _ => false end.

(** The rows that reach the date filters: the result of [aplicar_filtros]
    narrowed by the channel filter. *)
Definition filas_base (df : DataFrame)
    (productos clientes canales : option (list string))
    (moneda : option string) : list Row :=
  filter (pasa_lista df "Canal" canales)
    (if decide (filtros_fallan (columns df) productos clientes moneda)
     then rows df
     else filter (pasa_filtros df productos clientes moneda) (rows df)).

(* ===================================================================== *)
(** * Vocabulary of the specification: missing files *)
(* ===================================================================== *)

(** The file name occurs in the message. *)
Definition mentions (file msg : string) : bool :=
  bool_decide (is_Some (String.index 0 file msg)).

(** The required files that are absent, in the order of [archivos]. *)
Definition archivos_faltantes (fs : FileSystem) (base : string) : list string :=
  filter (λ a, ¬ path_exists fs (path_join base a)) (snd <$> archivos).

(** The message names exactly the given files among the required ones. *)
Definition nombra_exactamente (msg : string) (faltantes : list string) : Prop :=
  ∀ a, a ∈ (snd <$> archivos) → (mentions a msg ↔ a ∈ faltantes).

(** The conversions used in the examples: text is read as an unsigned
    decimal integer or as one of the infinities (["inf"], ["-inf"], as
    [pd.to_numeric] reads them), and no text is read as a date.  The
    examples below only convert texts on which this agrees with pandas;
    the theorems hold for every [Conversions]. *)
Fixpoint digits_value (acc : Z) (s : string) : option Z :=
  match s with
  | EmptyString => Some acc
  | String a s' =>
      let n := Z.of_nat (Ascii.nat_of_ascii a) in
      if bool_decide (48 ≤ n ≤ 57)%Z
      then digits_value (10 * acc + (n - 48))%Z s'
      else None
  end.

Definition numeric_of_str_basic (s : string) : float64 :=
  if decide (s = "inf") then PInf
  else if decide (s = "-inf") then NInf
  else match s with
       | EmptyString => NaN
       | _ => from_option of_Z NaN (digits_value 0 s)
       end.

Definition conv_basic : Conversions :=
  mkConversions numeric_of_str_basic (λ _, NaN) (λ _, None) (λ _, None).

(** An order of the sets of one process: the order of the list. *)
Definition orden_lista : SetOrder :=
  mkSetOrder id (λ l, Permutation_refl l).

Definition solo_ventas : FileSystem :=
  {[ "F_ventas_sap.xlsx" := ejemplo_ventas ]}.

(* ===================================================================== *)
(** * Vocabulary of the specification: cleaning *)
(* ===================================================================== *)

(** Every row has one cell per column. *)
Definition rectangular (df : DataFrame) : bool :=
  forallb (λ r, bool_decide (length r = length (columns df))) (rows df).

(** The clean cell of a numeric column, given the raw cell: the number
    the raw cell converts to, and zero when it does not convert.  The
    clean cell is never null; it is finite unless the raw cell converts
    to an infinity. *)
Definition numero_limpio (conv : Conversions) (raw clean : value) : Prop :=
  let x := to_numeric_cell conv raw in
  clean = VNum (if is_nan x then Fin 0%Qc else x)
  ∧ isna clean = false
  ∧ (is_nan x || is_finite x → finite_cell clean).

(** The clean cell of a date column: the timestamp the raw cell parses
    to, and the null marker when it does not parse. *)
Definition fecha_limpia (conv : Conversions) (raw clean : value) : Prop :=
  clean = from_option VDate VNull (parse_datetime conv raw).

(** A row with the cell at position [i] rewritten by [g]. *)
Definition upd (i : nat) (g : value → value) (r : Row) : Row :=
  <[i := g (cell i r)]> r.

Definition limpiar_numero (conv : Conversions) (v : value) : value :=
  VNum (let x := to_numeric_cell conv v in if is_nan x then Fin 0%Qc else x).

Definition limpiar_fecha (conv : Conversions) (v : value) : value :=
  from_option VDate VNull (parse_datetime conv v).

Definition upd_opt (o : option nat) (g : value → value) (r : Row) : Row :=
  from_option (λ i, upd i g r) r o.

(** The tables are loaded, rectangular, and have the columns that
    [_limpiar_datos] reads. *)
Definition tablas_cargadas (self : SAPDataProcessor) (v p s : DataFrame) : Prop :=
  ventas_df self = Some v ∧ pagos_df self = Some p ∧ stock_df self = Some s.

Definition limpiables (v p s : DataFrame) : bool :=
  rectangular v && rectangular p && rectangular s
  && has_column v "Doc_Venta" && has_column v "Cantidad"
  && has_column v "Valor_Neto"
  && has_column p "Referencia_Factura" && has_column p "Monto_Pago"
  && has_column s "Stock_Total".

(** A clean sales row against the raw row it comes from. *)
Definition venta_limpia (conv : Conversions) (v v' : DataFrame) (r r' : Row)
  : Prop :=
  field v' "Doc_Venta" r' = field v "Doc_Venta" r
  ∧ isna (field v' "Doc_Venta" r') = false
  ∧ numero_limpio conv (field v "Cantidad" r) (field v' "Cantidad" r')
  ∧ numero_limpio conv (field v "Valor_Neto" r) (field v' "Valor_Neto" r')
  ∧ (has_column v "Fecha_Doc" →
     fecha_limpia conv (field v "Fecha_Doc" r) (field v' "Fecha_Doc" r')).

(** A clean payment row against the raw row it comes from. *)
Definition pago_limpio (conv : Conversions) (p p' : DataFrame) (r r' : Row)
  : Prop :=
  field p' "Referencia_Factura" r' = field p "Referencia_Factura" r
  ∧ isna (field p' "Referencia_Factura" r') = false
  ∧ numero_limpio conv (field p "Monto_Pago" r) (field p' "Monto_Pago" r').

(** A clean stock row against the raw row it comes from. *)
Definition stock_limpio (conv : Conversions) (s s' : DataFrame) (r r' : Row)
  : Prop :=
  numero_limpio conv (field s "Stock_Total" r) (field s' "Stock_Total" r').

Definition ventas_sucias : DataFrame :=
  mkDF ["Doc_Venta"; "Fecha_Doc"; "Cantidad"; "Valor_Neto"]
       [[VNum (of_Z 1); VStr "ayer"; VStr "3"; VNum (of_Z 100)];
        [VNull; VDate 0%Z; VNum (of_Z 1); VNum (of_Z 1)];
        [VNum (of_Z 2); VDate 0%Z; VStr "tres"; VNull];
        [VNum (of_Z 3); VDate 0%Z; VStr "inf"; VNum (of_Z 5)]].

Definition pagos_sucios : DataFrame :=
  mkDF ["Referencia_Factura"; "Monto_Pago"]
       [[VNum (of_Z 1); VStr "150"]; [VNull; VNum (of_Z 7)]].

Definition stock_sucio : DataFrame :=
  mkDF ["Centro"; "Stock_Total"] [[VStr "1100"; VStr "n/a"]].

Definition procesador_sucio : SAPDataProcessor :=
  mkProcessor "." (Some ventas_sucias) (Some pagos_sucios) (Some stock_sucio).

Global Instance SAPDataProcessor_eq_dec : EqDecision SAPDataProcessor.
Proof. solve_decision. Defined.

Definition ventas_limpias : DataFrame :=
  mkDF ["Doc_Venta"; "Fecha_Doc"; "Cantidad"; "Valor_Neto"]
       [[VNum (of_Z 1); VNull; VNum (of_Z 3); VNum (of_Z 100)];
        [VNum (of_Z 2); VDate 0%Z; VNum (of_Z 0); VNum (of_Z 0)];
        [VNum (of_Z 3); VDate 0%Z; VNum PInf; VNum (of_Z 5)]].

Definition pagos_limpios : DataFrame :=
  mkDF ["Referencia_Factura"; "Monto_Pago"] [[VNum (of_Z 1); VNum (of_Z 150)]].

Definition stock_limpio_ej : DataFrame :=
  mkDF ["Centro"; "Stock_Total"] [[VStr "1100"; VNum (of_Z 0)]].

(* ===================================================================== *)
(** * Vocabulary of the specification: report *)
(* ===================================================================== *)

(** Number of distinct values of a column. *)
Definition distintos (df : DataFrame) (c : string) : nat :=
  length (remove_dups (field df c <$> rows df)).

(** Number of stock rows with a positive quantity. *)
Definition con_existencia (stock : DataFrame) : nat :=
  length (filter (λ r, (0 < amount (field stock "Stock_Total" r))%Qc)
                 (rows stock)).

(** Total stock units: the sum of the stock quantities. *)
Definition unidades (ar : Aritmetica) (stock : DataFrame) : float64 :=
  suma ar Stock_Total ((λ r, numero (field stock "Stock_Total" r)) <$> rows stock).

(** The ten metrics of the summary sheet, computed from the three tables. *)
Definition resumen_spec (ar : Aritmetica) (ventas pagos stock : DataFrame)
  : DataFrame :=
  mkDF ["Métrica"; "Valor"]
    [[VStr "Total Ventas"; VNum (total_ventas_spec ar ventas)];
     [VStr "Total Pagado"; VNum (total_pagado_spec ar ventas pagos)];
     [VStr "Pendiente por Cobrar";
      VNum (diferencia ar (total_ventas_spec ar ventas)
                          (total_pagado_spec ar ventas pagos))];
     [VStr "Productos Únicos"; VNum (of_nat (distintos ventas "Producto"))];
     [VStr "Clientes Únicos"; VNum (of_nat (distintos ventas "Nombre_Cliente"))];
     [VStr "Transacciones de Venta"; VNum (of_nat (length (rows ventas)))];
     [VStr "Transacciones de Pago"; VNum (of_nat (length (rows pagos)))];
     [VStr "Materiales en Stock"; VNum (of_nat (con_existencia stock))];
     [VStr "Centros de Distribución"; VNum (of_nat (distintos stock "Centro"))];
     [VStr "Stock Total (Unidades)"; VNum (unidades ar stock)]].

(** The tables of the data model, as far as the report reads them. *)
Definition reporte_ok (ventas pagos stock : DataFrame) : bool :=
  ventas_ok ventas && has_column ventas "Producto"
  && has_column ventas "Nombre_Cliente"
  && pagos_ok pagos
  && has_column stock "Centro" && finite_column stock "Stock_Total".

Definition ejemplo_ventas_rep : DataFrame :=
  mkDF ["Doc_Venta"; "Nombre_Cliente"; "Producto"; "Cantidad"; "Valor_Neto"]
       [[VNum (of_Z 1); VStr "ACME"; VStr "Laptop"; VNum (of_Z 2); VNum (of_Z 100)];
        [VNum (of_Z 1); VStr "ACME"; VStr "Router"; VNum (of_Z 1); VNum (of_Z 50)]].

Definition ejemplo_stock : DataFrame :=
  mkDF ["Material"; "Centro"; "Stock_Total"]
       [[VStr "MAT1000"; VStr "1100"; VNum (of_Z 10)];
        [VStr "MAT1001"; VStr "1100"; VNum (of_Z 0)]].

(* ===================================================================== *)
(** * Vocabulary of the specification: schema and loading *)
(* ===================================================================== *)

(** Table [df] has every column required of the dataset [nombre]. *)
Definition esquema_completo (nombre : string) (df : DataFrame) : bool :=
  forallb (λ c, bool_decide (c ∈ columns df)) (requeridas nombre).

(** The first dataset, in the order sales, payments, stock, that lacks a
    required column. *)
Definition primer_incompleto (v p s : DataFrame) : option (string * DataFrame) :=
  if negb (esquema_completo "ventas" v) then Some ("ventas", v)
  else if negb (esquema_completo "pagos" p) then Some ("pagos", p)
  else if negb (esquema_completo "stock" s) then Some ("stock", s)
  else None.

(** The three files are on disk under [base] and hold [v], [p] and [s]. *)
Definition en_disco (fs : FileSystem) (base : string) (v p s : DataFrame) : Prop :=
  fs !! path_join base (archivo "ventas") = Some v
  ∧ fs !! path_join base (archivo "pagos") = Some p
  ∧ fs !! path_join base (archivo "stock") = Some s.

Definition ventas_crudas : DataFrame :=
  mkDF ["Doc_Venta"; "Fecha_Doc"; "Cliente"; "Nombre_Cliente"; "Canal";
        "Producto"; "Cantidad"; "Valor_Neto"; "Moneda"; "Notas"]
       [[VNum (of_Z 1); VDate 0%Z; VStr "C1"; VStr "ACME"; VStr "Online";
         VStr "Laptop"; VStr "2"; VNum (of_Z 100); VStr "COP"; VStr "x"];
        [VNull; VDate 0%Z; VStr "C1"; VStr "ACME"; VStr "Online";
         VStr "Laptop"; VNum (of_Z 1); VNum (of_Z 1); VStr "COP"; VNull]].

Definition pagos_crudos : DataFrame :=
  mkDF ["Referencia_Factura"; "Doc_Pago"; "Fecha_Pago"; "Cliente";
        "Nombre_Cliente"; "Banco"; "Monto_Pago"; "Moneda"]
       [[VNum (of_Z 1); VNum (of_Z 700001); VStr "hoy"; VStr "C1"; VStr "ACME";
         VStr "BBVA"; VStr "150"; VStr "COP"]].

Definition stock_crudo : DataFrame :=
  mkDF ["Material"; "Descripción"; "Centro"; "Tipo_Almacén"; "Stock_Total";
        "Unidad_Medida"]
       [[VStr "MAT1000"; VStr "Laptop"; VStr "1100"; VStr "Z01"; VNull;
         VStr "UN"]].

(** A payments table without its [Monto_Pago] column. *)
Definition pagos_sin_monto : DataFrame :=
  mkDF ["Referencia_Factura"; "Doc_Pago"; "Fecha_Pago"; "Cliente";
        "Nombre_Cliente"; "Banco"; "Moneda"]
       [[VNum (of_Z 1); VNum (of_Z 700001); VStr "hoy"; VStr "C1"; VStr "ACME";
         VStr "BBVA"; VStr "COP"]].

Definition disco_ejemplo (p : DataFrame) : FileSystem :=
  {[ "F_ventas_sap.xlsx" := ventas_crudas;
     "F_pagos_clientes.xlsx" := p;
     "MM_stock_actual.xlsx" := stock_crudo ]}.

(* ===================================================================== *)
(** * Vocabulary of the specification: cleaning, row by row *)
(* ===================================================================== *)

(** The tables have the columns that [_limpiar_datos] reads. *)
Definition columnas_limpieza (v p s : DataFrame) : bool :=
  has_column v "Doc_Venta" && has_column v "Cantidad"
  && has_column v "Valor_Neto"
  && has_column p "Referencia_Factura" && has_column p "Monto_Pago"
  && has_column s "Stock_Total".

(** A row with the cell under label [c] rewritten by [g]; the row is left
    as it is when the table has no such column. *)
Definition reescribir (df : DataFrame) (c : string) (g : value → value)
    (r : Row) : Row :=
  upd_opt (col_index c (columns df)) g r.

(** The sales table cleaned row by row: rows without a document id are
    left out; quantity and net value are made numbers; the document date
    is made a timestamp. *)
Definition ventas_limpiadas (conv : Conversions) (v : DataFrame) : DataFrame :=
  mkDF (columns v)
    ((reescribir v "Fecha_Doc" (limpiar_fecha conv)
      ∘ reescribir v "Valor_Neto" (limpiar_numero conv)
      ∘ reescribir v "Cantidad" (limpiar_numero conv))
     <$> filter (λ r, ¬ isna (field v "Doc_Venta" r)) (rows v)).

(** The payments table cleaned row by row. *)
Definition pagos_limpiados (conv : Conversions) (p : DataFrame) : DataFrame :=
  mkDF (columns p)
    ((reescribir p "Fecha_Pago" (limpiar_fecha conv)
      ∘ reescribir p "Monto_Pago" (limpiar_numero conv))
     <$> filter (λ r, ¬ isna (field p "Referencia_Factura" r)) (rows p)).

(** The stock table cleaned row by row. *)
Definition stock_limpiado (conv : Conversions) (s : DataFrame) : DataFrame :=
  mkDF (columns s) (reescribir s "Stock_Total" (limpiar_numero conv) <$> rows s).

(** A payments table without its invoice reference column. *)
Definition pagos_sin_referencia : DataFrame :=
  mkDF ["Doc_Pago"; "Monto_Pago"] [[VNum (of_Z 700001); VStr "150"]].

(* ===================================================================== *)
(** * Vocabulary of the specification: filters and KPIs together *)
(* ===================================================================== *)

(** The table has the three columns that [aplicar_filtros] may read. *)
Definition columnas_filtro (df : DataFrame) : bool :=
  has_column df "Producto" && has_column df "Nombre_Cliente"
  && has_column df "Moneda".

(** No payment amount is negative. *)
Definition sin_negativos (pagos : DataFrame) : bool :=
  forallb (λ r, bool_decide (0 ≤ entero (field pagos "Monto_Pago" r))%Z)
          (rows pagos).

(** The second table has the columns of the first and a sublist of its
    rows. *)
Definition estrecha (d d' : DataFrame) : Prop :=
  columns d' = columns d ∧ rows d' `sublist_of` rows d.

(** No sales row has a negative amount (quantity times net value). *)
Definition importes_no_negativos (ventas : DataFrame) : bool :=
  forallb (λ r, bool_decide (0 ≤ entero (field ventas "Cantidad" r)
                                 * entero (field ventas "Valor_Neto" r))%Z)
          (rows ventas).

Definition ventas_demo : DataFrame :=
  mkDF ["Doc_Venta"; "Fecha_Doc"; "Nombre_Cliente"; "Canal"; "Producto";
        "Cantidad"; "Valor_Neto"; "Moneda"]
       [[VNum (of_Z 1); VDate (to_datetime_date 10%Z); VStr "ACME";
         VStr "Online"; VStr "Laptop"; VNum (of_Z 2); VNum (of_Z 100); VStr "COP"];
        [VNum (of_Z 2); VNull; VStr "ACME";
         VStr "Tienda"; VStr "Router"; VNum (of_Z 1); VNum (of_Z 50); VStr "USD"];
        [VNum (of_Z 3); VDate (to_datetime_date 12%Z); VStr "Globex";
         VStr "Online"; VStr "Laptop"; VNum (of_Z 1); VNum (of_Z 100); VStr "COP"]].

Definition pagos_demo : DataFrame :=
  mkDF ["Referencia_Factura"; "Monto_Pago"]
       [[VNum (of_Z 1); VNum (of_Z 150)];
        [VNum (of_Z 2); VNum (of_Z 50)];
        [VNum (of_Z 3); VNum (of_Z 20)]].

(* ===================================================================== *)
(** * Vocabulary of the specification: degraded reports *)
(* ===================================================================== *)

(** A workbook with the three table sheets and a summary sheet whose ten
    values are given. *)
Definition libro_con_resumen (ventas pagos stock : DataFrame)
    (valores : list float64) : Workbook :=
  [mkSheet "Ventas" ventas; mkSheet "Pagos" pagos; mkSheet "Stock" stock;
   mkSheet "Resumen" (resumen_frame metricas valores)].

(** A sales table without its [Producto] column. *)
Definition ventas_sin_producto : DataFrame :=
  mkDF ["Doc_Venta"; "Cantidad"; "Valor_Neto"; "Nombre_Cliente"]
       [[VNum (of_Z 1); VNum (of_Z 2); VNum (of_Z 100); VStr "ACME"]].

(* ===================================================================== *)
(** * Vocabulary of the specification: loaded data *)
(* ===================================================================== *)

(** A cell that arithmetic accepts: a number or a null. *)
Definition sumable (v : value) : bool :=
  match v with VNum _ | VNull => true | _ => false end.

(** A sales row passes every filter of the dashboard. *)
Definition pasa_todo (df : DataFrame)
    (productos clientes canales : option (list string))
    (moneda : option string) (desde hasta : option date) (r : Row) : Prop :=
  pasa_filtros df productos clientes moneda r
  ∧ pasa_lista df "Canal" canales r
  ∧ en_rango desde hasta (field df "Fecha_Doc" r).

Global Instance pasa_todo_dec df p c ch m d h r :
  Decision (pasa_todo df p c ch m d h r).
Proof. unfold pasa_todo. apply _. Defined.

(* ===================================================================== *)
(** * Lemmas on series and frames *)
(* ===================================================================== *)

Lemma col_index_Some c cols : c ∈ cols → is_Some (col_index c cols).
Proof.
  induction cols as [|c' cols IH]; [by intros ?%elem_of_nil|].
  intros Hc. simpl. case_decide; [eauto|].
  apply elem_of_cons in Hc as [?|Hc]; [done|].
  destruct (IH Hc) as [i ->]. eauto.
Qed.

Lemma col_index_None c cols : c ∉ cols → col_index c cols = None.
Proof.
  induction cols as [|c' cols IH]; [done|].
  intros Hc. apply not_elem_of_cons in Hc as [? Hc].
  simpl. case_decide; [done|]. by rewrite IH.
Qed.

Lemma getitem_field df c :
  c ∈ columns df → getitem df c = Ok (field df c <$> rows df).
Proof.
  intros [i Hi]%col_index_Some. unfold getitem, field. by rewrite Hi.
Qed.

Lemma getitem_missing df c :
  c ∉ columns df → getitem df c = Raise (KeyError c).
Proof. intros Hc. unfold getitem. by rewrite col_index_None. Qed.

Lemma has_column_elem_of df c : has_column df c → c ∈ columns df.
Proof. unfold has_column. by intros ?%bool_decide_unpack. Qed.

Lemma select_mask_filter {A} (f : A → bool) (l : list A) :
  select_mask l (f <$> l) = filter (λ x, f x) l.
Proof.
  induction l as [|x l IH]; [done|].
  rewrite filter_cons, fmap_cons. simpl. rewrite IH.
  by destruct (f x).
Qed.

Lemma field_loc df m c : field (loc df m) c = field df c.
Proof. done. Qed.

Lemma elem_of_unique (s : Series) v : v ∈ unique s ↔ v ∈ s.
Proof.
  induction s as [|w s IH]; [done|]. simpl.
  rewrite !elem_of_cons, list_elem_of_filter, IH.
  destruct (decide (v = w)); tauto.
Qed.

Lemma NoDup_unique (s : Series) : NoDup (unique s).
Proof.
  induction s as [|w s IH]; simpl; [constructor|].
  constructor; [|by apply NoDup_filter].
  rewrite list_elem_of_filter. tauto.
Qed.

Lemma finite_cell_amount v : finite_cell v → v = VNum (Fin (amount v)).
Proof. by destruct v as [|[]| |]. Qed.

Lemma finite_column_unpack df c :
  finite_column df c →
  c ∈ columns df ∧ Forall (λ r, finite_cell (field df c r)) (rows df).
Proof.
  unfold finite_column. intros [Hc Hall]%andb_prop_elim. split.
  - by apply has_column_elem_of.
  - apply Forall_forall. intros r Hr.
    apply Is_true_true, forallb_forall with (x := r) in Hall;
      [by apply Is_true_true|by apply list_elem_of_In].
Qed.

Lemma as_floats_finite {A} (f : A → value) (l : list A) :
  Forall (λ r, finite_cell (f r)) l →
  as_floats (f <$> l) = Ok ((λ r, numero (f r)) <$> l).
Proof.
  induction 1 as [|r l Hr _ IH]; [done|].
  rewrite !fmap_cons. simpl. rewrite IH.
  by rewrite (finite_cell_amount (f r) Hr) at 1.
Qed.

Lemma zip_with_fmap_same {A B C D} (h : B → C → D) (f : A → B) (g : A → C)
    (l : list A) :
  zip_with h (f <$> l) (g <$> l) = (λ x, h (f x) (g x)) <$> l.
Proof. induction l as [|x l IH]; [done|]. csimpl. by rewrite IH. Qed.

Lemma rows_loc_isin df c (values : list value) :
  rows (loc df (isin values (field df c <$> rows df)))
  = filter (λ r, field df c r ∈ values) (rows df).
Proof.
  unfold isin. rewrite <- list_fmap_compose. simpl.
  etrans; [apply (select_mask_filter (λ r, bool_decide (field df c r ∈ values)))|].
  apply list_filter_iff. intros r. apply bool_decide_spec.
Qed.

(** On the tables of the data model, [calcular_kpis] computes the three
    indicators of the specification. *)
Lemma calcular_kpis_sums ar ventas pagos :
  ventas_ok ventas → pagos_ok pagos →
  calcular_kpis ar ventas pagos
  = Ok (total_ventas_spec ar ventas,
        total_pagado_spec ar ventas pagos,
        diferencia ar (total_ventas_spec ar ventas)
                      (total_pagado_spec ar ventas pagos)).
Proof.
  unfold ventas_ok, pagos_ok.
  intros [[Hdoc [Hc Hcant]%finite_column_unpack]%andb_prop_elim
          [Hv Hval]%finite_column_unpack]%andb_prop_elim
         [Href [Hm Hmonto]%finite_column_unpack]%andb_prop_elim.
  apply has_column_elem_of in Hdoc, Href.
  unfold calcular_kpis, calcular_kpis_body.
  rewrite (getitem_field _ _ Hc), (getitem_field _ _ Hv),
    (getitem_field _ _ Hdoc), (getitem_field _ _ Href).
  cbn [mbind result_bind]. unfold series_mul.
  rewrite (as_floats_finite _ _ Hcant), (as_floats_finite _ _ Hval).
  cbn [mbind result_bind mret result_ret].
  rewrite zip_with_fmap_same.
  rewrite (getitem_field (loc pagos _)) by done.
  cbn [mbind result_bind]. unfold series_sum.
  rewrite field_loc, rows_loc_isin.
  rewrite as_floats_finite.
  - cbn [fmap result_fmap catch].
    unfold total_ventas_spec, total_pagado_spec, pago_casado, docs_ventas_spec.
    rewrite (list_filter_iff _
      (λ r, field pagos "Referencia_Factura" r
            ∈ field ventas "Doc_Venta" <$> rows ventas))
      by (intros; apply elem_of_unique).
    done.
  - apply Forall_forall. intros r [_ Hr]%list_elem_of_filter.
    by eapply Forall_forall in Hmonto.
Qed.

Lemma select_mask_all_false {A B} (l : list A) (l' : list B) :
  select_mask l ((λ _, false) <$> l') = [].
Proof.
  revert l'. induction l as [|x l IH]; intros [|y l']; csimpl; try done.
Qed.

Lemma isin_nil (s : Series) : isin [] s = (λ _, false) <$> s.
Proof.
  unfold isin. apply list_fmap_ext. intros _ v _.
  apply bool_decide_eq_false, not_elem_of_nil.
Qed.

Lemma getitem_no_rows df c s :
  rows df = [] → getitem df c = Ok s → s = [].
Proof.
  unfold getitem. intros ->. destruct (col_index _ _); naive_solver.
Qed.

(** ** Sums of integers *)

Lemma suma_abs_nonneg l : (0 ≤ suma_abs l)%Z.
Proof. induction l as [|z l IH]; simpl; lia. Qed.

Lemma suma_Z_abs l : (Z.abs (suma_Z l) ≤ suma_abs l)%Z.
Proof. induction l as [|z l IH]; simpl; lia. Qed.

Lemma suma_abs_elem z l : z ∈ l → (Z.abs z ≤ suma_abs l)%Z.
Proof.
  induction 1 as [z l|z y l _ IH]; simpl.
  - pose proof (suma_abs_nonneg l). lia.
  - lia.
Qed.

Lemma suma_abs_sublist l' l : l' `sublist_of` l → (suma_abs l' ≤ suma_abs l)%Z.
Proof. induction 1; simpl; lia. Qed.

Lemma suma_Z_filter {A} (P : A → Prop) `{∀ x, Decision (P x)}
    (f : A → Z) (l : list A) :
  suma_Z (f <$> filter P l)
  = suma_Z ((λ x, if decide (P x) then f x else 0%Z) <$> l).
Proof.
  induction l as [|x l IH]; [done|].
  rewrite filter_cons. csimpl. destruct (decide (P x)); csimpl; by rewrite IH.
Qed.

(** Whatever the dtype, the sum of no number is 0, and 0 - 0 is 0. *)
Lemma suma_nil ar c : suma ar c [] = Fin 0%Qc.
Proof.
  rewrite <- Z2Qc_inj_0. apply (suma_exacta ar c []). done.
Qed.

Lemma diferencia_0 ar : diferencia ar (Fin 0%Qc) (Fin 0%Qc) = Fin 0%Qc.
Proof.
  rewrite <- Z2Qc_inj_0. apply (diferencia_exacta ar 0 0); done.
Qed.

(** ** Tables of integers *)

Lemma entero_cell_unpack v :
  entero_cell v →
  v = VNum (of_Z (entero v)) ∧ (Z.abs (entero v) ≤ max_exacto)%Z.
Proof.
  unfold entero_cell. intros [H1 H2]%andb_prop_elim.
  by apply bool_decide_unpack in H1, H2.
Qed.

Lemma entero_cell_finite v : entero_cell v → finite_cell v.
Proof. intros [-> _]%entero_cell_unpack. done. Qed.

Lemma numero_entero v : entero_cell v → numero v = of_Z (entero v).
Proof.
  intros [Hv _]%entero_cell_unpack. unfold numero.
  rewrite Hv at 1. done.
Qed.

Lemma columna_entera_unpack df c :
  columna_entera df c →
  finite_column df c ∧ Forall (λ r, entero_cell (field df c r)) (rows df).
Proof.
  unfold columna_entera, finite_column. intros [Hc Hall]%andb_prop_elim.
  assert (Hf : Forall (λ r, entero_cell (field df c r)) (rows df)).
  { apply Forall_forall. intros r Hr.
    apply Is_true_true, forallb_forall with (x := r) in Hall;
      [by apply Is_true_true|by apply list_elem_of_In]. }
  split; [|done]. apply andb_prop_intro. split; [done|].
  apply Is_true_true, forallb_forall. intros r Hr%list_elem_of_In.
  apply Is_true_true, entero_cell_finite.
  by eapply Forall_forall in Hf.
Qed.

Lemma tablas_enteras_unpack ventas pagos :
  tablas_enteras ventas pagos →
  ventas_ok ventas ∧ pagos_ok pagos
  ∧ Forall (λ r, entero_cell (field ventas "Cantidad" r)) (rows ventas)
  ∧ Forall (λ r, entero_cell (field ventas "Valor_Neto" r)) (rows ventas)
  ∧ Forall (λ r, entero_cell (field pagos "Monto_Pago" r)) (rows pagos)
  ∧ (suma_abs (importes_Z ventas) + suma_abs (montos_Z pagos) ≤ max_exacto)%Z.
Proof.
  unfold tablas_enteras, ventas_ok, pagos_ok.
  intros [[[[[Hd [Hc Hc']%columna_entera_unpack]%andb_prop_elim
              [Hv Hv']%columna_entera_unpack]%andb_prop_elim
             Hr]%andb_prop_elim
            [Hm Hm']%columna_entera_unpack]%andb_prop_elim
           Hb%bool_decide_unpack]%andb_prop_elim.
  split_and!; done.
Qed.

(** On tables of integers within range the three indicators are the
    exact sums, whatever the arithmetic. *)
Lemma kpis_enteros ar ventas pagos :
  tablas_enteras ventas pagos →
  total_ventas_spec ar ventas = of_Z (total_ventas_Z ventas)
  ∧ total_pagado_spec ar ventas pagos = of_Z (total_pagado_Z ventas pagos)
  ∧ diferencia ar (of_Z (total_ventas_Z ventas))
                  (of_Z (total_pagado_Z ventas pagos))
    = of_Z (total_ventas_Z ventas - total_pagado_Z ventas pagos).
Proof.
  intros (_ & _ & Hc & Hv & Hm & Hb)%tablas_enteras_unpack.
  pose proof (suma_abs_nonneg (importes_Z ventas)) as Hi0.
  pose proof (suma_abs_nonneg (montos_Z pagos)) as Hm0.
  assert (Hsub : (suma_abs ((λ r, entero (field pagos "Monto_Pago" r))
                            <$> filter (pago_casado ventas pagos) (rows pagos))
                  ≤ suma_abs (montos_Z pagos))%Z).
  { apply suma_abs_sublist, fmap_sublist, sublist_filter. }
  split_and!.
  - unfold total_ventas_spec, total_ventas_Z.
    rewrite <- (suma_exacta ar Importes) by lia. f_equal.
    unfold importes_Z. rewrite <- list_fmap_compose.
    apply list_fmap_ext. intros i r Hr%list_elem_of_lookup_2.
    simpl. unfold importe.
    pose proof (proj1 (Forall_forall _ _) Hc r Hr) as Hcr.
    pose proof (proj1 (Forall_forall _ _) Hv r Hr) as Hvr.
    cbv beta in Hcr, Hvr.
    rewrite (numero_entero _ Hcr), (numero_entero _ Hvr).
    apply producto_exacto.
    + by apply entero_cell_unpack in Hcr as [_ ?].
    + by apply entero_cell_unpack in Hvr as [_ ?].
    + assert (Hin : (entero (field ventas "Cantidad" r)
                     * entero (field ventas "Valor_Neto" r))%Z
                    ∈ importes_Z ventas).
      { unfold importes_Z.
        by apply (list_elem_of_fmap_2
          (λ r, entero (field ventas "Cantidad" r)
                * entero (field ventas "Valor_Neto" r))%Z). }
      apply suma_abs_elem in Hin. lia.
  - unfold total_pagado_spec, total_pagado_Z.
    rewrite <- (suma_exacta ar Monto_Pago) by lia. f_equal.
    rewrite <- list_fmap_compose.
    apply list_fmap_ext. intros i r [_ Hr]%list_elem_of_lookup_2%list_elem_of_filter.
    simpl. apply numero_entero.
    by apply (proj1 (Forall_forall _ _) Hm r).
  - apply diferencia_exacta.
    + pose proof (suma_Z_abs (importes_Z ventas)). unfold total_ventas_Z. lia.
    + pose proof (suma_Z_abs ((λ r, entero (field pagos "Monto_Pago" r))
                    <$> filter (pago_casado ventas pagos) (rows pagos))).
      unfold total_pagado_Z. lia.
    + pose proof (suma_Z_abs (importes_Z ventas)).
      pose proof (suma_Z_abs ((λ r, entero (field pagos "Monto_Pago" r))
                    <$> filter (pago_casado ventas pagos) (rows pagos))).
      unfold total_ventas_Z, total_pagado_Z. lia.
Qed.

Lemma calcular_kpis_enteros ar ventas pagos :
  tablas_enteras ventas pagos →
  calcular_kpis ar ventas pagos
  = Ok (of_Z (total_ventas_Z ventas),
        of_Z (total_pagado_Z ventas pagos),
        of_Z (total_ventas_Z ventas - total_pagado_Z ventas pagos)).
Proof.
  intros He. pose proof (tablas_enteras_unpack _ _ He) as (Hv & Hp & _).
  rewrite (calcular_kpis_sums ar _ _ Hv Hp).
  destruct (kpis_enteros ar _ _ He) as (-> & -> & ->). done.
Qed.

(* ===================================================================== *)
(** * Properties of the KPI calculator *)
(* ===================================================================== *)

(** The indicators in the two dtypes of numpy.  On [int64] columns the
    amount 3037000500 * 3037000500 wraps around to a negative total; on
    [float64] columns it is rounded, and 3 * 0.1 is
    0.30000000000000004. *)
Lemma calcular_kpis_dtypes :
  calcular_kpis aritmetica_int64 ventas_grandes pagos_vacios
  = Ok (of_Z (-9223372036709301616), of_Z 0, of_Z (-9223372036709301616))
  ∧ calcular_kpis aritmetica_float64 ventas_grandes pagos_vacios
    = Ok (of_Z 9223372037000249344, of_Z 0, of_Z 9223372037000249344)
  ∧ calcular_kpis aritmetica_float64 ventas_decimales pagos_vacios
    = Ok (Fin (Q2Qc (1351079888211149 # 4503599627370496)), of_Z 0,
          Fin (Q2Qc (1351079888211149 # 4503599627370496)))
  ∧ calcular_kpis aritmetica_exacta ventas_decimales pagos_vacios
    = Ok (Fin (Q2Qc (3 # 10)), of_Z 0, Fin (Q2Qc (3 # 10))).
Proof. split_and!; compute_done. Qed.

(** C1: on every filtered sales table and payments table of the data
    model, [calcular_kpis] returns (totalSales, totalPaid, pending) where
    totalSales is the sum of quantity times unit net value over the sales
    rows, totalPaid is the sum of the payment amounts over exactly the
    payments whose invoice reference is a document id of the sales table,
    and pending is their difference.  Sum, product and difference are
    those of the columns, whatever their dtype.  On tables of integers
    whose magnitudes add up to at most 2^53 they are the exact sums, and
    on the example of the specification the result is (200, 150, 50). *)
Theorem calcular_kpis_correct (ar : Aritmetica) :
  (∀ ventas pagos, ventas_ok ventas → pagos_ok pagos →
     calcular_kpis ar ventas pagos
     = Ok (total_ventas_spec ar ventas,
           total_pagado_spec ar ventas pagos,
           diferencia ar (total_ventas_spec ar ventas)
                         (total_pagado_spec ar ventas pagos)))
  ∧ (∀ ventas pagos, tablas_enteras ventas pagos →
       calcular_kpis ar ventas pagos
       = Ok (of_Z (total_ventas_Z ventas),
             of_Z (total_pagado_Z ventas pagos),
             of_Z (total_ventas_Z ventas - total_pagado_Z ventas pagos)))
  ∧ calcular_kpis ar ejemplo_ventas ejemplo_pagos
    = Ok (of_Z 200, of_Z 150, of_Z 50).
Proof.
  split_and!.
  - apply calcular_kpis_sums.
  - apply calcular_kpis_enteros.
  - by rewrite calcular_kpis_enteros by compute_done.
Qed.

Lemma calcular_kpis_correct_witness :
  ventas_ok ejemplo_ventas ∧ pagos_ok ejemplo_pagos
  ∧ tablas_enteras ejemplo_ventas ejemplo_pagos
  ∧ calcular_kpis aritmetica_exacta ejemplo_ventas ejemplo_pagos
    = Ok (total_ventas_spec aritmetica_exacta ejemplo_ventas,
          total_pagado_spec aritmetica_exacta ejemplo_ventas ejemplo_pagos,
          diferencia aritmetica_exacta
            (total_ventas_spec aritmetica_exacta ejemplo_ventas)
            (total_pagado_spec aritmetica_exacta ejemplo_ventas ejemplo_pagos))
  ∧ calcular_kpis aritmetica_exacta ejemplo_ventas ejemplo_pagos
    = Ok (of_Z (total_ventas_Z ejemplo_ventas),
          of_Z (total_pagado_Z ejemplo_ventas ejemplo_pagos),
          of_Z (total_ventas_Z ejemplo_ventas
                - total_pagado_Z ejemplo_ventas ejemplo_pagos)).
Proof.
  destruct (calcular_kpis_correct aritmetica_exacta) as (H1 & H2 & _).
  split; [compute_done|]. split; [compute_done|]. split; [compute_done|].
  split.
  - apply H1; compute_done.
  - apply H2; compute_done.
Defined.

Lemma calcular_kpis_total ar v p : ∃ k, calcular_kpis ar v p = Ok k.
Proof.
  unfold calcular_kpis. destruct (calcular_kpis_body ar v p); simpl; eauto.
Qed.

Lemma calcular_kpis_no_rows ar v p :
  rows v = [] → calcular_kpis ar v p = Ok cero.
Proof.
  intros Hv. unfold calcular_kpis, calcular_kpis_body.
  destruct (getitem v "Cantidad") as [s1|] eqn:H1; [|reflexivity].
  apply getitem_no_rows in H1 as ->; [|done].
  destruct (getitem v "Valor_Neto") as [s2|] eqn:H2; [|reflexivity].
  apply getitem_no_rows in H2 as ->; [|done].
  destruct (getitem v "Doc_Venta") as [s3|] eqn:H3; [|reflexivity].
  apply getitem_no_rows in H3 as ->; [|done].
  destruct (getitem p "Referencia_Factura") as [s4|] eqn:H4; [|reflexivity].
  cbn [mbind result_bind series_mul as_floats mret result_ret zip_with unique].
  rewrite isin_nil.
  destruct (getitem (loc p _) "Monto_Pago") as [s5|] eqn:H5; [|reflexivity].
  apply getitem_no_rows in H5 as ->;
    [|by unfold loc; simpl; apply select_mask_all_false].
  unfold series_sum.
  cbn [as_floats fmap result_fmap mbind result_bind mret result_ret catch].
  by rewrite !suma_nil, diferencia_0.
Qed.

(** C6: [calcular_kpis] never propagates an exception; on a sales table
    without rows it returns (0, 0, 0) whatever the payments table is, and
    whenever its computation raises it returns (0.0, 0.0, 0.0). *)
Theorem calcular_kpis_fail_soft (ar : Aritmetica) :
  (∀ ventas pagos, ∃ k, calcular_kpis ar ventas pagos = Ok k)
  ∧ (∀ ventas pagos, rows ventas = [] → calcular_kpis ar ventas pagos = Ok cero)
  ∧ (∀ ventas pagos e, calcular_kpis_body ar ventas pagos = Raise e →
       calcular_kpis ar ventas pagos = Ok cero).
Proof.
  split_and!.
  - apply calcular_kpis_total.
  - apply calcular_kpis_no_rows.
  - intros v p e He. unfold calcular_kpis. by rewrite He.
Qed.

Lemma calcular_kpis_fail_soft_witness :
  (∃ k, calcular_kpis aritmetica_exacta ejemplo_ventas ejemplo_pagos = Ok k)
  ∧ calcular_kpis aritmetica_exacta (mkDF (columns ejemplo_ventas) [])
      ejemplo_pagos = Ok cero
  ∧ calcular_kpis aritmetica_exacta ejemplo_pagos ejemplo_pagos = Ok cero.
Proof.
  destruct (calcular_kpis_fail_soft aritmetica_exacta) as (H1 & H2 & H3).
  split_and!.
  - apply H1.
  - by apply H2.
  - by apply (H3 _ _ (KeyError "Cantidad")).
Defined.

(** C10: the total paid is the sum over the payment rows whose reference
    is a document id of the sales table, each such row taken once: they
    are a sublist of the payment rows.  It depends on the sales table
    only through the set of its document ids, so repeated sales rows of
    one document do not multiply a payment.  On tables of integers within
    range it is the exact sum in which each payment row contributes its
    amount once when its reference is a document id and nothing
    otherwise. *)
Theorem total_pagado_once (ar : Aritmetica) ventas ventas' pagos :
  ventas_ok ventas → ventas_ok ventas' → pagos_ok pagos →
  (∀ d, d ∈ docs_ventas_spec ventas ↔ d ∈ docs_ventas_spec ventas') →
  ∃ k k',
    calcular_kpis ar ventas pagos = Ok k ∧
    calcular_kpis ar ventas' pagos = Ok k' ∧
    total_pagado_de k = total_pagado_de k' ∧
    total_pagado_de k
    = suma ar Monto_Pago
        ((λ r, numero (field pagos "Monto_Pago" r))
         <$> filter (pago_casado ventas pagos) (rows pagos)) ∧
    filter (pago_casado ventas pagos) (rows pagos) `sublist_of` rows pagos ∧
    (tablas_enteras ventas pagos →
     total_pagado_de k
     = of_Z (suma_Z ((λ r, if decide (pago_casado ventas pagos r)
                           then entero (field pagos "Monto_Pago" r)
                           else 0%Z) <$> rows pagos))).
Proof.
  intros Hv Hv' Hp Hdocs.
  eexists _, _. split_and!; [by apply calcular_kpis_sums..| | | |].
  - unfold total_pagado_de, total_pagado_spec. simpl. do 3 f_equal.
    apply list_filter_iff. intros r. apply Hdocs.
  - done.
  - apply sublist_filter.
  - intros He. unfold total_pagado_de. cbn [fst snd].
    destruct (kpis_enteros ar _ _ He) as (_ & -> & _).
    unfold total_pagado_Z. by rewrite suma_Z_filter.
Qed.

Lemma total_pagado_once_witness :
  ventas_ok ejemplo_ventas ∧ ventas_ok ejemplo_ventas_dup ∧
  pagos_ok ejemplo_pagos ∧
  ∃ k k',
    calcular_kpis aritmetica_exacta ejemplo_ventas ejemplo_pagos = Ok k ∧
    calcular_kpis aritmetica_exacta ejemplo_ventas_dup ejemplo_pagos = Ok k' ∧
    total_pagado_de k = total_pagado_de k' ∧
    total_pagado_de k = of_Z 150.
Proof.
  split_and!; [compute_done..|].
  destruct (total_pagado_once aritmetica_exacta ejemplo_ventas
              ejemplo_ventas_dup ejemplo_pagos)
    as (k & k' & Hk & Hk' & Heq & _ & _ & Hz); [compute_done..| |].
  { intros d. vm_compute docs_ventas_spec. rewrite !elem_of_cons. tauto. }
  exists k, k'. split_and!; [done..|].
  rewrite Hz by compute_done. compute_done.
Defined.

(* ===================================================================== *)
(** * Properties of the filter engine *)
(* ===================================================================== *)

Lemma filter_id {A} (P : A → Prop) `{∀ x, Decision (P x)} (l : list A) :
  Forall P l → filter P l = l.
Proof.
  induction 1 as [|x l Hx _ IH]; [done|].
  by rewrite filter_cons_True, IH.
Qed.

Lemma filter_idemp {A} (P : A → Prop) `{∀ x, Decision (P x)} (l : list A) :
  filter P (filter P l) = filter P l.
Proof.
  apply filter_id, Forall_forall. by intros x [? _]%list_elem_of_filter.
Qed.

Lemma field_same_columns df df' c :
  columns df' = columns df → field df' c = field df c.
Proof. unfold field. by intros ->. Qed.

Lemma filtrar_isin_Ok df c strs :
  c ∈ columns df →
  filtrar_isin df c strs
  = Ok (mkDF (columns df)
             (filter (λ r, field df c r ∈ VStr <$> strs) (rows df))).
Proof.
  intros Hc. unfold filtrar_isin, isin_str. rewrite (getitem_field _ _ Hc).
  cbn [mbind result_bind mret result_ret]. f_equal. unfold loc at 1. f_equal.
  apply rows_loc_isin.
Qed.

Lemma filtrar_eq_Ok df c x :
  c ∈ columns df →
  filtrar_eq df c x
  = Ok (mkDF (columns df) (filter (λ r, field df c r = VStr x) (rows df))).
Proof.
  intros Hc. unfold filtrar_eq, eq_str. rewrite (getitem_field _ _ Hc).
  cbn [mbind result_bind mret result_ret]. f_equal. unfold loc. f_equal.
  rewrite <- list_fmap_compose.
  etrans; [apply (select_mask_filter (λ r, bool_decide (field df c r = VStr x)))|].
  apply list_filter_iff. intros r. apply bool_decide_spec.
Qed.

Lemma filtrar_isin_Raise df c strs :
  c ∉ columns df → filtrar_isin df c strs = Raise (KeyError c).
Proof. intros Hc. unfold filtrar_isin. by rewrite getitem_missing. Qed.

Lemma filtrar_eq_Raise df c x :
  c ∉ columns df → filtrar_eq df c x = Raise (KeyError c).
Proof. intros Hc. unfold filtrar_eq. by rewrite getitem_missing. Qed.

(** One optional list filter: either it raises because its column is
    absent, or it keeps the rows that pass. *)
Lemma paso_lista df c o :
  (if truthy_list o then filtrar_isin df c (default [] o) else mret df)
  = if decide (truthy_list o ∧ c ∉ columns df) then Raise (KeyError c)
    else Ok (mkDF (columns df) (filter (pasa_lista df c o) (rows df))).
Proof.
  destruct (truthy_list o) eqn:Ht.
  - destruct (decide (c ∈ columns df)) as [Hc|Hc].
    + rewrite decide_False by tauto. rewrite (filtrar_isin_Ok _ _ _ Hc).
      do 2 f_equal. apply list_filter_iff. intros r.
      unfold pasa_lista. rewrite Ht. simpl. tauto.
    + rewrite decide_True by done. by apply filtrar_isin_Raise.
  - rewrite decide_False by (simpl; tauto).
    rewrite filter_id; [by destruct df|]. apply Forall_forall.
    intros r _. unfold pasa_lista. rewrite Ht. by intros [].
Qed.

Lemma paso_moneda df moneda :
  (if truthy_str moneda && bool_decide (moneda ≠ Some "Todas")
   then filtrar_eq df "Moneda" (default "" moneda) else mret df)
  = if decide (truthy_str moneda && bool_decide (moneda ≠ Some "Todas")
               ∧ "Moneda" ∉ columns df)
    then Raise (KeyError "Moneda")
    else Ok (mkDF (columns df) (filter (pasa_moneda df moneda) (rows df))).
Proof.
  destruct (truthy_str moneda && bool_decide (moneda ≠ Some "Todas")) eqn:Ht.
  - destruct (decide ("Moneda" ∈ columns df)) as [Hc|Hc].
    + rewrite decide_False by tauto. rewrite (filtrar_eq_Ok _ _ _ Hc).
      do 2 f_equal. apply list_filter_iff. intros r.
      unfold pasa_moneda. rewrite Ht. simpl. tauto.
    + rewrite decide_True by done. by apply filtrar_eq_Raise.
  - rewrite decide_False by (simpl; tauto).
    rewrite filter_id; [by destruct df|]. apply Forall_forall.
    intros r _. unfold pasa_moneda. rewrite Ht. by intros [].
Qed.

Lemma aplicar_filtros_body_Ok df productos clientes moneda :
  ¬ filtros_fallan (columns df) productos clientes moneda →
  aplicar_filtros_body df productos clientes moneda
  = Ok (mkDF (columns df)
             (filter (pasa_filtros df productos clientes moneda) (rows df))).
Proof.
  unfold filtros_fallan, aplicar_filtros_body. intros Hok.
  rewrite paso_lista, decide_False by tauto. cbn [mbind result_bind].
  rewrite paso_lista, decide_False by (simpl; tauto). cbn [mbind result_bind].
  rewrite paso_moneda, decide_False by (simpl; tauto).
  cbn [mbind result_bind mret result_ret columns rows]. do 2 f_equal.
  rewrite !list_filter_filter. apply list_filter_iff. intros r.
  unfold pasa_filtros, pasa_lista, pasa_moneda, field. simpl. tauto.
Qed.

Lemma aplicar_filtros_body_Raise df productos clientes moneda :
  filtros_fallan (columns df) productos clientes moneda →
  ∃ e, aplicar_filtros_body df productos clientes moneda = Raise e.
Proof.
  unfold filtros_fallan, aplicar_filtros_body. intros Hbad.
  rewrite paso_lista.
  destruct (decide (truthy_list productos ∧ _)); [eexists; reflexivity|].
  cbn [mbind result_bind].
  rewrite paso_lista.
  destruct (decide (truthy_list clientes ∧ _)); [eexists; reflexivity|].
  cbn [mbind result_bind].
  rewrite paso_moneda.
  destruct (decide (truthy_str moneda && _ ∧ _)); [eexists; reflexivity|].
  simpl in *. tauto.
Qed.

(** What [aplicar_filtros] returns, in both cases. *)
Lemma aplicar_filtros_cases df productos clientes moneda :
  aplicar_filtros df productos clientes moneda
  = Ok (if decide (filtros_fallan (columns df) productos clientes moneda)
        then df
        else mkDF (columns df)
               (filter (pasa_filtros df productos clientes moneda) (rows df))).
Proof.
  unfold aplicar_filtros, copy.
  destruct (decide (filtros_fallan _ _ _ _)) as [Hbad|Hbad].
  - by destruct (aplicar_filtros_body_Raise _ _ _ _ Hbad) as [e ->].
  - by rewrite aplicar_filtros_body_Ok.
Qed.

(** C5: [aplicar_filtros] never propagates an exception, and whenever the
    application of the filters raises (an active filter whose column is
    missing), it returns the table it was given, unfiltered, not the
    partially filtered one. *)
Theorem aplicar_filtros_fail_open :
  (∀ df productos clientes moneda,
     ∃ df', aplicar_filtros df productos clientes moneda = Ok df')
  ∧ (∀ df productos clientes moneda e,
       aplicar_filtros_body (copy df) productos clientes moneda = Raise e →
       aplicar_filtros df productos clientes moneda = Ok df)
  ∧ (∀ df productos clientes moneda,
       filtros_fallan (columns df) productos clientes moneda →
       aplicar_filtros df productos clientes moneda = Ok df).
Proof.
  split_and!.
  - intros. rewrite aplicar_filtros_cases. eauto.
  - intros df p c m e He. unfold aplicar_filtros. by rewrite He.
  - intros df p c m Hbad. rewrite aplicar_filtros_cases.
    by rewrite decide_True.
Qed.

Lemma aplicar_filtros_fail_open_witness :
  aplicar_filtros_body (copy ventas_sin_cliente)
    (Some ["Laptop"]) (Some ["ACME"]) None
  = Raise (KeyError "Nombre_Cliente")
  ∧ filtrar_isin ventas_sin_cliente "Producto" ["Laptop"]
    = Ok (mkDF ["Producto"] [[VStr "Laptop"]])
  ∧ aplicar_filtros ventas_sin_cliente (Some ["Laptop"]) (Some ["ACME"]) None
    = Ok ventas_sin_cliente.
Proof.
  split_and!; [compute_done..|].
  apply (proj1 (proj2 aplicar_filtros_fail_open)
           ventas_sin_cliente _ _ _ (KeyError "Nombre_Cliente")).
  compute_done.
Defined.

(** C7: with every filter absent (product and customer filters absent or
    empty, currency filter absent or "Todas"), [aplicar_filtros] returns
    a table equal to its input. *)
Theorem aplicar_filtros_identity df productos clientes moneda :
  lista_ausente productos → lista_ausente clientes → moneda_ausente moneda →
  aplicar_filtros df productos clientes moneda = Ok df.
Proof. by intros [-> | ->] [-> | ->] [-> | ->]. Qed.

Lemma aplicar_filtros_identity_witness :
  lista_ausente (Some []) ∧ lista_ausente None ∧ moneda_ausente (Some "Todas")
  ∧ aplicar_filtros ventas_sin_cliente (Some []) None (Some "Todas")
    = Ok ventas_sin_cliente.
Proof.
  split_and!; [by right|by left|by right|].
  apply aplicar_filtros_identity; [by right|by left|by right].
Defined.

(** C8: filtering is idempotent: applying [aplicar_filtros] with the same
    filters to its own result gives the result of applying it once. *)
Theorem aplicar_filtros_idempotent df productos clientes moneda :
  ∃ df',
    aplicar_filtros df productos clientes moneda = Ok df'
    ∧ aplicar_filtros df' productos clientes moneda = Ok df'
    ∧ aplicar_filtros df productos clientes moneda
        ≫= (λ t, aplicar_filtros t productos clientes moneda)
      = aplicar_filtros df productos clientes moneda.
Proof.
  assert (Hidem : ∀ t, aplicar_filtros df productos clientes moneda = Ok t →
                       aplicar_filtros t productos clientes moneda = Ok t).
  { intros t. rewrite !aplicar_filtros_cases. intros [= <-]. f_equal.
    destruct (decide (filtros_fallan (columns df) _ _ _)) as [Hbad|Hok].
    - by rewrite decide_True.
    - cbn [columns rows]. rewrite decide_False by done. f_equal.
      apply (filter_idemp (pasa_filtros df productos clientes moneda)). }
  eexists. split; [apply aplicar_filtros_cases|].
  split; [apply Hidem, aplicar_filtros_cases|].
  rewrite aplicar_filtros_cases at 1. cbn [mbind result_bind].
  rewrite (Hidem _ (aplicar_filtros_cases _ _ _ _)).
  by rewrite aplicar_filtros_cases.
Qed.

(* ===================================================================== *)
(** * Properties of the date range filter *)
(* ===================================================================== *)

Lemma datetime_column_unpack df c :
  datetime_column df c →
  c ∈ columns df ∧ Forall (λ r, datetime_cell (field df c r)) (rows df).
Proof.
  unfold datetime_column. intros [Hc Hall]%andb_prop_elim. split.
  - by apply has_column_elem_of.
  - apply Forall_forall. intros r Hr.
    apply Is_true_true, forallb_forall with (x := r) in Hall;
      [by apply Is_true_true|by apply list_elem_of_In].
Qed.

Lemma cmp_series_datetime {A} cmp ts (f : A → value) (l : list A) :
  Forall (λ r, datetime_cell (f r)) l →
  cmp_series cmp ts (f <$> l) = Ok ((λ r, cmp_ok cmp ts (f r)) <$> l).
Proof.
  induction 1 as [|r l Hr _ IH]; [done|].
  csimpl. rewrite IH. by destruct (f r) as [|[]| |].
Qed.

Lemma filtrar_cmp_Ok cmp df c ts :
  c ∈ columns df →
  Forall (λ r, datetime_cell (field df c r)) (rows df) →
  (s ← getitem df c; m ← cmp_series cmp ts s; mret (loc df m))
  = Ok (mkDF (columns df)
          (filter (λ r, cmp_ok cmp ts (field df c r)) (rows df))).
Proof.
  intros Hc Hall. rewrite (getitem_field _ _ Hc). cbn [mbind result_bind].
  rewrite (cmp_series_datetime _ _ _ _ Hall).
  cbn [mbind result_bind mret result_ret]. unfold loc. do 2 f_equal.
  apply (select_mask_filter (λ r, cmp_ok cmp ts (field df c r))).
Qed.

Lemma paso_desde df desde :
  "Fecha_Doc" ∈ columns df →
  Forall (λ r, datetime_cell (field df "Fecha_Doc" r)) (rows df) →
  match desde with
  | Some d => filtrar_ge df "Fecha_Doc" (to_datetime_date d)
  | None => mret df
  end
  = Ok (mkDF (columns df)
          (filter (λ r, desde_ok desde (field df "Fecha_Doc" r)) (rows df))).
Proof.
  intros Hc Hall. destruct desde as [d|].
  - unfold filtrar_ge. rewrite (filtrar_cmp_Ok _ _ _ _ Hc Hall). do 2 f_equal.
    apply list_filter_iff. intros r. unfold cmp_ok, desde_ok.
    destruct (field df "Fecha_Doc" r); try done. by rewrite Z.geb_leb.
  - rewrite filter_id; [by destruct df|]. by apply Forall_forall.
Qed.

Lemma paso_hasta df hasta :
  "Fecha_Doc" ∈ columns df →
  Forall (λ r, datetime_cell (field df "Fecha_Doc" r)) (rows df) →
  match hasta with
  | Some d => filtrar_le df "Fecha_Doc" (to_datetime_date d)
  | None => mret df
  end
  = Ok (mkDF (columns df)
          (filter (λ r, hasta_ok hasta (field df "Fecha_Doc" r)) (rows df))).
Proof.
  intros Hc Hall. destruct hasta as [d|].
  - unfold filtrar_le. by rewrite (filtrar_cmp_Ok _ _ _ _ Hc Hall).
  - rewrite filter_id; [by destruct df|]. by apply Forall_forall.
Qed.

Lemma filas_base_subseteq df productos clientes canales moneda :
  filas_base df productos clientes canales moneda ⊆ rows df.
Proof.
  unfold filas_base. intros r [_ Hr]%list_elem_of_filter.
  destruct (decide (filtros_fallan _ _ _ _)); [done|].
  by apply list_elem_of_filter in Hr as [_ Hr].
Qed.

Lemma aplicar_filtros_completos_Ok df productos clientes canales moneda
    desde hasta :
  has_column df "Canal" → datetime_column df "Fecha_Doc" →
  aplicar_filtros_completos df productos clientes canales moneda desde hasta
  = Ok (mkDF (columns df)
          (filter (λ r, en_rango desde hasta (field df "Fecha_Doc" r))
                  (filas_base df productos clientes canales moneda))).
Proof.
  intros Hcanal%has_column_elem_of [Hc Hall]%datetime_column_unpack.
  unfold aplicar_filtros_completos, aplicar_filtros_completos_body, copy.
  rewrite aplicar_filtros_cases. cbn [mbind result_bind].
  set (df1 := if decide (filtros_fallan _ _ _ _) then df else _).
  assert (Hcols : columns df1 = columns df) by (subst df1; by case_match).
  rewrite paso_lista, decide_False by (rewrite Hcols; tauto).
  cbn [mbind result_bind].
  assert (Hbase : filter (pasa_lista df1 "Canal" canales) (rows df1)
                  = filas_base df productos clientes canales moneda).
  { unfold filas_base. subst df1. by case_match. }
  rewrite Hbase, Hcols.
  pose proof (filas_base_subseteq df productos clientes canales moneda) as Hsub.
  assert (Hdt : Forall (λ r, datetime_cell (field df "Fecha_Doc" r))
                  (filas_base df productos clientes canales moneda)).
  { apply Forall_forall. intros r Hr%Hsub. by eapply Forall_forall in Hall. }
  rewrite paso_desde by done. cbn [mbind result_bind columns rows].
  rewrite paso_hasta.
  - cbn [mbind result_bind mret result_ret catch columns rows]. do 2 f_equal.
    rewrite list_filter_filter. apply list_filter_iff. intros r.
    unfold en_rango, field. simpl. rewrite andb_True. tauto.
  - done.
  - apply Forall_forall. intros r [_ Hr]%list_elem_of_filter.
    by eapply Forall_forall in Hdt.
Qed.

(** C9: the document-date filter of [aplicar_filtros_completos] is
    inclusive on both bounds and each bound is optional on its own.  Among
    the rows [base] that pass the other filters, the result keeps exactly
    those whose document date lies in the range: a row dated exactly
    [fecha_desde] or exactly [fecha_hasta] is kept, a row dated before
    [fecha_desde] or after [fecha_hasta] is removed, and an absent bound
    removes nothing. *)
Theorem rango_fechas_inclusivo df productos clientes canales moneda
    desde hasta :
  has_column df "Canal" → datetime_column df "Fecha_Doc" →
  ∃ base res,
    aplicar_filtros_completos df productos clientes canales moneda None None
    = Ok base ∧
    aplicar_filtros_completos df productos clientes canales moneda desde hasta
    = Ok res ∧
    columns res = columns df ∧
    rows res
    = filter (λ r, en_rango desde hasta (field df "Fecha_Doc" r)) (rows base) ∧
    (∀ r d, r ∈ rows base → desde = Some d →
       field df "Fecha_Doc" r = VDate (to_datetime_date d) →
       hasta_ok hasta (field df "Fecha_Doc" r) → r ∈ rows res) ∧
    (∀ r d, r ∈ rows base → hasta = Some d →
       field df "Fecha_Doc" r = VDate (to_datetime_date d) →
       desde_ok desde (field df "Fecha_Doc" r) → r ∈ rows res) ∧
    (∀ r t d, field df "Fecha_Doc" r = VDate t → desde = Some d →
       (t < to_datetime_date d)%Z → r ∉ rows res) ∧
    (∀ r t d, field df "Fecha_Doc" r = VDate t → hasta = Some d →
       (to_datetime_date d < t)%Z → r ∉ rows res) ∧
    (desde = None → hasta = None → res = base).
Proof.
  intros Hcanal Hfecha.
  eexists _, _. split; [by apply aplicar_filtros_completos_Ok|].
  split; [by apply aplicar_filtros_completos_Ok|].
  cbn [columns rows].
  rewrite (filter_id (λ r, en_rango None None _))
    by (by apply Forall_forall).
  split_and!; try done.
  - intros r d Hr -> Hd Hh. apply list_elem_of_filter. split; [|done].
    unfold en_rango. rewrite Hd in Hh |- *. simpl in *.
    rewrite Z.leb_refl. done.
  - intros r d Hr -> Hd Hh. apply list_elem_of_filter. split; [|done].
    unfold en_rango. rewrite Hd in Hh |- *. simpl in *.
    rewrite Z.leb_refl, andb_True. done.
  - intros r t d Hd -> Hlt [Hin _]%list_elem_of_filter.
    unfold en_rango in Hin. rewrite Hd in Hin. simpl in Hin.
    apply andb_prop_elim in Hin as [Hin%Is_true_true%Z.leb_le _]. lia.
  - intros r t d Hd -> Hlt [Hin _]%list_elem_of_filter.
    unfold en_rango in Hin. rewrite Hd in Hin.
    apply andb_prop_elim in Hin as [_ Hin%Is_true_true%Z.leb_le]. lia.
  - intros -> ->. f_equal.
    rewrite (filter_id (λ r, en_rango None None _)) by (by apply Forall_forall).
    done.
Qed.

Lemma rango_fechas_inclusivo_witness :
  has_column ventas_fechas "Canal" ∧ datetime_column ventas_fechas "Fecha_Doc"
  ∧ aplicar_filtros_completos ventas_fechas None None None None
      (Some 10%Z) (Some 20%Z)
    = Ok (mkDF ["Canal"; "Fecha_Doc"]
            [[VStr "Online"; VDate (to_datetime_date 10%Z)];
             [VStr "Tienda"; VDate (to_datetime_date 20%Z)]])
  ∧ ∃ base res,
    aplicar_filtros_completos ventas_fechas None None None None None None
    = Ok base ∧
    aplicar_filtros_completos ventas_fechas None None None None
      (Some 10%Z) (Some 20%Z) = Ok res ∧
    rows res
    = filter (λ r, en_rango (Some 10%Z) (Some 20%Z)
                     (field ventas_fechas "Fecha_Doc" r)) (rows base).
Proof.
  split_and!; [compute_done..|].
  destruct (rango_fechas_inclusivo ventas_fechas None None None None
              (Some 10%Z) (Some 20%Z)) as (base & res & H1 & H2 & _ & H4 & _);
    [compute_done..|].
  by exists base, res.
Defined.

(* ===================================================================== *)
(** * Properties of the loader: missing input files *)
(* ===================================================================== *)

Lemma verificar_archivos_head fs base l :
  verificar_archivos fs base l
  = match head (filter (λ a, ¬ path_exists fs (path_join base a)) (snd <$> l)) with
    | Some a => Raise (FileNotFoundError ("No se encontró el archivo: " ++ a))
    | None => Ok ()
    end.
Proof.
  induction l as [|[nombre a] l IH]; [done|].
  csimpl. rewrite filter_cons.
  destruct (path_exists fs (path_join base a)) eqn:He; simpl.
  - done.
  - done.
Qed.

Lemma M_bind_Ok {A B} (m : M A) (f : A → M B) self a self' :
  m self = (Ok a, self') → (m ≫= f) self = f a self'.
Proof. unfold mbind, M_bind. by intros ->. Qed.

Lemma M_bind_Raise {A B} (m : M A) (f : A → M B) self e self' :
  m self = (Raise e, self') → (m ≫= f) self = (Raise e, self').
Proof. unfold mbind, M_bind. by intros ->. Qed.

Lemma cargar_datos_missing conv so fs self a :
  head (archivos_faltantes fs (data_path self)) = Some a →
  cargar_datos conv so fs self
  = (Raise (FileNotFoundError ("No se encontró el archivo: " ++ a)), self).
Proof.
  intros Ha. unfold cargar_datos, catchM, cargar_datos_body.
  erewrite M_bind_Ok by reflexivity.
  erewrite M_bind_Raise with
    (e := FileNotFoundError ("No se encontró el archivo: " ++ a)) (self' := self);
    [reflexivity|].
  unfold lift. rewrite verificar_archivos_head.
  unfold archivos_faltantes in Ha. by rewrite Ha.
Qed.

Lemma archivos_faltantes_sub fs base a :
  a ∈ archivos_faltantes fs base → a ∈ snd <$> archivos.
Proof. unfold archivos_faltantes. by intros [_ ?]%list_elem_of_filter. Qed.

(** A message built for one required file names that file and no other. *)
Lemma mensaje_nombra_uno a b :
  a ∈ snd <$> archivos → b ∈ snd <$> archivos →
  mentions b ("No se encontró el archivo: " ++ a) ↔ b = a.
Proof.
  unfold archivos. csimpl. rewrite !elem_of_cons, !elem_of_nil.
  intros [->|[->|[->|[]]]] [->|[->|[->|[]]]];
    (split; [intros H; vm_compute in H; done|intros H; by vm_compute]).
Qed.

(** C2 (as the code has it): when one or more of the three files is
    missing, [cargar_datos] raises [FileNotFoundError], leaves the
    processor as it was, and the message names the first missing file in
    the order sales, payments, stock, and no other required file; any
    other failure of the load is raised as a plain [Exception] whose
    message starts with "Error al cargar los archivos: ", so the two are
    told apart by their class. *)
Theorem cargar_datos_not_found conv so fs self :
  archivos_faltantes fs (data_path self) ≠ [] →
  ∃ a msg,
    head (archivos_faltantes fs (data_path self)) = Some a ∧
    msg = "No se encontró el archivo: " ++ a ∧
    cargar_datos conv so fs self = (Raise (FileNotFoundError msg), self) ∧
    nombra_exactamente msg [a] ∧
    (∀ fs' self' e s,
       cargar_datos_body conv so fs' self' = (Raise e, s) →
       (∀ m, e ≠ FileNotFoundError m) →
       cargar_datos conv so fs' self'
       = (Raise (Exception ("Error al cargar los archivos: " ++ str_exn e)), s)).
Proof.
  intros Hne.
  destruct (archivos_faltantes fs (data_path self)) as [|a l] eqn:Hf; [done|].
  exists a, ("No se encontró el archivo: " ++ a).
  assert (Ha : a ∈ snd <$> archivos).
  { apply (archivos_faltantes_sub fs (data_path self)). rewrite Hf. by left. }
  split_and!; try done.
  - apply cargar_datos_missing. by rewrite Hf.
  - intros b Hb. rewrite (mensaje_nombra_uno a b Ha Hb).
    by rewrite list_elem_of_singleton.
  - intros fs' self' e s Hbody Hnf. unfold cargar_datos, catchM.
    rewrite Hbody. destruct e; try done. by destruct (Hnf msg).
Qed.

Lemma cargar_datos_not_found_witness :
  archivos_faltantes solo_ventas "." ≠ [] ∧
  cargar_datos conv_basic orden_lista solo_ventas (__init__ ".")
  = (Raise (FileNotFoundError "No se encontró el archivo: F_pagos_clientes.xlsx"),
     __init__ ".").
Proof.
  split; [by vm_compute|].
  destruct (cargar_datos_not_found conv_basic orden_lista solo_ventas (__init__ "."))
    as (a & msg & Ha & -> & H & _); [by vm_compute|].
  vm_compute in Ha. injection Ha as <-. exact H.
Defined.

(** C2, as stated, fails: with no file on disk all three files are
    missing, and the error names the sales file only. *)
Lemma cargar_datos_names_first_only :
  archivos_faltantes ∅ "."
  = ["F_ventas_sap.xlsx"; "F_pagos_clientes.xlsx"; "MM_stock_actual.xlsx"]
  ∧ cargar_datos conv_basic orden_lista ∅ (__init__ ".")
    = (Raise (FileNotFoundError "No se encontró el archivo: F_ventas_sap.xlsx"),
       __init__ ".")
  ∧ ¬ nombra_exactamente "No se encontró el archivo: F_ventas_sap.xlsx"
        (archivos_faltantes ∅ ".").
Proof.
  split_and!; [by vm_compute..|].
  intros H. specialize (H "F_pagos_clientes.xlsx").
  destruct H as [_ H]; [compute_done|].
  assert (Hno : ¬ mentions "F_pagos_clientes.xlsx"
                    "No se encontró el archivo: F_ventas_sap.xlsx")
    by compute_done.
  apply Hno, H. compute_done.
Qed.

(* ===================================================================== *)
(** * Properties of the cleaner *)
(* ===================================================================== *)

Lemma col_index_lt c cols i : col_index c cols = Some i → (i < length cols)%nat.
Proof.
  revert i. induction cols as [|c' cols IH]; intros i; [done|]. simpl.
  case_decide; [intros [= <-]; lia|].
  destruct (col_index c cols) as [j|]; [|done].
  intros [= <-]. specialize (IH j eq_refl). lia.
Qed.

Lemma col_index_inj c c' cols i :
  col_index c cols = Some i → col_index c' cols = Some i → c = c'.
Proof.
  revert i. induction cols as [|d cols IH]; intros i; [done|]. simpl.
  repeat case_decide; subst; try done.
  - intros [= <-]. by destruct (col_index c' cols).
  - intros H1 [= <-]. by destruct (col_index c cols).
  - destruct (col_index c cols) as [j|], (col_index c' cols) as [j'|];
      try done.
    intros [= <-] [= ->]. by eapply IH.
Qed.

Lemma cell_upd_eq i g r : (i < length r)%nat → cell i (upd i g r) = g (cell i r).
Proof.
  intros Hi. unfold upd. unfold cell at 1. rewrite nth_lookup.
  by rewrite list_lookup_insert_eq by done.
Qed.

Lemma cell_upd_ne i j g r : i ≠ j → cell j (upd i g r) = cell j r.
Proof.
  intros Hij. unfold cell, upd. rewrite !nth_lookup.
  by rewrite list_lookup_insert_ne.
Qed.

Lemma length_upd i g r : length (upd i g r) = length r.
Proof. apply length_insert. Qed.

Lemma zip_with_set_cell i (g : value → value) (l : list Row) :
  zip_with (set_cell i) l (g <$> (cell i <$> l)) = upd i g <$> l.
Proof. induction l as [|r l IH]; [done|]. csimpl. by rewrite IH. Qed.

Lemma dropna_Ok df c :
  c ∈ columns df →
  dropna df c
  = Ok (mkDF (columns df) (filter (λ r, ¬ isna (field df c r)) (rows df))).
Proof.
  intros Hc. unfold dropna. rewrite bool_decide_eq_true_2 by done.
  rewrite (getitem_field _ _ Hc).
  cbn [mbind result_bind mret result_ret]. unfold loc. do 2 f_equal.
  rewrite <- list_fmap_compose.
  etrans; [apply (select_mask_filter (λ r, negb (isna (field df c r))))|].
  apply list_filter_iff. intros r. by rewrite negb_True.
Qed.

Lemma coerce_numeric_Ok conv df c i :
  col_index c (columns df) = Some i →
  coerce_numeric conv df c
  = Ok (mkDF (columns df) (upd i (limpiar_numero conv) <$> rows df)).
Proof.
  intros Hi. unfold coerce_numeric, getitem, setitem. rewrite Hi.
  cbn [mbind result_bind mret result_ret]. do 2 f_equal.
  unfold fillna0, to_numeric. rewrite <- list_fmap_compose.
  apply (zip_with_set_cell i (limpiar_numero conv)).
Qed.

Lemma coerce_datetime_Ok conv df c i :
  col_index c (columns df) = Some i →
  coerce_datetime conv df c
  = Ok (mkDF (columns df) (upd i (limpiar_fecha conv) <$> rows df)).
Proof.
  intros Hi. unfold coerce_datetime, getitem, setitem.
  rewrite bool_decide_eq_true_2.
  - rewrite Hi. cbn [mbind result_bind mret result_ret]. do 2 f_equal.
    apply (zip_with_set_cell i (limpiar_fecha conv)).
  - destruct (decide (c ∈ columns df)) as [|Hn]; [done|].
    apply col_index_None in Hn. congruence.
Qed.

Lemma coerce_datetime_absent conv df c :
  c ∉ columns df → coerce_datetime conv df c = Ok df.
Proof. intros Hc. unfold coerce_datetime. by rewrite bool_decide_eq_false_2. Qed.

Lemma numero_limpio_limpiar conv v : numero_limpio conv v (limpiar_numero conv v).
Proof.
  unfold numero_limpio, limpiar_numero. simpl.
  by destruct (to_numeric_cell conv v).
Qed.

Lemma Forall2_fmap_same {A B} (R : A → B → Prop) (f : A → B) (l : list A) :
  Forall (λ x, R x (f x)) l → Forall2 R l (f <$> l).
Proof. induction 1; csimpl; by constructor. Qed.

Lemma rectangular_Forall df :
  rectangular df → Forall (λ r, length r = length (columns df)) (rows df).
Proof.
  unfold rectangular. intros Hall. apply Forall_forall. intros r Hr.
  apply Is_true_true, forallb_forall with (x := r) in Hall;
    [by apply bool_decide_eq_true in Hall|by apply list_elem_of_In].
Qed.

Lemma coerce_datetime_cases conv df c :
  coerce_datetime conv df c
  = Ok (mkDF (columns df)
          (upd_opt (col_index c (columns df)) (limpiar_fecha conv) <$> rows df)).
Proof.
  destruct (col_index c (columns df)) as [i|] eqn:Hi.
  - by apply coerce_datetime_Ok.
  - rewrite coerce_datetime_absent.
    + unfold upd_opt. simpl. rewrite list_fmap_id. by destruct df.
    + intros [j Hj]%col_index_Some. congruence.
Qed.

(** The three tables after [_limpiar_datos], row by row. *)
Lemma limpiar_datos_Ok conv self v p s d i j k m :
  ventas_df self = Some v → pagos_df self = Some p → stock_df self = Some s →
  col_index "Doc_Venta" (columns v) = Some d →
  col_index "Cantidad" (columns v) = Some i →
  col_index "Valor_Neto" (columns v) = Some j →
  "Referencia_Factura" ∈ columns p →
  col_index "Monto_Pago" (columns p) = Some k →
  col_index "Stock_Total" (columns s) = Some m →
  _limpiar_datos conv self
  = (Ok (),
     mkProcessor (data_path self)
       (Some (mkDF (columns v)
          ((upd_opt (col_index "Fecha_Doc" (columns v)) (limpiar_fecha conv)
            ∘ upd j (limpiar_numero conv) ∘ upd i (limpiar_numero conv))
           <$> filter (λ r, ¬ isna (field v "Doc_Venta" r)) (rows v))))
       (Some (mkDF (columns p)
          ((upd_opt (col_index "Fecha_Pago" (columns p)) (limpiar_fecha conv)
            ∘ upd k (limpiar_numero conv))
           <$> filter (λ r, ¬ isna (field p "Referencia_Factura" r)) (rows p))))
       (Some (mkDF (columns s) (upd m (limpiar_numero conv) <$> rows s)))).
Proof.
  intros Hv Hp Hs Hd Hi Hj Href Hk Hm.
  assert (Hdoc : "Doc_Venta" ∈ columns v).
  { destruct (decide ("Doc_Venta" ∈ columns v)) as [|Hn]; [done|].
    apply col_index_None in Hn. congruence. }
  unfold _limpiar_datos, mbind, M_bind, get_ventas, get_pagos, get_stock,
    set_ventas, set_pagos, set_stock, lift.
  rewrite Hv. cbn [from_option ventas_df pagos_df stock_df data_path].
  rewrite (dropna_Ok _ _ Hdoc).
  rewrite (coerce_numeric_Ok conv _ _ i) by done. cbn [columns rows].
  rewrite (coerce_numeric_Ok conv _ _ j) by done. cbn [columns rows].
  rewrite coerce_datetime_cases. cbn [columns rows].
  rewrite Hp. cbn [from_option ventas_df pagos_df stock_df data_path].
  rewrite (dropna_Ok _ _ Href).
  rewrite (coerce_numeric_Ok conv _ _ k) by done. cbn [columns rows].
  rewrite coerce_datetime_cases. cbn [columns rows].
  rewrite Hs. cbn [from_option ventas_df pagos_df stock_df data_path].
  rewrite (coerce_numeric_Ok conv _ _ m) by done.
  by rewrite <- !list_fmap_compose.
Qed.

Lemma has_column_index df c : has_column df c → ∃ i, col_index c (columns df) = Some i.
Proof. by intros ?%has_column_elem_of%col_index_Some. Qed.

Lemma cell_upd_opt_ne o j g r :
  o ≠ Some j → cell j (upd_opt o g r) = cell j r.
Proof.
  destruct o as [i|]; [|done]. intros Hij. apply cell_upd_ne. congruence.
Qed.

Lemma length_upd_opt o g r : length (upd_opt o g r) = length r.
Proof. destruct o; [apply length_upd|done]. Qed.

Lemma col_index_ne c c' cols i :
  c ≠ c' → col_index c cols = Some i → col_index c' cols ≠ Some i.
Proof. intros Hne Hi Hi'. by destruct (Hne (col_index_inj _ _ _ _ Hi Hi')). Qed.

(** Two different labels do not share a position. *)
Ltac distinct_cols :=
  let Heq := fresh in
  intros Heq; try subst;
  match goal with
  | H1 : col_index ?c ?cols = Some ?i, H2 : col_index ?c' ?cols = Some ?i |- _ =>
      let E := fresh in
      assert (E : c = c') by exact (col_index_inj _ _ _ _ H1 H2);
      discriminate E
  end.

(** C3 (as the code has it): on loaded tables that have the columns it
    reads, [_limpiar_datos] succeeds; the clean sales rows are, one for
    one and in order, the raw rows with a non-null document id, and the
    same holds for payments and the invoice reference, so no clean row
    has a null key; each designated numeric cell holds a number that is
    not NaN: the number the raw cell converts to, zero where it does not
    convert, and it is finite unless the raw cell converts to an
    infinity; a document date that does not parse becomes the null
    marker and its row is kept. *)
Theorem limpiar_datos_invariants conv self v p s :
  tablas_cargadas self v p s → limpiables v p s →
  ∃ v' p' s',
    _limpiar_datos conv self
    = (Ok (), mkProcessor (data_path self) (Some v') (Some p') (Some s'))
    ∧ columns v' = columns v ∧ columns p' = columns p ∧ columns s' = columns s
    ∧ Forall2 (venta_limpia conv v v')
        (filter (λ r, ¬ isna (field v "Doc_Venta" r)) (rows v)) (rows v')
    ∧ Forall2 (pago_limpio conv p p')
        (filter (λ r, ¬ isna (field p "Referencia_Factura" r)) (rows p))
        (rows p')
    ∧ Forall2 (stock_limpio conv s s') (rows s) (rows s').
Proof.
  intros (Hv & Hp & Hs). unfold limpiables.
  intros [[[[[[[[Hrv%rectangular_Forall Hrp%rectangular_Forall]%andb_prop_elim
    Hrs%rectangular_Forall]%andb_prop_elim
    [d Hd]%has_column_index]%andb_prop_elim
    [i Hi]%has_column_index]%andb_prop_elim
    [j Hj]%has_column_index]%andb_prop_elim
    Href]%andb_prop_elim
    [k Hk]%has_column_index]%andb_prop_elim
    [m Hm]%has_column_index]%andb_prop_elim.
  pose proof (has_column_elem_of _ _ Href) as Href'.
  destruct (has_column_index _ _ Href) as [rf Hrf].
  eexists _, _, _. split.
  { by apply (limpiar_datos_Ok conv self v p s d i j k m). }
  cbn [columns rows]. split_and!; try done.
  - apply Forall2_fmap_same, Forall_forall.
    intros r [Hnn Hr]%list_elem_of_filter.
    eapply Forall_forall in Hrv; [|done].
    pose proof (col_index_lt _ _ _ Hi). pose proof (col_index_lt _ _ _ Hj).
    unfold venta_limpia, field. cbn [columns]. rewrite Hd, Hi, Hj.
    cbn [from_option compose].
    unfold field in Hnn. rewrite Hd in Hnn. cbn [from_option] in Hnn.
    destruct (col_index "Fecha_Doc" (columns v)) as [f|] eqn:Hf;
      cbn [upd_opt from_option].
    + pose proof (col_index_lt _ _ _ Hf).
      rewrite !(cell_upd_ne _ d) by distinct_cols.
      rewrite (cell_upd_ne f i), (cell_upd_ne j i) by distinct_cols.
      rewrite (cell_upd_ne f j) by distinct_cols.
      rewrite (cell_upd_eq i), (cell_upd_eq j), (cell_upd_eq f)
        by (rewrite ?length_upd; lia).
      rewrite (cell_upd_ne i j), !(cell_upd_ne _ f) by distinct_cols.
      split_and!; try done; try apply numero_limpio_limpiar.
      by destruct (isna (cell d r)).
    + rewrite !(cell_upd_ne _ d) by distinct_cols.
      rewrite (cell_upd_ne j i) by distinct_cols.
      rewrite (cell_upd_eq i), (cell_upd_eq j) by (rewrite ?length_upd; lia).
      rewrite (cell_upd_ne i j) by distinct_cols.
      split_and!; try done; try apply numero_limpio_limpiar.
      by destruct (isna (cell d r)).
  - apply Forall2_fmap_same, Forall_forall.
    intros r [Hnn Hr]%list_elem_of_filter.
    eapply Forall_forall in Hrp; [|done].
    pose proof (col_index_lt _ _ _ Hk).
    unfold pago_limpio, field. cbn [columns]. rewrite Hrf, Hk.
    cbn [from_option compose].
    unfold field in Hnn. rewrite Hrf in Hnn. cbn [from_option] in Hnn.
    destruct (col_index "Fecha_Pago" (columns p)) as [f|] eqn:Hf;
      cbn [upd_opt from_option].
    + rewrite !(cell_upd_ne _ rf) by distinct_cols.
      rewrite (cell_upd_ne f k) by distinct_cols.
      rewrite (cell_upd_eq k) by lia.
      split_and!; try done; try apply numero_limpio_limpiar.
      by destruct (isna (cell rf r)).
    + rewrite !(cell_upd_ne _ rf) by distinct_cols.
      rewrite (cell_upd_eq k) by lia.
      split_and!; try done; try apply numero_limpio_limpiar.
      by destruct (isna (cell rf r)).
  - apply Forall2_fmap_same, Forall_forall. intros r Hr.
    eapply Forall_forall in Hrs; [|done].
    pose proof (col_index_lt _ _ _ Hm).
    unfold stock_limpio, field. cbn [columns]. rewrite Hm. cbn [from_option].
    rewrite cell_upd_eq by lia. apply numero_limpio_limpiar.
Qed.

Lemma limpiar_datos_invariants_witness :
  tablas_cargadas procesador_sucio ventas_sucias pagos_sucios stock_sucio
  ∧ limpiables ventas_sucias pagos_sucios stock_sucio
  ∧ ∃ v' p' s',
      _limpiar_datos conv_basic procesador_sucio
      = (Ok (), mkProcessor "." (Some v') (Some p') (Some s'))
      ∧ Forall2 (venta_limpia conv_basic ventas_sucias v')
          (filter (λ r, ¬ isna (field ventas_sucias "Doc_Venta" r))
                  (rows ventas_sucias)) (rows v').
Proof.
  split; [done|]. split; [compute_done|].
  destruct (limpiar_datos_invariants conv_basic procesador_sucio
              ventas_sucias pagos_sucios stock_sucio)
    as (v' & p' & s' & H & _ & _ & _ & Hv & _); [done|compute_done|].
  by exists v', p', s'.
Defined.

(** C3, as stated, fails on the finiteness of the numeric columns: a
    quantity cell holding the text "inf" is converted to the float
    infinity, which [fillna(0)] leaves in place. *)
Lemma limpiar_datos_keeps_infinity :
  _limpiar_datos conv_basic procesador_sucio
  = (Ok (), mkProcessor "." (Some ventas_limpias) (Some pagos_limpios)
             (Some stock_limpio_ej))
  ∧ field ventas_limpias "Cantidad" [VNum (of_Z 3); VDate 0%Z; VNum PInf; VNum (of_Z 5)]
    = VNum PInf
  ∧ finite_column ventas_limpias "Cantidad" = false.
Proof. split_and!; compute_done. Qed.

(* ===================================================================== *)
(** * Properties of the report builder *)
(* ===================================================================== *)

Lemma length_unique (s : Series) : length (unique s) = length (remove_dups s).
Proof.
  apply Permutation_length, NoDup_Permutation.
  - apply NoDup_unique.
  - apply NoDup_remove_dups.
  - intros v. by rewrite elem_of_unique, elem_of_remove_dups.
Qed.

Lemma empty_no_rows df c : c ∈ columns df → empty df → rows df = [].
Proof.
  unfold empty. destruct (columns df), (rows df); try done.
  by intros ?%elem_of_nil.
Qed.

Lemma contar_unicos_Ok df c :
  c ∈ columns df → contar_unicos df c = Ok (distintos df c).
Proof.
  intros Hc. unfold contar_unicos, distintos.
  destruct (empty df) eqn:He; simpl.
  - by rewrite (empty_no_rows df c Hc) by (by rewrite He).
  - rewrite (getitem_field _ _ Hc). simpl. by rewrite length_unique.
Qed.

Lemma fpos_Fin q : fpos (Fin q) ↔ (0 < q)%Qc.
Proof.
  unfold fpos, fsign. split.
  - intros H. apply (proj2 (Qcgt_alt q 0%Qc)). by destruct (q ?= 0)%Qc.
  - intros H. apply (proj1 (Qcgt_alt q 0%Qc)) in H. by rewrite H.
Qed.

Lemma gt0_series_finite {A} (f : A → value) (l : list A) :
  Forall (λ r, finite_cell (f r)) l →
  gt0_series (f <$> l) = Ok ((λ r, fpos (Fin (amount (f r)))) <$> l).
Proof.
  induction 1 as [|r l Hr _ IH]; [done|].
  csimpl. rewrite IH. by rewrite (finite_cell_amount (f r) Hr) at 1.
Qed.

Lemma materiales_Ok stock :
  finite_column stock "Stock_Total" →
  (if negb (empty stock)
   then s ← getitem stock "Stock_Total";
        m ← gt0_series s;
        mret (len (loc stock m))
   else mret 0%nat)
  = Ok (con_existencia stock).
Proof.
  intros [Hc Hall]%finite_column_unpack. unfold con_existencia.
  destruct (empty stock) eqn:He; simpl.
  - by rewrite (empty_no_rows stock _ Hc) by (by rewrite He).
  - rewrite (getitem_field _ _ Hc). cbn [mbind result_bind].
    rewrite (gt0_series_finite _ _ Hall). cbn [mbind result_bind mret result_ret].
    unfold len, loc. cbn [rows]. do 2 f_equal.
    etrans; [apply (select_mask_filter
                      (λ r, fpos (Fin (amount (field stock "Stock_Total" r)))))|].
    apply list_filter_iff. intros r. apply fpos_Fin.
Qed.

Lemma stock_total_Ok ar stock :
  finite_column stock "Stock_Total" →
  (if negb (empty stock)
   then s ← getitem stock "Stock_Total"; series_sum ar Stock_Total s
   else mret (Fin 0%Qc))
  = Ok (unidades ar stock).
Proof.
  intros [Hc Hall]%finite_column_unpack. unfold unidades.
  destruct (empty stock) eqn:He; simpl.
  - rewrite (empty_no_rows stock _ Hc) by (by rewrite He).
    simpl. by rewrite suma_nil.
  - rewrite (getitem_field _ _ Hc). cbn [mbind result_bind]. unfold series_sum.
    by rewrite (as_floats_finite _ _ Hall).
Qed.

(** C4: [generar_reporte_excel] produces a workbook whose sheets are, in
    this order, Ventas, Pagos and Stock, holding the three tables it was
    given, followed, exactly when [incluir_resumen] is true, by the sheet
    Resumen with the ten labelled metrics in their fixed order, each
    computed from the three tables of this call; the sums among them are
    those of the columns, whatever their dtype. *)
Theorem generar_reporte_excel_sheets (ar : Aritmetica)
    ventas pagos stock incluir_resumen :
  reporte_ok ventas pagos stock →
  generar_reporte_excel ar ventas pagos stock incluir_resumen
  = Ok ([mkSheet "Ventas" ventas; mkSheet "Pagos" pagos; mkSheet "Stock" stock]
        ++ if incluir_resumen
           then [mkSheet "Resumen" (resumen_spec ar ventas pagos stock)]
           else [])%list.
Proof.
  unfold reporte_ok.
  intros [[[[[Hv Hprod%has_column_elem_of]%andb_prop_elim
    Hcli%has_column_elem_of]%andb_prop_elim Hp]%andb_prop_elim
    Hcen%has_column_elem_of]%andb_prop_elim Hst]%andb_prop_elim.
  unfold generar_reporte_excel, generar_reporte_excel_body.
  destruct incluir_resumen; [|done].
  unfold _crear_hoja_resumen.
  rewrite (calcular_kpis_sums ar _ _ Hv Hp). cbn [mbind result_bind].
  rewrite !contar_unicos_Ok by done. cbn [mbind result_bind].
  rewrite (materiales_Ok _ Hst). cbn [mbind result_bind].
  rewrite (stock_total_Ok ar _ Hst). done.
Qed.

Lemma generar_reporte_excel_sheets_witness :
  reporte_ok ejemplo_ventas_rep ejemplo_pagos ejemplo_stock
  ∧ generar_reporte_excel aritmetica_exacta
      ejemplo_ventas_rep ejemplo_pagos ejemplo_stock true
    = Ok [mkSheet "Ventas" ejemplo_ventas_rep; mkSheet "Pagos" ejemplo_pagos;
          mkSheet "Stock" ejemplo_stock;
          mkSheet "Resumen"
            (resumen_frame metricas
               [of_Z 250; of_Z 150; of_Z 100; of_Z 2; of_Z 1; of_Z 2; of_Z 2;
                of_Z 1; of_Z 1; of_Z 10])]
  ∧ generar_reporte_excel aritmetica_exacta
      ejemplo_ventas_rep ejemplo_pagos ejemplo_stock false
    = Ok [mkSheet "Ventas" ejemplo_ventas_rep; mkSheet "Pagos" ejemplo_pagos;
          mkSheet "Stock" ejemplo_stock].
Proof.
  split; [compute_done|]. split.
  - rewrite (generar_reporte_excel_sheets _ _ _ _ true) by compute_done.
    compute_done.
  - by rewrite (generar_reporte_excel_sheets _ _ _ _ false) by compute_done.
Defined.

(* ===================================================================== *)
(** * Properties of the schema validator and of a complete load *)
(* ===================================================================== *)

Lemma esquema_completo_elem nombre df c :
  esquema_completo nombre df → c ∈ requeridas nombre → c ∈ columns df.
Proof.
  unfold esquema_completo. intros Hall Hc.
  apply Is_true_true, forallb_forall with (x := c) in Hall;
    [by apply bool_decide_eq_true in Hall|by apply list_elem_of_In].
Qed.

Lemma columnas_faltantes_nil nombre df :
  columnas_faltantes (requeridas nombre) df = [] ↔ esquema_completo nombre df.
Proof.
  unfold columnas_faltantes, esquema_completo. split.
  - intros Hnil. apply Is_true_true, forallb_forall. intros c Hc%list_elem_of_In.
    apply bool_decide_eq_true.
    destruct (decide (c ∈ columns df)) as [|Hn]; [done|]. exfalso.
    by eapply (filter_nil_not_elem_of (λ c, c ∉ columns df)).
  - intros Hall. induction (requeridas nombre) as [|c l IH]; [done|].
    simpl in Hall. apply andb_prop_elim in Hall as [Hc Hl].
    rewrite filter_cons_False; [by apply IH|].
    intros Hn. apply Hn. by apply bool_decide_unpack in Hc.
Qed.

Lemma validar_dataset_Ok so nombre df :
  esquema_completo nombre df →
  validar_dataset so nombre (requeridas nombre) df = Ok ().
Proof.
  intros H%columnas_faltantes_nil. unfold validar_dataset. by rewrite H.
Qed.

Lemma validar_dataset_Raise so nombre df :
  ¬ esquema_completo nombre df →
  validar_dataset so nombre (requeridas nombre) df
  = Raise (ValueError ("Columnas faltantes en " ++ nombre ++ ": "
             ++ repr_set so (columnas_faltantes (requeridas nombre) df))).
Proof.
  intros Hn. unfold validar_dataset.
  destruct (columnas_faltantes _ _) eqn:Hf; [|done].
  by apply columnas_faltantes_nil in Hf.
Qed.

(** What [_validar_estructura_datos] does on loaded tables. *)
Lemma validar_estructura_cases so self v p s :
  tablas_cargadas self v p s →
  _validar_estructura_datos so self
  = (match primer_incompleto v p s with
     | Some (nombre, df) =>
         Raise (ValueError ("Columnas faltantes en " ++ nombre ++ ": "
                  ++ repr_set so (columnas_faltantes (requeridas nombre) df)))
     | None => Ok ()
     end, self).
Proof.
  intros (Hv & Hp & Hs).
  unfold _validar_estructura_datos, primer_incompleto, mbind, M_bind,
    get_ventas, get_pagos, get_stock, lift.
  rewrite Hv, Hp, Hs. cbn [from_option].
  destruct (esquema_completo "ventas" v) eqn:Ev; cbn [negb].
  - rewrite validar_dataset_Ok by (by rewrite Ev).
    destruct (esquema_completo "pagos" p) eqn:Ep; cbn [negb].
    + rewrite validar_dataset_Ok by (by rewrite Ep).
      destruct (esquema_completo "stock" s) eqn:Es; cbn [negb].
      * rewrite validar_dataset_Ok by (by rewrite Es). done.
      * rewrite validar_dataset_Raise by (rewrite Es; by intros []). done.
    + rewrite validar_dataset_Raise by (rewrite Ep; by intros []). done.
  - rewrite validar_dataset_Raise by (rewrite Ev; by intros []). done.
Qed.

(** X1: on loaded tables, schema validation leaves the processor as it is
    and succeeds exactly when each of the three tables has all the columns
    required of it; further columns and the order of the columns do not
    matter. *)
Theorem validar_estructura_ok_iff so self v p s :
  tablas_cargadas self v p s →
  (_validar_estructura_datos so self).2 = self
  ∧ ((_validar_estructura_datos so self).1 = Ok ()
     ↔ esquema_completo "ventas" v ∧ esquema_completo "pagos" p
       ∧ esquema_completo "stock" s).
Proof.
  intros Hl. rewrite (validar_estructura_cases _ _ _ _ _ Hl). split; [done|].
  unfold primer_incompleto. cbn [fst].
  destruct (esquema_completo "ventas" v), (esquema_completo "pagos" p),
    (esquema_completo "stock" s); simpl; intuition discriminate.
Qed.

Lemma validar_estructura_ok_iff_witness :
  tablas_cargadas (mkProcessor "." (Some ventas_crudas) (Some pagos_crudos)
                     (Some stock_crudo)) ventas_crudas pagos_crudos stock_crudo
  ∧ (_validar_estructura_datos orden_lista
       (mkProcessor "." (Some ventas_crudas) (Some pagos_crudos)
          (Some stock_crudo))).1 = Ok ()
  ∧ (_validar_estructura_datos orden_lista
       (mkProcessor "." (Some ventas_crudas) (Some pagos_sin_monto)
          (Some stock_crudo))).1 ≠ Ok ().
Proof.
  split; [done|]. split.
  - apply (validar_estructura_ok_iff orden_lista _ ventas_crudas pagos_crudos stock_crudo);
      [done|]. split_and!; compute_done.
  - intros H.
    apply (validar_estructura_ok_iff orden_lista _ ventas_crudas pagos_sin_monto stock_crudo)
      in H as (_ & H & _); [|done].
    revert H. compute_done.
Defined.

(** X2: when some loaded table lacks a required column, validation raises
    [ValueError] for the first such table in the order sales, payments,
    stock; the message names that dataset and lists between braces the
    required columns it lacks, each of them once and no other, in the
    order in which the set lists them; the processor is left as it is. *)
Theorem validar_estructura_error so self v p s nombre df :
  tablas_cargadas self v p s →
  primer_incompleto v p s = Some (nombre, df) →
  ∃ faltantes,
    _validar_estructura_datos so self
    = (Raise (ValueError ("Columnas faltantes en " ++ nombre ++ ": "
                ++ braces faltantes)), self)
    ∧ faltantes ≡ₚ filter (λ c, c ∉ columns df) (requeridas nombre)
    ∧ faltantes ≠ []
    ∧ (∀ c, c ∈ faltantes ↔ c ∈ requeridas nombre ∧ c ∉ columns df)
    ∧ (nombre, df) ∈ [("ventas", v); ("pagos", p); ("stock", s)].
Proof.
  intros Hl Hprimer.
  exists (set_iter so (columnas_faltantes (requeridas nombre) df)).
  rewrite (validar_estructura_cases _ _ _ _ _ Hl), Hprimer.
  split_and!; [done|apply set_iter_perm| | |].
  - intros Hnil.
    assert (Hf : columnas_faltantes (requeridas nombre) df = []).
    { apply Permutation_nil_r. rewrite <- Hnil. symmetry. apply set_iter_perm. }
    apply columnas_faltantes_nil in Hf.
    unfold primer_incompleto in Hprimer.
    destruct (esquema_completo "ventas" v) eqn:Ev;
      [destruct (esquema_completo "pagos" p) eqn:Ep;
        [destruct (esquema_completo "stock" s) eqn:Es|]|];
      simplify_eq/=;
      first [by rewrite Es in Hf|by rewrite Ep in Hf|by rewrite Ev in Hf].
  - intros c. rewrite (set_iter_perm so). unfold columnas_faltantes.
    rewrite list_elem_of_filter. tauto.
  - unfold primer_incompleto in Hprimer.
    destruct (esquema_completo "ventas" v);
      [destruct (esquema_completo "pagos" p);
        [destruct (esquema_completo "stock" s)|]|];
      simplify_eq/=; rewrite !elem_of_cons; tauto.
Qed.

Lemma validar_estructura_error_witness :
  primer_incompleto ventas_crudas pagos_sin_monto stock_crudo
  = Some ("pagos", pagos_sin_monto)
  ∧ _validar_estructura_datos orden_lista
      (mkProcessor "." (Some ventas_crudas) (Some pagos_sin_monto)
         (Some stock_crudo))
    = (Raise (ValueError "Columnas faltantes en pagos: {'Monto_Pago'}"),
       mkProcessor "." (Some ventas_crudas) (Some pagos_sin_monto)
         (Some stock_crudo)).
Proof.
  split; [compute_done|].
  destruct (validar_estructura_error orden_lista
              (mkProcessor "." (Some ventas_crudas) (Some pagos_sin_monto)
                 (Some stock_crudo))
              ventas_crudas pagos_sin_monto stock_crudo
              "pagos" pagos_sin_monto) as (l & H & Hl & _);
    [done|compute_done|].
  assert (Hf : filter (λ c, c ∉ columns pagos_sin_monto) (requeridas "pagos")
               = ["Monto_Pago"]) by compute_done.
  rewrite Hf in Hl. apply Permutation_singleton_r in Hl as ->.
  rewrite H. compute_done.
Defined.

Lemma verificar_archivos_Ok fs base v p s :
  en_disco fs base v p s → verificar_archivos fs base archivos = Ok ().
Proof.
  intros (Hv & Hp & Hs). unfold archivos, verificar_archivos, path_exists.
  change "F_ventas_sap.xlsx" with (archivo "ventas").
  change "F_pagos_clientes.xlsx" with (archivo "pagos").
  change "MM_stock_actual.xlsx" with (archivo "stock").
  rewrite Hv, Hp, Hs.
  by rewrite !bool_decide_eq_true_2 by eauto.
Qed.

(** With the three files on disk, [cargar_datos] stores the tables read
    and goes on to validate and clean them. *)
Lemma cargar_datos_body_leidos conv so fs self v p s :
  en_disco fs (data_path self) v p s →
  cargar_datos_body conv so fs self
  = (_ ← _validar_estructura_datos so;
     _ ← _limpiar_datos conv;
     tablas)
      (mkProcessor (data_path self) (Some v) (Some p) (Some s)).
Proof.
  intros Hd. pose proof Hd as (Hv & Hp & Hs). unfold cargar_datos_body.
  erewrite M_bind_Ok by reflexivity.
  erewrite M_bind_Ok
    by (unfold lift; by rewrite (verificar_archivos_Ok _ _ _ _ _ Hd)).
  erewrite M_bind_Ok by (unfold lift, read_excel; by rewrite Hv).
  erewrite M_bind_Ok by reflexivity.
  erewrite M_bind_Ok by (unfold lift, read_excel; by rewrite Hp).
  erewrite M_bind_Ok by reflexivity.
  erewrite M_bind_Ok by (unfold lift, read_excel; by rewrite Hs).
  erewrite M_bind_Ok by reflexivity.
  done.
Qed.

Lemma esquema_columnas_limpieza v p s :
  esquema_completo "ventas" v → esquema_completo "pagos" p →
  esquema_completo "stock" s →
  ∃ d i j k m,
    col_index "Doc_Venta" (columns v) = Some d
    ∧ col_index "Cantidad" (columns v) = Some i
    ∧ col_index "Valor_Neto" (columns v) = Some j
    ∧ "Referencia_Factura" ∈ columns p
    ∧ col_index "Monto_Pago" (columns p) = Some k
    ∧ col_index "Stock_Total" (columns s) = Some m.
Proof.
  intros Hv Hp Hs.
  destruct (col_index_Some "Doc_Venta" (columns v)) as [d Hd];
    [by apply (esquema_completo_elem "ventas"); [|compute_done]|].
  destruct (col_index_Some "Cantidad" (columns v)) as [i Hi];
    [by apply (esquema_completo_elem "ventas"); [|compute_done]|].
  destruct (col_index_Some "Valor_Neto" (columns v)) as [j Hj];
    [by apply (esquema_completo_elem "ventas"); [|compute_done]|].
  destruct (col_index_Some "Monto_Pago" (columns p)) as [k Hk];
    [by apply (esquema_completo_elem "pagos"); [|compute_done]|].
  destruct (col_index_Some "Stock_Total" (columns s)) as [m Hm];
    [by apply (esquema_completo_elem "stock"); [|compute_done]|].
  exists d, i, j, k, m. split_and!; try done.
  by apply (esquema_completo_elem "pagos"); [|compute_done].
Qed.

(** X3: when the three files are on disk and each table read has its
    required columns, [cargar_datos] succeeds: the tables it returns are
    the ones it leaves in the processor, they are the tables read as
    [_limpiar_datos] cleans them, with the columns of the files and with
    every stock row, and earlier contents of the processor play no part.
    Validation is what makes the cleaning step unable to fail. *)
Theorem cargar_datos_ok conv so fs self v p s :
  en_disco fs (data_path self) v p s →
  esquema_completo "ventas" v → esquema_completo "pagos" p →
  esquema_completo "stock" s →
  ∃ v' p' s',
    cargar_datos conv so fs self
    = (Ok (v', p', s'), mkProcessor (data_path self) (Some v') (Some p') (Some s'))
    ∧ _limpiar_datos conv (mkProcessor (data_path self) (Some v) (Some p) (Some s))
      = (Ok (), mkProcessor (data_path self) (Some v') (Some p') (Some s'))
    ∧ columns v' = columns v ∧ columns p' = columns p ∧ columns s' = columns s
    ∧ (length (rows v') ≤ length (rows v))%nat
    ∧ (length (rows p') ≤ length (rows p))%nat
    ∧ length (rows s') = length (rows s).
Proof.
  intros Hd Hv Hp Hs.
  destruct (esquema_columnas_limpieza v p s Hv Hp Hs)
    as (d & i & j & k & m & Hd' & Hi & Hj & Href & Hk & Hm).
  pose proof (limpiar_datos_Ok conv
                (mkProcessor (data_path self) (Some v) (Some p) (Some s))
                v p s d i j k m eq_refl eq_refl eq_refl Hd' Hi Hj Href Hk Hm)
    as Hlimpiar.
  cbn [data_path] in Hlimpiar.
  eexists _, _, _. split_and!; [|exact Hlimpiar|done..| | |].
  - unfold cargar_datos, catchM.
    rewrite (cargar_datos_body_leidos _ _ _ _ _ _ _ Hd).
    erewrite M_bind_Ok; last first.
    { rewrite (validar_estructura_cases _ _ v p s) by done.
      unfold primer_incompleto.
      destruct (esquema_completo "ventas" v),
        (esquema_completo "pagos" p), (esquema_completo "stock" s); done. }
    erewrite M_bind_Ok by exact Hlimpiar.
    done.
  - cbn [rows]. rewrite length_fmap. apply length_filter.
  - cbn [rows]. rewrite length_fmap. apply length_filter.
  - cbn [rows]. by rewrite length_fmap.
Qed.

Lemma cargar_datos_ok_witness :
  en_disco (disco_ejemplo pagos_crudos) "." ventas_crudas pagos_crudos stock_crudo
  ∧ esquema_completo "ventas" ventas_crudas
  ∧ esquema_completo "pagos" pagos_crudos
  ∧ esquema_completo "stock" stock_crudo
  ∧ ∃ v' p' s',
      cargar_datos conv_basic orden_lista (disco_ejemplo pagos_crudos) (__init__ ".")
      = (Ok (v', p', s'), mkProcessor "." (Some v') (Some p') (Some s'))
      ∧ columns v' = columns ventas_crudas.
Proof.
  assert (Hd : en_disco (disco_ejemplo pagos_crudos) "."
                 ventas_crudas pagos_crudos stock_crudo)
    by (split_and!; by vm_compute).
  split; [exact Hd|]. split_and!; [compute_done..|].
  destruct (cargar_datos_ok conv_basic orden_lista (disco_ejemplo pagos_crudos)
              (__init__ ".") ventas_crudas pagos_crudos stock_crudo)
    as (v' & p' & s' & H & _ & Hc & _); [exact Hd|compute_done..|].
  by exists v', p', s'.
Defined.

(** X4: when the three files are on disk but a table read lacks a
    required column, [cargar_datos] raises a plain [Exception] whose
    message is "Error al cargar los archivos: " followed by the message of
    the validator, which names the first incomplete dataset and lists
    between braces the required columns it lacks, each once, in the order
    in which the set lists them; the three tables are left as read,
    neither validated nor cleaned, in the processor. *)
Theorem cargar_datos_schema_error conv so fs self v p s nombre df :
  en_disco fs (data_path self) v p s →
  primer_incompleto v p s = Some (nombre, df) →
  ∃ faltantes,
    cargar_datos conv so fs self
    = (Raise (Exception ("Error al cargar los archivos: "
                ++ "Columnas faltantes en " ++ nombre ++ ": "
                ++ braces faltantes)),
       mkProcessor (data_path self) (Some v) (Some p) (Some s))
    ∧ faltantes ≡ₚ filter (λ c, c ∉ columns df) (requeridas nombre)
    ∧ faltantes ≠ [].
Proof.
  intros Hd Hprimer.
  exists (set_iter so (columnas_faltantes (requeridas nombre) df)).
  split_and!.
  - unfold cargar_datos, catchM.
    rewrite (cargar_datos_body_leidos _ _ _ _ _ _ _ Hd).
    erewrite M_bind_Raise; last first.
    { rewrite (validar_estructura_cases _ _ v p s) by done. by rewrite Hprimer. }
    done.
  - apply set_iter_perm.
  - intros Hnil.
    assert (Hf : columnas_faltantes (requeridas nombre) df = []).
    { apply Permutation_nil_r. rewrite <- Hnil. symmetry. apply set_iter_perm. }
    apply columnas_faltantes_nil in Hf.
    unfold primer_incompleto in Hprimer.
    destruct (esquema_completo "ventas" v) eqn:Ev;
      [destruct (esquema_completo "pagos" p) eqn:Ep;
        [destruct (esquema_completo "stock" s) eqn:Es|]|];
      simplify_eq/=;
      first [by rewrite Es in Hf|by rewrite Ep in Hf|by rewrite Ev in Hf].
Qed.

Lemma cargar_datos_schema_error_witness :
  en_disco (disco_ejemplo pagos_sin_monto) "."
    ventas_crudas pagos_sin_monto stock_crudo
  ∧ primer_incompleto ventas_crudas pagos_sin_monto stock_crudo
    = Some ("pagos", pagos_sin_monto)
  ∧ cargar_datos conv_basic orden_lista (disco_ejemplo pagos_sin_monto)
      (__init__ ".")
    = (Raise (Exception
         "Error al cargar los archivos: Columnas faltantes en pagos: {'Monto_Pago'}"),
       mkProcessor "." (Some ventas_crudas) (Some pagos_sin_monto)
         (Some stock_crudo)).
Proof.
  assert (Hd : en_disco (disco_ejemplo pagos_sin_monto) "."
                 ventas_crudas pagos_sin_monto stock_crudo)
    by (split_and!; by vm_compute).
  split; [exact Hd|]. split; [compute_done|].
  destruct (cargar_datos_schema_error conv_basic orden_lista _ (__init__ ".")
              _ _ _ "pagos" pagos_sin_monto Hd) as (l & H & Hl & _);
    [compute_done|].
  assert (Hf : filter (λ c, c ∉ columns pagos_sin_monto) (requeridas "pagos")
               = ["Monto_Pago"]) by compute_done.
  rewrite Hf in Hl. apply Permutation_singleton_r in Hl as ->.
  rewrite H. compute_done.
Defined.

(* ===================================================================== *)
(** * Further properties of the cleaner *)
(* ===================================================================== *)

Lemma columnas_limpieza_unpack v p s :
  columnas_limpieza v p s →
  ∃ d i j k m,
    col_index "Doc_Venta" (columns v) = Some d
    ∧ col_index "Cantidad" (columns v) = Some i
    ∧ col_index "Valor_Neto" (columns v) = Some j
    ∧ "Referencia_Factura" ∈ columns p
    ∧ col_index "Monto_Pago" (columns p) = Some k
    ∧ col_index "Stock_Total" (columns s) = Some m.
Proof.
  unfold columnas_limpieza.
  intros [[[[[[d Hd]%has_column_index [i Hi]%has_column_index]%andb_prop_elim
    [j Hj]%has_column_index]%andb_prop_elim
    Href%has_column_elem_of]%andb_prop_elim
    [k Hk]%has_column_index]%andb_prop_elim
    [m Hm]%has_column_index]%andb_prop_elim.
  by exists d, i, j, k, m.
Qed.

(** [_limpiar_datos] computes the row-by-row cleaning of each table. *)
Lemma limpiar_datos_filas conv self v p s :
  tablas_cargadas self v p s → columnas_limpieza v p s →
  _limpiar_datos conv self
  = (Ok (), mkProcessor (data_path self)
               (Some (ventas_limpiadas conv v))
               (Some (pagos_limpiados conv p))
               (Some (stock_limpiado conv s))).
Proof.
  intros (Hv & Hp & Hs)
    (d & i & j & k & m & Hd & Hi & Hj & Href & Hk & Hm)%columnas_limpieza_unpack.
  rewrite (limpiar_datos_Ok conv self v p s d i j k m) by done.
  unfold ventas_limpiadas, pagos_limpiados, stock_limpiado, reescribir.
  by rewrite Hi, Hj, Hk, Hm.
Qed.

Lemma upd_upd i g r :
  (∀ v, g (g v) = g v) → upd i g (upd i g r) = upd i g r.
Proof.
  intros Hg. destruct (decide (i < length r)%nat) as [Hi|Hi].
  - unfold upd at 1. rewrite cell_upd_eq, Hg by done.
    unfold upd. apply list_insert_insert_eq.
  - unfold upd. by rewrite !list_insert_ge by (rewrite ?length_insert; lia).
Qed.

Lemma upd_comm i j g h r :
  i ≠ j → upd i g (upd j h r) = upd j h (upd i g r).
Proof.
  intros Hij. unfold upd at 1 3.
  rewrite !cell_upd_ne by done. unfold upd. by apply list_insert_insert_ne.
Qed.

Lemma upd_opt_upd_opt o g r :
  (∀ v, g (g v) = g v) → upd_opt o g (upd_opt o g r) = upd_opt o g r.
Proof. destruct o; [apply upd_upd|done]. Qed.

Lemma upd_opt_comm o o' g h r :
  (∀ i, o = Some i → o' ≠ Some i) →
  upd_opt o g (upd_opt o' h r) = upd_opt o' h (upd_opt o g r).
Proof.
  destruct o as [i|], o' as [j|]; try done.
  intros Hne. apply upd_comm. intros ->. by eapply Hne.
Qed.

Lemma limpiar_numero_idem conv v :
  limpiar_numero conv (limpiar_numero conv v) = limpiar_numero conv v.
Proof.
  unfold limpiar_numero. simpl. by destruct (to_numeric_cell conv v).
Qed.

Lemma limpiar_fecha_idem conv v :
  limpiar_fecha conv (limpiar_fecha conv v) = limpiar_fecha conv v.
Proof.
  unfold limpiar_fecha. by destruct (parse_datetime conv v).
Qed.

(** Rewriting the cell of one column leaves the cells of the others. *)
Lemma field_reescribir_ne df c c' g r :
  c ≠ c' → field df c' (reescribir df c g r) = field df c' r.
Proof.
  intros Hne. unfold field, reescribir.
  destruct (col_index c' (columns df)) as [x|] eqn:Hx; [|done]. simpl.
  apply cell_upd_opt_ne. intros Hc. by eapply (col_index_ne c c').
Qed.

Lemma reescribir_idem df c g r :
  (∀ v, g (g v) = g v) →
  reescribir df c g (reescribir df c g r) = reescribir df c g r.
Proof. apply upd_opt_upd_opt. Qed.

Lemma reescribir_comm df c c' g h r :
  c ≠ c' →
  reescribir df c g (reescribir df c' h r)
  = reescribir df c' h (reescribir df c g r).
Proof.
  intros Hne. apply upd_opt_comm. intros i Hi. by eapply col_index_ne.
Qed.

Lemma length_reescribir df c g r : length (reescribir df c g r) = length r.
Proof. apply length_upd_opt. Qed.

Lemma ventas_limpiadas_idem conv v :
  ventas_limpiadas conv (ventas_limpiadas conv v) = ventas_limpiadas conv v.
Proof.
  unfold ventas_limpiadas. cbn [columns rows]. f_equal.
  set (F := reescribir v "Fecha_Doc" (limpiar_fecha conv)
            ∘ reescribir v "Valor_Neto" (limpiar_numero conv)
            ∘ reescribir v "Cantidad" (limpiar_numero conv)).
  change (F <$> filter (λ r, ¬ isna (field v "Doc_Venta" r))
                  (F <$> filter (λ r, ¬ isna (field v "Doc_Venta" r)) (rows v))
          = F <$> filter (λ r, ¬ isna (field v "Doc_Venta" r)) (rows v)).
  assert (Hkey : ∀ r, field v "Doc_Venta" (F r) = field v "Doc_Venta" r).
  { intros r. unfold F. cbn [compose]. by rewrite !field_reescribir_ne. }
  assert (Hidem : ∀ r, F (F r) = F r).
  { intros r. unfold F. cbn [compose].
    rewrite (reescribir_comm v "Cantidad" "Fecha_Doc") by done.
    rewrite (reescribir_comm v "Cantidad" "Valor_Neto") by done.
    rewrite (reescribir_idem v "Cantidad") by apply limpiar_numero_idem.
    rewrite (reescribir_comm v "Valor_Neto" "Fecha_Doc") by done.
    rewrite (reescribir_idem v "Valor_Neto") by apply limpiar_numero_idem.
    by rewrite (reescribir_idem v "Fecha_Doc") by apply limpiar_fecha_idem. }
  rewrite filter_id.
  - rewrite <- list_fmap_compose. apply list_fmap_ext. intros _ r _. apply Hidem.
  - apply Forall_fmap, Forall_forall. intros r [Hr _]%list_elem_of_filter.
    cbn [compose]. by rewrite Hkey.
Qed.

Lemma pagos_limpiados_idem conv p :
  pagos_limpiados conv (pagos_limpiados conv p) = pagos_limpiados conv p.
Proof.
  unfold pagos_limpiados. cbn [columns rows]. f_equal.
  set (F := reescribir p "Fecha_Pago" (limpiar_fecha conv)
            ∘ reescribir p "Monto_Pago" (limpiar_numero conv)).
  change (F <$> filter (λ r, ¬ isna (field p "Referencia_Factura" r))
                  (F <$> filter (λ r, ¬ isna (field p "Referencia_Factura" r))
                           (rows p))
          = F <$> filter (λ r, ¬ isna (field p "Referencia_Factura" r)) (rows p)).
  assert (Hkey : ∀ r, field p "Referencia_Factura" (F r)
                       = field p "Referencia_Factura" r).
  { intros r. unfold F. cbn [compose]. by rewrite !field_reescribir_ne. }
  assert (Hidem : ∀ r, F (F r) = F r).
  { intros r. unfold F. cbn [compose].
    rewrite (reescribir_comm p "Monto_Pago" "Fecha_Pago") by done.
    rewrite (reescribir_idem p "Monto_Pago") by apply limpiar_numero_idem.
    by rewrite (reescribir_idem p "Fecha_Pago") by apply limpiar_fecha_idem. }
  rewrite filter_id.
  - rewrite <- list_fmap_compose. apply list_fmap_ext. intros _ r _. apply Hidem.
  - apply Forall_fmap, Forall_forall. intros r [Hr _]%list_elem_of_filter.
    cbn [compose]. by rewrite Hkey.
Qed.

Lemma stock_limpiado_idem conv s :
  stock_limpiado conv (stock_limpiado conv s) = stock_limpiado conv s.
Proof.
  unfold stock_limpiado. cbn [columns rows]. f_equal.
  rewrite <- list_fmap_compose. apply list_fmap_ext. intros _ r _.
  apply (reescribir_idem s), limpiar_numero_idem.
Qed.

(** X5: cleaning is idempotent, whatever the conversions of text are:
    on loaded tables that have the columns it reads, [_limpiar_datos]
    succeeds, and run again on the processor it leaves, it succeeds and
    leaves the processor unchanged. *)
Theorem limpiar_datos_idempotent conv self v p s :
  tablas_cargadas self v p s → columnas_limpieza v p s →
  ∃ self',
    _limpiar_datos conv self = (Ok (), self')
    ∧ _limpiar_datos conv self' = (Ok (), self').
Proof.
  intros Hl Hc. eexists. split; [by apply limpiar_datos_filas|].
  erewrite limpiar_datos_filas; [|done|exact Hc].
  cbn [data_path].
  by rewrite ventas_limpiadas_idem, pagos_limpiados_idem, stock_limpiado_idem.
Qed.

Lemma limpiar_datos_idempotent_witness :
  tablas_cargadas procesador_sucio ventas_sucias pagos_sucios stock_sucio
  ∧ columnas_limpieza ventas_sucias pagos_sucios stock_sucio
  ∧ ∃ self',
      _limpiar_datos conv_basic procesador_sucio = (Ok (), self')
      ∧ _limpiar_datos conv_basic self' = (Ok (), self').
Proof.
  split; [done|]. split; [compute_done|].
  apply (limpiar_datos_idempotent conv_basic procesador_sucio
           ventas_sucias pagos_sucios stock_sucio); [done|compute_done].
Defined.

(** X6: cleaning rewrites only the designated cells.  Each clean row has
    the length of the raw row it comes from, and under every label other
    than Cantidad, Valor_Neto and Fecha_Doc (sales), Monto_Pago and
    Fecha_Pago (payments), Stock_Total (stock) it holds the cell of the
    raw row; rows keep their order, and no stock row is dropped. *)
Theorem limpiar_datos_other_columns conv self v p s :
  tablas_cargadas self v p s → columnas_limpieza v p s →
  ∃ v' p' s',
    _limpiar_datos conv self
    = (Ok (), mkProcessor (data_path self) (Some v') (Some p') (Some s'))
    ∧ Forall2 (λ r r', length r' = length r
                 ∧ ∀ c, c ∉ ["Cantidad"; "Valor_Neto"; "Fecha_Doc"] →
                        field v' c r' = field v c r)
        (filter (λ r, ¬ isna (field v "Doc_Venta" r)) (rows v)) (rows v')
    ∧ Forall2 (λ r r', length r' = length r
                 ∧ ∀ c, c ∉ ["Monto_Pago"; "Fecha_Pago"] →
                        field p' c r' = field p c r)
        (filter (λ r, ¬ isna (field p "Referencia_Factura" r)) (rows p))
        (rows p')
    ∧ Forall2 (λ r r', length r' = length r
                 ∧ ∀ c, c ≠ "Stock_Total" → field s' c r' = field s c r)
        (rows s) (rows s').
Proof.
  intros Hl Hc. eexists _, _, _. split; [by apply limpiar_datos_filas|].
  split_and!.
  - apply Forall2_fmap_same, Forall_forall. intros r _. cbn [compose]. split.
    + by rewrite !length_reescribir.
    + intros c Hc'. rewrite !not_elem_of_cons in Hc'.
      destruct Hc' as (? & ? & ? & _).
      change (field (ventas_limpiadas conv v) c) with (field v c).
      by rewrite !field_reescribir_ne.
  - apply Forall2_fmap_same, Forall_forall. intros r _. cbn [compose]. split.
    + by rewrite !length_reescribir.
    + intros c Hc'. rewrite !not_elem_of_cons in Hc'.
      destruct Hc' as (? & ? & _).
      change (field (pagos_limpiados conv p) c) with (field p c).
      by rewrite !field_reescribir_ne.
  - apply Forall2_fmap_same, Forall_forall. intros r _. split.
    + by rewrite length_reescribir.
    + intros c Hc'.
      change (field (stock_limpiado conv s) c) with (field s c).
      by rewrite field_reescribir_ne.
Qed.

Lemma limpiar_datos_other_columns_witness :
  tablas_cargadas (mkProcessor "." (Some ventas_crudas) (Some pagos_crudos)
                     (Some stock_crudo)) ventas_crudas pagos_crudos stock_crudo
  ∧ columnas_limpieza ventas_crudas pagos_crudos stock_crudo
  ∧ ∃ v' p' s',
      _limpiar_datos conv_basic
        (mkProcessor "." (Some ventas_crudas) (Some pagos_crudos)
           (Some stock_crudo))
      = (Ok (), mkProcessor "." (Some v') (Some p') (Some s'))
      ∧ Forall2 (λ r r', length r' = length r
                   ∧ ∀ c, c ≠ "Stock_Total" →
                          field s' c r' = field stock_crudo c r)
          (rows stock_crudo) (rows s').
Proof.
  split; [done|]. split; [compute_done|].
  destruct (limpiar_datos_other_columns conv_basic
              (mkProcessor "." (Some ventas_crudas) (Some pagos_crudos)
                 (Some stock_crudo))
              ventas_crudas pagos_crudos stock_crudo)
    as (v' & p' & s' & H & _ & _ & Hs); [done|compute_done|].
  by exists v', p', s'.
Defined.

(** X7: cleaning is not atomic.  When the sales table has the columns
    read but the payments table has no Referencia_Factura column,
    [_limpiar_datos] raises the [KeyError] of [dropna], whose argument is
    the list of the labels not found and whose text is
    ['Referencia_Factura'] in brackets, after it has replaced the sales
    table by its cleaned version; payments and stock are left as they
    were. *)
Theorem limpiar_datos_partial conv self v p s :
  tablas_cargadas self v p s →
  has_column v "Doc_Venta" → has_column v "Cantidad" →
  has_column v "Valor_Neto" →
  "Referencia_Factura" ∉ columns p →
  _limpiar_datos conv self
  = (Raise (KeyError (Labels ["Referencia_Factura"])),
     mkProcessor (data_path self) (Some (ventas_limpiadas conv v))
       (Some p) (Some s))
  ∧ str_exn (KeyError (Labels ["Referencia_Factura"]))
    = "['Referencia_Factura']".
Proof.
  intros (Hv & Hp & Hs) Hdoc%has_column_elem_of [i Hi]%has_column_index
    [j Hj]%has_column_index Href.
  split; [|done].
  unfold _limpiar_datos, mbind, M_bind, get_ventas, get_pagos, get_stock,
    set_ventas, set_pagos, set_stock, lift.
  rewrite Hv. cbn [from_option ventas_df pagos_df stock_df data_path].
  rewrite (dropna_Ok _ _ Hdoc).
  rewrite (coerce_numeric_Ok conv _ _ i) by done. cbn [columns rows].
  rewrite (coerce_numeric_Ok conv _ _ j) by done. cbn [columns rows].
  rewrite coerce_datetime_cases. cbn [columns rows].
  rewrite Hp, Hs. cbn [from_option].
  unfold dropna at 1. rewrite bool_decide_eq_false_2 by done.
  do 2 f_equal.
  unfold ventas_limpiadas, reescribir. rewrite Hi, Hj.
  by rewrite <- !list_fmap_compose.
Qed.

Lemma limpiar_datos_partial_witness :
  _limpiar_datos conv_basic
    (mkProcessor "." (Some ventas_sucias) (Some pagos_sin_referencia)
       (Some stock_sucio))
  = (Raise (KeyError (Labels ["Referencia_Factura"])),
     mkProcessor "." (Some ventas_limpias) (Some pagos_sin_referencia)
       (Some stock_sucio)).
Proof.
  destruct (limpiar_datos_partial conv_basic
              (mkProcessor "." (Some ventas_sucias) (Some pagos_sin_referencia)
                 (Some stock_sucio))
              ventas_sucias pagos_sin_referencia stock_sucio) as [H _];
    [done|compute_done..|].
  rewrite H. compute_done.
Defined.

(* ===================================================================== *)
(** * Further properties of the filter engine *)
(* ===================================================================== *)

Lemma select_mask_sublist {A} (l : list A) m : select_mask l m `sublist_of` l.
Proof.
  revert m. induction l as [|x l IH]; intros [|[] m]; simpl;
    try apply sublist_nil_l.
  - by apply sublist_skip.
  - by apply sublist_cons.
Qed.

Lemma columnas_filtro_ok df productos clientes moneda :
  columnas_filtro df →
  ¬ filtros_fallan (columns df) productos clientes moneda.
Proof.
  unfold columnas_filtro, filtros_fallan.
  intros [[?%has_column_elem_of ?%has_column_elem_of]%andb_prop_elim
            ?%has_column_elem_of]%andb_prop_elim.
  tauto.
Qed.

(** X8: on a table that has the columns Producto, Nombre_Cliente and
    Moneda, [aplicar_filtros] keeps the columns and keeps exactly the
    rows that pass every active filter, each as often as it occurs and in
    the order of the table: its rows are the rows of the input filtered
    by [pasa_filtros].  A row passes when its product is one of the given
    products, its customer name one of the given customers and its
    currency the given one; a filter that is absent, empty or "Todas"
    excludes nothing. *)
Theorem aplicar_filtros_rows df productos clientes moneda :
  columnas_filtro df →
  ∃ res,
    aplicar_filtros df productos clientes moneda = Ok res
    ∧ columns res = columns df
    ∧ rows res = filter (pasa_filtros df productos clientes moneda) (rows df)
    ∧ ∀ r, pasa_filtros df productos clientes moneda r ↔
        (∀ ps, productos = Some ps → ps ≠ [] →
           ∃ x, field df "Producto" r = VStr x ∧ x ∈ ps)
        ∧ (∀ cs, clientes = Some cs → cs ≠ [] →
             ∃ x, field df "Nombre_Cliente" r = VStr x ∧ x ∈ cs)
        ∧ (∀ m, moneda = Some m → m ≠ "" → m ≠ "Todas" →
             field df "Moneda" r = VStr m).
Proof.
  intros Hc. eexists. rewrite aplicar_filtros_cases.
  rewrite decide_False by (by apply columnas_filtro_ok).
  split; [done|]. cbn [columns rows]. split; [done|]. split; [done|].
  intros r.
  unfold pasa_filtros, pasa_lista, pasa_moneda.
  assert (Hl : ∀ c (o : option (list string)),
             (truthy_list o → field df c r ∈ VStr <$> default [] o)
             ↔ (∀ xs, o = Some xs → xs ≠ [] →
                  ∃ x, field df c r = VStr x ∧ x ∈ xs)).
  { intros c [[|x xs]|]; split.
    - by intros _ ys [= <-] [].
    - by intros _ [].
    - intros H ys [= <-] _. specialize (H I).
      apply list_elem_of_fmap in H as (y & -> & Hy). eauto.
    - intros H _. destruct (H _ eq_refl) as (y & -> & Hy); [done|].
      by apply list_elem_of_fmap_2.
    - by intros _ ys.
    - by intros _ []. }
  assert (Hm : (truthy_str moneda && bool_decide (moneda ≠ Some "Todas") →
                field df "Moneda" r = VStr (default "" moneda))
               ↔ (∀ m, moneda = Some m → m ≠ "" → m ≠ "Todas" →
                    field df "Moneda" r = VStr m)).
  { destruct moneda as [[|a m]|]; simpl; split.
    - by intros _ m [= <-] [].
    - by intros _ [].
    - intros H m' [= <-] _ Hn. apply H. by rewrite bool_decide_eq_true_2 by congruence.
    - intros H Ht. apply H; [done|done|].
      apply bool_decide_unpack in Ht. congruence.
    - by intros _ m.
    - by intros _ []. }
  rewrite !Hl, Hm. tauto.
Qed.

Lemma aplicar_filtros_rows_witness :
  columnas_filtro ventas_demo
  ∧ aplicar_filtros ventas_demo (Some ["Laptop"]) (Some []) (Some "COP")
    = Ok (mkDF (columns ventas_demo)
            (filter (λ r, field ventas_demo "Producto" r = VStr "Laptop")
                    (rows ventas_demo)))
  ∧ ∃ res,
      aplicar_filtros ventas_demo (Some ["Laptop"]) (Some []) (Some "COP")
      = Ok res
      ∧ rows res
        = filter (pasa_filtros ventas_demo (Some ["Laptop"]) (Some [])
                    (Some "COP")) (rows ventas_demo).
Proof.
  split; [compute_done|]. split; [compute_done|].
  destruct (aplicar_filtros_rows ventas_demo (Some ["Laptop"]) (Some [])
              (Some "COP")) as (res & H & _ & Hs & _); [compute_done|].
  by exists res.
Defined.

(** X9: whatever the table and the filters, [aplicar_filtros] returns a
    table with the columns of its input whose rows are a sublist of the
    input rows: it never adds, alters or reorders a row. *)
Theorem aplicar_filtros_sublist df productos clientes moneda :
  ∃ res,
    aplicar_filtros df productos clientes moneda = Ok res
    ∧ columns res = columns df
    ∧ rows res `sublist_of` rows df.
Proof.
  eexists. split; [apply aplicar_filtros_cases|].
  destruct (decide (filtros_fallan _ _ _ _)); [done|].
  split; [done|]. apply sublist_filter.
Qed.

(** X10: on a table that has the three filter columns, the filters
    compose: applying the product, customer and currency filters one
    call at a time, in this order or in the reverse order, gives the
    table that one call with the three filters gives. *)
Theorem aplicar_filtros_compose df productos clientes moneda :
  columnas_filtro df →
  (d1 ← aplicar_filtros df productos None None;
   d2 ← aplicar_filtros d1 None clientes None;
   aplicar_filtros d2 None None moneda)
  = aplicar_filtros df productos clientes moneda
  ∧ (d1 ← aplicar_filtros df None None moneda;
     d2 ← aplicar_filtros d1 None clientes None;
     aplicar_filtros d2 productos None None)
    = aplicar_filtros df productos clientes moneda.
Proof.
  intros Hc.
  assert (Hok : ∀ rs P C M,
            aplicar_filtros (mkDF (columns df) rs) P C M
            = Ok (mkDF (columns df) (filter (pasa_filtros df P C M) rs))).
  { intros rs P C M. rewrite aplicar_filtros_cases.
    by rewrite decide_False by (by apply (columnas_filtro_ok (mkDF _ rs))). }
  destruct df as [cols rs]. cbn [columns] in Hok.
  split; rewrite !Hok; cbn [mbind result_bind]; rewrite !Hok;
    cbn [mbind result_bind]; rewrite !Hok; do 2 f_equal;
    rewrite !list_filter_filter; apply list_filter_iff; intros r;
    unfold pasa_filtros, pasa_lista, pasa_moneda; simpl; tauto.
Qed.

Lemma aplicar_filtros_compose_witness :
  columnas_filtro ventas_demo
  ∧ (d1 ← aplicar_filtros ventas_demo (Some ["Laptop"]) None None;
     d2 ← aplicar_filtros d1 None (Some ["ACME"]) None;
     aplicar_filtros d2 None None (Some "COP"))
    = aplicar_filtros ventas_demo (Some ["Laptop"]) (Some ["ACME"]) (Some "COP").
Proof.
  split; [compute_done|].
  apply (aplicar_filtros_compose ventas_demo). compute_done.
Defined.

Lemma estrecha_refl d : estrecha d d.
Proof. by split. Qed.

Lemma estrecha_trans d1 d2 d3 : estrecha d1 d2 → estrecha d2 d3 → estrecha d1 d3.
Proof.
  intros [Hc1 Hr1] [Hc2 Hr2]. split; [congruence|]. by etrans.
Qed.

Lemma loc_estrecha d m : estrecha d (loc d m).
Proof. split; [done|]. apply select_mask_sublist. Qed.

Lemma filtrar_isin_estrecha d c xs d' :
  filtrar_isin d c xs = Ok d' → estrecha d d'.
Proof.
  unfold filtrar_isin. destruct (getitem d c); [|done].
  intros [= <-]. apply loc_estrecha.
Qed.

Lemma filtrar_ge_estrecha d c ts d' :
  filtrar_ge d c ts = Ok d' → estrecha d d'.
Proof.
  unfold filtrar_ge. destruct (getitem d c) as [s|]; [|done]. cbn.
  destruct (cmp_series _ _ s); [|done]. intros [= <-]. apply loc_estrecha.
Qed.

Lemma filtrar_le_estrecha d c ts d' :
  filtrar_le d c ts = Ok d' → estrecha d d'.
Proof.
  unfold filtrar_le. destruct (getitem d c) as [s|]; [|done]. cbn.
  destruct (cmp_series _ _ s); [|done]. intros [= <-]. apply loc_estrecha.
Qed.

Lemma aplicar_filtros_estrecha d productos clientes moneda d' :
  aplicar_filtros d productos clientes moneda = Ok d' → estrecha d d'.
Proof.
  rewrite aplicar_filtros_cases. intros [= <-].
  destruct (decide (filtros_fallan _ _ _ _)); [apply estrecha_refl|].
  split; [done|]. apply sublist_filter.
Qed.

Lemma aplicar_filtros_completos_body_estrecha d productos clientes canales
    moneda desde hasta d' :
  aplicar_filtros_completos_body d productos clientes canales moneda
    desde hasta = Ok d' →
  estrecha d d'.
Proof.
  unfold aplicar_filtros_completos_body.
  destruct (aplicar_filtros d productos clientes moneda) as [d1|] eqn:H1;
    [|done].
  apply aplicar_filtros_estrecha in H1. cbn [mbind result_bind].
  destruct (if truthy_list canales then _ else _) as [d2|] eqn:H2; [|done].
  assert (estrecha d1 d2).
  { destruct (truthy_list canales);
      [by eapply filtrar_isin_estrecha|injection H2 as <-; apply estrecha_refl]. }
  cbn [mbind result_bind].
  destruct (match desde with Some _ => _ | None => _ end) as [d3|] eqn:H3;
    [|done].
  assert (estrecha d2 d3).
  { destruct desde;
      [by eapply filtrar_ge_estrecha|injection H3 as <-; apply estrecha_refl]. }
  cbn [mbind result_bind].
  destruct (match hasta with Some _ => _ | None => _ end) as [d4|] eqn:H4;
    [|done].
  assert (estrecha d3 d4).
  { destruct hasta;
      [by eapply filtrar_le_estrecha|injection H4 as <-; apply estrecha_refl]. }
  intros [= <-]. eauto using estrecha_trans.
Qed.

(** X11: [aplicar_filtros_completos] never propagates an exception and
    returns a table with the columns of its input whose rows are a
    sublist of the input rows.  It fails open as a whole: when the
    channel filter is active and the table has no Canal column, or a
    date bound is given and the table has no Fecha_Doc column, it returns
    the input table itself, so the product, customer and currency
    filters that had been applied are dropped as well. *)
Theorem aplicar_filtros_completos_fail_open :
  (∀ df productos clientes canales moneda desde hasta,
     ∃ res,
       aplicar_filtros_completos df productos clientes canales moneda
         desde hasta = Ok res
       ∧ columns res = columns df ∧ rows res `sublist_of` rows df)
  ∧ (∀ df productos clientes canales moneda desde hasta,
       truthy_list canales → "Canal" ∉ columns df →
       aplicar_filtros_completos df productos clientes canales moneda
         desde hasta = Ok df)
  ∧ (∀ df productos clientes canales moneda desde hasta,
       is_Some desde ∨ is_Some hasta → "Fecha_Doc" ∉ columns df →
       aplicar_filtros_completos df productos clientes canales moneda
         desde hasta = Ok df).
Proof.
  split_and!.
  - intros df P C Ch M desde hasta. unfold aplicar_filtros_completos, copy.
    destruct (aplicar_filtros_completos_body _ _ _ _ _ _ _) as [res|] eqn:Hb.
    + apply aplicar_filtros_completos_body_estrecha in Hb as [? ?].
      by exists res.
    + by exists df.
  - intros df P C Ch M desde hasta Hact Hcanal.
    unfold aplicar_filtros_completos, aplicar_filtros_completos_body, copy.
    destruct (aplicar_filtros df P C M) as [d1|] eqn:H1; [|done].
    apply aplicar_filtros_estrecha in H1 as [Hc1 _]. cbn [mbind result_bind].
    destruct (truthy_list Ch); [|done].
    by rewrite filtrar_isin_Raise by (by rewrite Hc1).
  - intros df P C Ch M desde hasta Hbound Hfecha.
    unfold aplicar_filtros_completos, copy.
    destruct (aplicar_filtros_completos_body _ _ _ _ _ _ _) as [res|] eqn:Hb;
      [exfalso|done].
    revert Hb. unfold aplicar_filtros_completos_body.
    destruct (aplicar_filtros df P C M) as [d1|] eqn:H1; [|done].
    apply aplicar_filtros_estrecha in H1 as [Hc1 _]. cbn [mbind result_bind].
    destruct (if truthy_list Ch then _ else _) as [d2|] eqn:H2; [|done].
    assert (Hc2 : columns d2 = columns df).
    { destruct (truthy_list Ch).
      - apply filtrar_isin_estrecha in H2 as [-> _]. done.
      - by injection H2 as <-. }
    cbn [mbind result_bind].
    destruct desde as [d|].
    + unfold filtrar_ge. by rewrite getitem_missing by (by rewrite Hc2).
    + cbn [mbind result_bind mret result_ret].
      destruct hasta as [d|]; [|by destruct Hbound as [[]|[]]].
      unfold filtrar_le. by rewrite getitem_missing by (by rewrite Hc2).
Qed.

Lemma aplicar_filtros_completos_fail_open_witness :
  filtrar_isin ventas_sin_cliente "Producto" ["Laptop"]
  = Ok (mkDF ["Producto"] [[VStr "Laptop"]])
  ∧ aplicar_filtros_completos ventas_sin_cliente (Some ["Laptop"]) None
      (Some ["Online"]) None None None = Ok ventas_sin_cliente
  ∧ aplicar_filtros_completos ventas_sin_cliente (Some ["Laptop"]) None
      None None (Some 10%Z) None = Ok ventas_sin_cliente.
Proof.
  destruct aplicar_filtros_completos_fail_open as (_ & H2 & H3).
  split; [compute_done|]. split.
  - apply H2; [done|compute_done].
  - apply H3; [left; eauto|compute_done].
Defined.

(** X12: on a sales table with a Canal column and a datetime Fecha_Doc
    column, as soon as one date bound is given no row with a null
    document date is left: a sale whose date did not parse is removed by
    either bound. *)
Theorem rango_fechas_drops_null df productos clientes canales moneda
    desde hasta :
  has_column df "Canal" → datetime_column df "Fecha_Doc" →
  is_Some desde ∨ is_Some hasta →
  ∃ res,
    aplicar_filtros_completos df productos clientes canales moneda desde hasta
    = Ok res
    ∧ ∀ r, r ∈ rows res → ∃ t, field df "Fecha_Doc" r = VDate t.
Proof.
  intros Hcanal Hfecha Hbound. eexists.
  split; [by apply aplicar_filtros_completos_Ok|].
  cbn [rows]. intros r [Hr _]%list_elem_of_filter. unfold en_rango in Hr.
  apply andb_prop_elim in Hr as [Hd Hh].
  destruct (field df "Fecha_Doc" r) as [|x|x|t]; [..|by eexists];
    destruct Hbound as [[d ->]|[d ->]]; done.
Qed.

Lemma rango_fechas_drops_null_witness :
  has_column ventas_demo "Canal" ∧ datetime_column ventas_demo "Fecha_Doc"
  ∧ length (rows ventas_demo) = 3%nat
  ∧ ∃ res,
      aplicar_filtros_completos ventas_demo None None None None None
        (Some 20%Z) = Ok res
      ∧ length (rows res) = 2%nat
      ∧ ∀ r, r ∈ rows res → ∃ t, field ventas_demo "Fecha_Doc" r = VDate t.
Proof.
  split_and!; [compute_done..|].
  destruct (rango_fechas_drops_null ventas_demo None None None None None
              (Some 20%Z)) as (res & H & Hr); [compute_done..|right; eauto|].
  exists res. split_and!; [done| |done].
  assert (Hres : aplicar_filtros_completos ventas_demo None None None None None
                   (Some 20%Z)
                 = Ok (mkDF (columns ventas_demo)
                         (filter (λ r, field ventas_demo "Canal" r = VStr "Online")
                                 (rows ventas_demo)))) by compute_done.
  rewrite Hres in H. by injection H as <-.
Defined.

(* ===================================================================== *)
(** * KPIs of a filtered view *)
(* ===================================================================== *)

Lemma suma_Z_sublist (l' l : list Z) :
  l' `sublist_of` l → Forall (λ x, 0 ≤ x)%Z l → (suma_Z l' ≤ suma_Z l)%Z.
Proof.
  induction 1 as [|x l1 l2 _ IH|x l1 l2 _ IH]; intros Hall; simpl.
  - done.
  - apply Forall_cons in Hall as [_ Hall]. specialize (IH Hall). lia.
  - apply Forall_cons in Hall as [Hx Hall]. specialize (IH Hall). lia.
Qed.

Lemma suma_Z_mono {A} (f g : A → Z) (l : list A) :
  Forall (λ x, f x ≤ g x)%Z l → (suma_Z (f <$> l) ≤ suma_Z (g <$> l))%Z.
Proof. induction 1 as [|x l Hx _ IH]; [done|]. csimpl. lia. Qed.

Lemma forallb_Forall {A} (f : A → bool) (l : list A) :
  forallb f l → Forall (λ x, f x) l.
Proof.
  intros Hall. apply Forall_forall. intros x Hx.
  apply Is_true_true, forallb_forall with (x := x) in Hall;
    [by apply Is_true_true|by apply list_elem_of_In].
Qed.

Lemma Forall_forallb {A} (f : A → bool) (l : list A) :
  Forall (λ x, f x) l → forallb f l.
Proof.
  intros Hall. apply Is_true_true, forallb_forall. intros x Hx%list_elem_of_In.
  eapply Forall_forall in Hall; [|done]. by apply Is_true_true.
Qed.

Lemma columna_entera_estrecha d d' c :
  estrecha d d' → columna_entera d c → columna_entera d' c.
Proof.
  intros [Hc Hr] [Hcol Hall]%andb_prop_elim. unfold columna_entera.
  apply andb_prop_intro. split.
  - unfold has_column in *. by rewrite Hc.
  - apply Forall_forallb, Forall_forall. intros r Hr'%(sublist_subseteq _ _ Hr).
    apply forallb_Forall in Hall. eapply Forall_forall in Hall; [|done].
    by rewrite (field_same_columns d d').
Qed.

Lemma importes_Z_estrecha v v' :
  estrecha v v' → importes_Z v' `sublist_of` importes_Z v.
Proof.
  intros [Hc Hr]. unfold importes_Z.
  rewrite !(field_same_columns v v') by done. by apply fmap_sublist.
Qed.

Lemma tablas_enteras_estrecha v v' p :
  estrecha v v' → tablas_enteras v p → tablas_enteras v' p.
Proof.
  intros He. pose proof (importes_Z_estrecha _ _ He) as Hs%suma_abs_sublist.
  unfold tablas_enteras.
  intros [[[[[Hd Hc]%andb_prop_elim Hv]%andb_prop_elim Hr]%andb_prop_elim
            Hm]%andb_prop_elim Hb%bool_decide_unpack]%andb_prop_elim.
  apply andb_prop_intro; split;
    [apply andb_prop_intro; split;
      [apply andb_prop_intro; split;
        [apply andb_prop_intro; split;
          [apply andb_prop_intro; split|]|]|]|].
  - unfold has_column in *. destruct He as [-> _]. done.
  - by eapply columna_entera_estrecha.
  - by eapply columna_entera_estrecha.
  - done.
  - done.
  - apply bool_decide_pack. lia.
Qed.

(** On a narrowed sales table of integers both totals are at most what
    they are on the table itself, when no amount is negative. *)
Lemma kpis_estrecha v v' p :
  estrecha v v' → importes_no_negativos v → sin_negativos p →
  (total_ventas_Z v' ≤ total_ventas_Z v)%Z
  ∧ (total_pagado_Z v' p ≤ total_pagado_Z v p)%Z.
Proof.
  intros He Hpos%forallb_Forall Hpag%forallb_Forall.
  split.
  - unfold total_ventas_Z.
    apply suma_Z_sublist; [by apply importes_Z_estrecha|].
    unfold importes_Z. apply Forall_fmap. eapply Forall_impl; [exact Hpos|].
    intros r Hr. by apply bool_decide_unpack in Hr.
  - destruct He as [Hcol Hrows].
    unfold total_pagado_Z. rewrite !suma_Z_filter.
    apply suma_Z_mono. eapply Forall_impl; [exact Hpag|].
    intros r Hr%bool_decide_unpack.
    destruct (decide (pago_casado v' p r)) as [Hin|Hout].
    + rewrite decide_True; [done|]. unfold pago_casado, docs_ventas_spec in *.
      rewrite (field_same_columns v v') in Hin by done.
      apply list_elem_of_fmap in Hin as (r0 & -> & Hr0).
      apply list_elem_of_fmap_2. by apply (sublist_subseteq _ _ Hrows).
    + by destruct (decide (pago_casado v p r)).
Qed.

(** X13: on tables of integers small enough for the arithmetic of the
    columns to be exact, narrowing the sales view never raises the
    indicators.  When no sales amount and no payment amount is negative,
    the total sales and the total paid computed on the result of
    [aplicar_filtros], or of [aplicar_filtros_completos], are at most
    those computed on the unfiltered sales table, with the same payments
    table. *)
Theorem kpis_filtered_le (ar : Aritmetica)
    v p v' productos clientes canales moneda desde hasta :
  tablas_enteras v p → importes_no_negativos v → sin_negativos p →
  aplicar_filtros v productos clientes moneda = Ok v'
  ∨ aplicar_filtros_completos v productos clientes canales moneda desde hasta
    = Ok v' →
  ∃ tv tp tv' tp' : Z,
    calcular_kpis ar v p = Ok (of_Z tv, of_Z tp, of_Z (tv - tp))
    ∧ calcular_kpis ar v' p = Ok (of_Z tv', of_Z tp', of_Z (tv' - tp'))
    ∧ (tv' ≤ tv)%Z ∧ (tp' ≤ tp)%Z.
Proof.
  intros Hv Hpos Hpag Hres.
  assert (He : estrecha v v').
  { destruct Hres as [H|H].
    - by eapply aplicar_filtros_estrecha.
    - unfold aplicar_filtros_completos, copy in H.
      destruct (aplicar_filtros_completos_body _ _ _ _ _ _ _) eqn:Hb.
      + injection H as <-. by eapply aplicar_filtros_completos_body_estrecha.
      + injection H as <-. apply estrecha_refl. }
  destruct (kpis_estrecha _ _ p He Hpos Hpag) as [Htv Htp].
  eexists _, _, _, _. split_and!; [| |exact Htv|exact Htp].
  - by apply calcular_kpis_enteros.
  - apply calcular_kpis_enteros. by eapply tablas_enteras_estrecha.
Qed.

Lemma kpis_filtered_le_witness :
  tablas_enteras ventas_demo pagos_demo
  ∧ importes_no_negativos ventas_demo ∧ sin_negativos pagos_demo
  ∧ calcular_kpis aritmetica_exacta ventas_demo pagos_demo
    = Ok (of_Z 350, of_Z 220, of_Z 130)
  ∧ ∃ v',
      aplicar_filtros ventas_demo None (Some ["Globex"]) None = Ok v'
      ∧ calcular_kpis aritmetica_exacta v' pagos_demo
        = Ok (of_Z 100, of_Z 20, of_Z 80)
      ∧ ∃ tv tp tv' tp' : Z,
          calcular_kpis aritmetica_exacta ventas_demo pagos_demo
          = Ok (of_Z tv, of_Z tp, of_Z (tv - tp))
          ∧ calcular_kpis aritmetica_exacta v' pagos_demo
            = Ok (of_Z tv', of_Z tp', of_Z (tv' - tp'))
          ∧ (tv' ≤ tv)%Z ∧ (tp' ≤ tp)%Z.
Proof.
  split_and!; [compute_done..|].
  eexists. split; [apply aplicar_filtros_cases|]. split; [compute_done|].
  apply (kpis_filtered_le aritmetica_exacta ventas_demo pagos_demo _ None
           (Some ["Globex"]) None None None None); [compute_done..|].
  left. apply aplicar_filtros_cases.
Defined.

(* ===================================================================== *)
(** * Further properties of the report builder *)
(* ===================================================================== *)

Lemma empty_of_no_rows df : rows df = [] → empty df = true.
Proof. unfold empty. intros ->. by destruct (columns df). Qed.

(** X14: a failure inside the KPI computation does not fail the report:
    when the computation of the KPIs raises (for instance because the
    payments table lacks a column) while the columns counted in the
    summary are present, [generar_reporte_excel] still returns the four
    sheets, and the summary shows 0 for total sales, total paid and
    pending next to the true counts and the sum of the stock column. *)
Theorem reporte_kpis_fallidos (ar : Aritmetica) ventas pagos stock e :
  calcular_kpis_body ar ventas pagos = Raise e →
  has_column ventas "Producto" → has_column ventas "Nombre_Cliente" →
  has_column stock "Centro" → finite_column stock "Stock_Total" →
  generar_reporte_excel ar ventas pagos stock true
  = Ok (libro_con_resumen ventas pagos stock
          [Fin 0%Qc; Fin 0%Qc; Fin 0%Qc;
           of_nat (distintos ventas "Producto");
           of_nat (distintos ventas "Nombre_Cliente");
           of_nat (length (rows ventas)); of_nat (length (rows pagos));
           of_nat (con_existencia stock); of_nat (distintos stock "Centro");
           suma ar Stock_Total
             ((λ r, numero (field stock "Stock_Total" r)) <$> rows stock)]).
Proof.
  intros Hk Hprod%has_column_elem_of Hcli%has_column_elem_of
    Hcen%has_column_elem_of Hst.
  unfold generar_reporte_excel, generar_reporte_excel_body, _crear_hoja_resumen,
    calcular_kpis.
  rewrite Hk. cbn [catch mret result_ret mbind result_bind].
  rewrite !contar_unicos_Ok by done. cbn [mbind result_bind].
  rewrite (materiales_Ok _ Hst). cbn [mbind result_bind].
  rewrite (stock_total_Ok ar _ Hst). done.
Qed.

Lemma reporte_kpis_fallidos_witness :
  calcular_kpis_body aritmetica_exacta ejemplo_ventas_rep pagos_sin_monto
  = Raise (KeyError "Monto_Pago")
  ∧ generar_reporte_excel aritmetica_exacta
      ejemplo_ventas_rep pagos_sin_monto ejemplo_stock true
    = Ok (libro_con_resumen ejemplo_ventas_rep pagos_sin_monto ejemplo_stock
            [of_Z 0; of_Z 0; of_Z 0; of_Z 2; of_Z 1; of_Z 2; of_Z 1;
             of_Z 1; of_Z 1; of_Z 10]).
Proof.
  split; [compute_done|].
  rewrite (reporte_kpis_fallidos _ _ _ _ (KeyError "Monto_Pago"))
    by compute_done.
  compute_done.
Defined.

(** X15: on a sales table and a stock table without rows, whatever their
    columns are and whatever the payments table is, the report with
    summary is produced and every metric is 0 except the number of
    payment rows; no column is looked up in an empty table. *)
Theorem reporte_tablas_vacias (ar : Aritmetica) ventas pagos stock :
  rows ventas = [] → rows stock = [] →
  generar_reporte_excel ar ventas pagos stock true
  = Ok (libro_con_resumen ventas pagos stock
          [Fin 0%Qc; Fin 0%Qc; Fin 0%Qc; of_nat 0; of_nat 0; of_nat 0;
           of_nat (length (rows pagos)); of_nat 0; of_nat 0; Fin 0%Qc]).
Proof.
  intros Hv Hs.
  unfold generar_reporte_excel, generar_reporte_excel_body, _crear_hoja_resumen,
    contar_unicos, len.
  rewrite (calcular_kpis_no_rows ar _ _ Hv).
  rewrite !(empty_of_no_rows _ Hv), !(empty_of_no_rows _ Hs), Hv.
  done.
Qed.

Lemma reporte_tablas_vacias_witness :
  generar_reporte_excel aritmetica_exacta
    (mkDF [] []) ejemplo_pagos (mkDF ["Centro"] []) true
  = Ok (libro_con_resumen (mkDF [] []) ejemplo_pagos (mkDF ["Centro"] [])
          [of_Z 0; of_Z 0; of_Z 0; of_Z 0; of_Z 0; of_Z 0; of_Z 2;
           of_Z 0; of_Z 0; of_Z 0]).
Proof.
  rewrite (reporte_tablas_vacias aritmetica_exacta (mkDF [] []) ejemplo_pagos
             (mkDF ["Centro"] [])) by done.
  compute_done.
Defined.

(** X16: unlike a KPI failure, a failure of the counts of the summary is
    surfaced: on a sales table that is not empty and has no Producto
    column, the report with summary raises a plain [Exception] whose
    message is "Error al generar el reporte: " followed by the quoted
    label, while the report without summary is still produced. *)
Theorem reporte_error_envuelto (ar : Aritmetica) ventas pagos stock :
  empty ventas = false → "Producto" ∉ columns ventas →
  generar_reporte_excel ar ventas pagos stock true
  = Raise (Exception "Error al generar el reporte: 'Producto'")
  ∧ generar_reporte_excel ar ventas pagos stock false
    = Ok [mkSheet "Ventas" ventas; mkSheet "Pagos" pagos; mkSheet "Stock" stock].
Proof.
  intros Hne Hprod. split; [|done].
  unfold generar_reporte_excel, generar_reporte_excel_body, _crear_hoja_resumen.
  destruct (calcular_kpis_total ar ventas pagos) as [[[tv tp] pe] ->].
  cbn [mbind result_bind].
  assert (Hraise : contar_unicos ventas "Producto" = Raise (KeyError "Producto")).
  { unfold contar_unicos. rewrite Hne. cbn [negb]. by rewrite getitem_missing. }
  by rewrite Hraise.
Qed.

Lemma reporte_error_envuelto_witness :
  empty ventas_sin_producto = false
  ∧ ("Producto" ∉ columns ventas_sin_producto)
  ∧ generar_reporte_excel aritmetica_exacta
      ventas_sin_producto ejemplo_pagos ejemplo_stock true
    = Raise (Exception "Error al generar el reporte: 'Producto'").
Proof.
  split; [done|]. split; [compute_done|].
  apply (reporte_error_envuelto aritmetica_exacta ventas_sin_producto);
    [done|compute_done].
Defined.

(* ===================================================================== *)
(** * Properties of the dashboard indicators *)
(* ===================================================================== *)

Lemma Qc_of_Z_0 : Qc_of_Z 0 = 0%Qc.
Proof. by apply Qc_is_canon. Qed.

Lemma le0_series_finite {A} (f : A → value) (l : list A) :
  Forall (λ r, finite_cell (f r)) l →
  le0_series (f <$> l) = Ok ((λ r, fle (Fin (amount (f r))) 0) <$> l).
Proof.
  induction 1 as [|r l Hr _ IH]; [done|].
  csimpl. rewrite IH. by rewrite (finite_cell_amount (f r) Hr) at 1.
Qed.

Lemma estado_series_finite {A} (f : A → value) (l : list A) :
  Forall (λ r, finite_cell (f r)) l →
  estado_series (f <$> l) = Ok ((λ r, estado (Fin (amount (f r)))) <$> l).
Proof.
  induction 1 as [|r l Hr _ IH]; [done|].
  csimpl. rewrite IH. by rewrite (finite_cell_amount (f r) Hr) at 1.
Qed.

Lemma fle_Fin q c : fle (Fin q) c ↔ (q ≤ Qc_of_Z c)%Qc.
Proof. unfold fle. apply bool_decide_spec. Qed.

Lemma estado_de_estado q : estado_de q (estado (Fin q)).
Proof.
  unfold estado_de, estado.
  destruct (fle (Fin q) 0) eqn:H0.
  - apply Is_true_true, fle_Fin in H0. rewrite Qc_of_Z_0 in H0.
    split_and!; split; try done.
    + intros [Hq _]. by apply Qcle_not_lt in H0.
    + intros Hq. exfalso. apply (Qcle_not_lt _ _ H0).
      by eapply Qclt_trans; [|exact Hq].
  - assert (Hpos : (0 < q)%Qc).
    { apply Qcnot_le_lt. intros Hq. rewrite <- Qc_of_Z_0 in Hq.
      apply fle_Fin, Is_true_true in Hq. congruence. }
    destruct (fle (Fin q) 50) eqn:H50.
    + apply Is_true_true, fle_Fin in H50.
      split_and!; split; try done.
      * intros Hq. by apply Qcle_not_lt in Hq.
      * intros Hq. by apply Qcle_not_lt in H50.
    + assert (Hbig : (Qc_of_Z 50 < q)%Qc).
      { apply Qcnot_le_lt. intros Hq.
        apply fle_Fin, Is_true_true in Hq. congruence. }
      split_and!; split; try done.
      * intros Hq. by apply Qcle_not_lt in Hq.
      * intros [_ Hq]. by apply Qcle_not_lt in Hq.
Qed.

Lemma cuenta_fmap {A} (f : A → string) l (rs : list A) :
  cuenta l (f <$> rs) = length (filter (λ r, f r = l) rs).
Proof.
  unfold cuenta. induction rs as [|r rs IH]; [done|]. csimpl.
  rewrite !filter_cons. destruct (decide (f r = l)); simpl; by rewrite IH.
Qed.

Lemma length_filter_partition {A} (P : A → Prop) `{∀ x, Decision (P x)}
    (l : list A) :
  (length (filter P l) + length (filter (λ x, ¬ P x) l))%nat = length l.
Proof.
  rewrite <- length_app. apply Permutation_length, filter_app_complement.
Qed.

Lemma fle_0_not_pos q : fle (Fin q) 0 ↔ ¬ (0 < q)%Qc.
Proof.
  rewrite fle_Fin, Qc_of_Z_0. split.
  - apply Qcle_not_lt.
  - apply Qcnot_lt_le.
Qed.

Lemma estado_casos q :
  (estado (Fin q) = "Sin Stock" ∧ ¬ (0 < q)%Qc)
  ∨ (estado (Fin q) = "Stock Bajo" ∧ (0 < q)%Qc)
  ∨ (estado (Fin q) = "Stock Normal" ∧ (0 < q)%Qc).
Proof.
  unfold estado. destruct (fle (Fin q) 0) eqn:H0.
  - left. split; [done|]. by apply fle_0_not_pos, Is_true_true.
  - assert (Hpos : (0 < q)%Qc).
    { destruct (decide (0 < q)%Qc) as [|Hn]; [done|].
      apply fle_0_not_pos, Is_true_true in Hn. congruence. }
    destruct (fle (Fin q) 50); auto.
Qed.

Lemma cuenta_en_stock {A} (f : A → Qc) (rs : list A) :
  (cuenta "Stock Bajo" ((λ r, estado (Fin (f r))) <$> rs)
   + cuenta "Stock Normal" ((λ r, estado (Fin (f r))) <$> rs))%nat
  = length (filter (λ r, (0 < f r)%Qc) rs).
Proof.
  rewrite !cuenta_fmap. induction rs as [|r rs IH]; [done|].
  rewrite !filter_cons.
  destruct (estado_casos (f r)) as [[He Hq]|[[He Hq]|[He Hq]]].
  - rewrite (decide_False (P := estado _ = "Stock Bajo")) by (by rewrite He).
    rewrite (decide_False (P := estado _ = "Stock Normal")) by (by rewrite He).
    by rewrite (decide_False (P := (0 < f r)%Qc)) by done.
  - rewrite (decide_True (P := estado _ = "Stock Bajo")) by done.
    rewrite (decide_False (P := estado _ = "Stock Normal")) by (by rewrite He).
    rewrite (decide_True (P := (0 < f r)%Qc)) by done.
    simpl. by rewrite IH.
  - rewrite (decide_False (P := estado _ = "Stock Bajo")) by (by rewrite He).
    rewrite (decide_True (P := estado _ = "Stock Normal")) by done.
    rewrite (decide_True (P := (0 < f r)%Qc)) by done.
    simpl. rewrite <- IH. lia.
Qed.

(** X18: the stock figures of the dashboard agree with each other and
    with the report.  On a stock table that is not empty, has the columns
    Centro and Tipo_Almacén and holds finite numbers in Stock_Total: every
    row is labelled 'Sin Stock' when its quantity is at most 0, 'Stock
    Bajo' when it is above 0 and at most 50, 'Stock Normal' above 50; the
    materials in stock and the exhausted materials of the inventory tab
    add up to the number of rows; the exhausted ones are the rows
    labelled 'Sin Stock' and the ones in stock are the rows with the two
    other labels; and whenever [generar_reporte_excel] returns a workbook
    for this stock table, the values of Materiales en Stock, Centros de
    Distribución and Stock Total on its summary sheet are the materials
    in stock, the distribution centres and the total stock of the
    inventory tab. *)
Theorem inventario_consistente (ar : Aritmetica) ventas pagos stock wb :
  finite_column stock "Stock_Total" → has_column stock "Centro" →
  has_column stock "Tipo_Almacén" → empty stock = false →
  generar_reporte_excel ar ventas pagos stock true = Ok wb →
  ∃ inv labels valores,
    inventario ar stock = Ok (Some inv)
    ∧ stock_status stock = Ok (Some (setitem stock "Estado" (VStr <$> labels)))
    ∧ Forall2 (λ r l, estado_de (amount (field stock "Stock_Total" r)) l)
        (rows stock) labels
    ∧ (materiales_en_stock inv + materiales_agotados inv)%nat
      = length (rows stock)
    ∧ cuenta "Sin Stock" labels = materiales_agotados inv
    ∧ (cuenta "Stock Bajo" labels + cuenta "Stock Normal" labels)%nat
      = materiales_en_stock inv
    ∧ wb = libro_con_resumen ventas pagos stock valores
    ∧ valores !! 7%nat = Some (of_nat (materiales_en_stock inv))
    ∧ valores !! 8%nat = Some (of_nat (centros_distribucion inv))
    ∧ valores !! 9%nat = Some (stock_total inv).
Proof.
  intros Hst Hcen%has_column_elem_of Htipo%has_column_elem_of He Hwb.
  pose proof (finite_column_unpack _ _ Hst) as [Hc Hall].
  set (q := λ r, amount (field stock "Stock_Total" r)).
  unfold generar_reporte_excel, generar_reporte_excel_body,
    _crear_hoja_resumen in Hwb.
  destruct (calcular_kpis_total ar ventas pagos) as [[[tv tp] pe] Hk].
  rewrite Hk in Hwb. cbn [mbind result_bind] in Hwb.
  destruct (contar_unicos ventas "Producto") as [n1|] eqn:E1; [|done].
  cbn [mbind result_bind] in Hwb.
  destruct (contar_unicos ventas "Nombre_Cliente") as [n2|] eqn:E2; [|done].
  cbn [mbind result_bind] in Hwb.
  rewrite (materiales_Ok _ Hst) in Hwb. cbn [mbind result_bind] in Hwb.
  rewrite (contar_unicos_Ok _ _ Hcen) in Hwb. cbn [mbind result_bind] in Hwb.
  rewrite (stock_total_Ok ar _ Hst) in Hwb.
  cbn [mbind result_bind mret result_ret catch] in Hwb.
  injection Hwb as <-.
  exists (mkInventario
            (length (filter (λ r, (0 < q r)%Qc) (rows stock)))
            (length (filter (λ r, ¬ (0 < q r)%Qc) (rows stock)))
            (unidades ar stock)
            (distintos stock "Centro") (distintos stock "Tipo_Almacén")),
         ((λ r, estado (Fin (q r))) <$> rows stock),
         [tv; tp; pe; of_nat n1; of_nat n2;
          of_nat (len ventas); of_nat (len pagos);
          of_nat (con_existencia stock); of_nat (distintos stock "Centro");
          unidades ar stock].
  split_and!.
  - unfold inventario. rewrite He. cbn [negb].
    rewrite (getitem_field _ _ Hc), (getitem_field _ _ Hcen),
      (getitem_field _ _ Htipo).
    cbn [mbind result_bind].
    rewrite (gt0_series_finite _ _ Hall), (le0_series_finite _ _ Hall).
    cbn [mbind result_bind]. unfold series_sum.
    rewrite (as_floats_finite _ _ Hall).
    cbn [fmap result_fmap mbind result_bind mret result_ret].
    unfold len, loc. cbn [rows]. do 2 f_equal.
    f_equal.
    + f_equal.
      etrans; [apply (select_mask_filter (λ r, fpos (Fin (q r))))|].
      apply list_filter_iff. intros r. apply fpos_Fin.
    + f_equal.
      etrans; [apply (select_mask_filter (λ r, fle (Fin (q r)) 0))|].
      apply list_filter_iff. intros r. apply fle_0_not_pos.
    + unfold distintos. by rewrite length_unique.
    + unfold distintos. by rewrite length_unique.
  - unfold stock_status, copy. rewrite He. cbn [negb].
    rewrite (getitem_field _ _ Hc). cbn [mbind result_bind].
    by rewrite (estado_series_finite _ _ Hall).
  - apply Forall2_fmap_same, Forall_forall. intros r _. apply estado_de_estado.
  - cbn [materiales_en_stock materiales_agotados].
    apply length_filter_partition.
  - cbn [materiales_agotados]. rewrite cuenta_fmap. f_equal.
    apply list_filter_iff. intros r.
    destruct (estado_de_estado (q r)) as (H1 & _). rewrite H1. split.
    + apply Qcle_not_lt.
    + apply Qcnot_lt_le.
  - cbn [materiales_en_stock]. apply cuenta_en_stock.
  - done.
  - done.
  - done.
  - done.
Qed.

Lemma inventario_consistente_witness :
  finite_column stock_demo "Stock_Total" ∧ has_column stock_demo "Centro"
  ∧ has_column stock_demo "Tipo_Almacén" ∧ empty stock_demo = false
  ∧ inventario aritmetica_exacta stock_demo
    = Ok (Some (mkInventario 3 1 (of_Z 108) 2 2))
  ∧ ∃ wb inv labels valores,
      generar_reporte_excel aritmetica_exacta
        ejemplo_ventas_rep ejemplo_pagos stock_demo true = Ok wb
      ∧ inventario aritmetica_exacta stock_demo = Ok (Some inv)
      ∧ stock_status stock_demo
        = Ok (Some (setitem stock_demo "Estado" (VStr <$> labels)))
      ∧ cuenta "Sin Stock" labels = materiales_agotados inv
      ∧ wb = libro_con_resumen ejemplo_ventas_rep ejemplo_pagos stock_demo
               valores
      ∧ valores !! 9%nat = Some (stock_total inv).
Proof.
  split_and!; [compute_done..|].
  assert (Hwb : ∃ wb, generar_reporte_excel aritmetica_exacta
                        ejemplo_ventas_rep ejemplo_pagos stock_demo true
                      = Ok wb).
  { eexists. vm_compute. reflexivity. }
  destruct Hwb as [wb Hwb]. exists wb.
  destruct (inventario_consistente aritmetica_exacta ejemplo_ventas_rep
              ejemplo_pagos stock_demo wb)
    as (inv & labels & valores & H1 & H2 & _ & _ & H5 & _ & H7 & _ & _ & H10);
    [compute_done..|exact Hwb|].
  by exists inv, labels, valores.
Defined.

(* ===================================================================== *)
(** * From a complete load to the filters, the KPIs and the report *)
(* ===================================================================== *)

Lemma columnas_limpieza_esquema v p s :
  esquema_completo "ventas" v → esquema_completo "pagos" p →
  esquema_completo "stock" s → columnas_limpieza v p s.
Proof.
  intros Hv Hp Hs. unfold columnas_limpieza, has_column.
  repeat (apply andb_prop_intro; split); apply bool_decide_pack;
    first [by apply (esquema_completo_elem "ventas"); [|compute_done]
          |by apply (esquema_completo_elem "pagos"); [|compute_done]
          |by apply (esquema_completo_elem "stock"); [|compute_done]].
Qed.

(** A complete load returns the three tables cleaned row by row. *)
Lemma cargar_datos_filas conv so fs self v p s :
  en_disco fs (data_path self) v p s →
  esquema_completo "ventas" v → esquema_completo "pagos" p →
  esquema_completo "stock" s →
  cargar_datos conv so fs self
  = (Ok (ventas_limpiadas conv v, pagos_limpiados conv p, stock_limpiado conv s),
     mkProcessor (data_path self) (Some (ventas_limpiadas conv v))
       (Some (pagos_limpiados conv p)) (Some (stock_limpiado conv s))).
Proof.
  intros Hd Hv Hp Hs. unfold cargar_datos, catchM.
  rewrite (cargar_datos_body_leidos _ _ _ _ _ _ _ Hd).
  erewrite M_bind_Ok; last first.
  { rewrite (validar_estructura_cases _ _ v p s) by done.
    unfold primer_incompleto.
    destruct (esquema_completo "ventas" v),
      (esquema_completo "pagos" p), (esquema_completo "stock" s); done. }
  erewrite M_bind_Ok; last first.
  { apply (limpiar_datos_filas conv _ v p s); [done|].
    by apply columnas_limpieza_esquema. }
  done.
Qed.

(** The cell under a rewritten label is the rewritten cell, or null when
    the row is too short to hold it. *)
Lemma field_reescribir_eq df c g r :
  field df c (reescribir df c g r) = g (field df c r)
  ∨ field df c (reescribir df c g r) = VNull.
Proof.
  unfold field, reescribir.
  destruct (col_index c (columns df)) as [i|]; [|by right]. simpl.
  destruct (decide (i < length r)%nat) as [Hi|Hi].
  - left. by apply cell_upd_eq.
  - right. unfold cell, upd. rewrite list_insert_ge by lia.
    rewrite nth_lookup, lookup_ge_None_2; [done|lia].
Qed.

Lemma sumable_limpiar_numero conv df c r :
  sumable (field df c (reescribir df c (limpiar_numero conv) r)).
Proof. by destruct (field_reescribir_eq df c (limpiar_numero conv) r) as [->| ->]. Qed.

Lemma datetime_limpiar_fecha conv df c r :
  datetime_cell (field df c (reescribir df c (limpiar_fecha conv) r)).
Proof.
  destruct (field_reescribir_eq df c (limpiar_fecha conv) r) as [->| ->];
    [|done].
  unfold limpiar_fecha. by destruct (parse_datetime conv _).
Qed.

Lemma ventas_limpiadas_celdas conv v :
  Forall (λ r, sumable (field v "Cantidad" r)
               ∧ sumable (field v "Valor_Neto" r)
               ∧ datetime_cell (field v "Fecha_Doc" r))
         (rows (ventas_limpiadas conv v)).
Proof.
  unfold ventas_limpiadas. cbn [rows]. apply Forall_fmap, Forall_forall.
  intros r _. cbn [compose]. split_and!.
  - rewrite !field_reescribir_ne by done. apply sumable_limpiar_numero.
  - rewrite field_reescribir_ne by done. apply sumable_limpiar_numero.
  - apply datetime_limpiar_fecha.
Qed.

Lemma pagos_limpiados_celdas conv p :
  Forall (λ r, sumable (field p "Monto_Pago" r)) (rows (pagos_limpiados conv p)).
Proof.
  unfold pagos_limpiados. cbn [rows]. apply Forall_fmap, Forall_forall.
  intros r _. cbn [compose].
  rewrite field_reescribir_ne by done. apply sumable_limpiar_numero.
Qed.

Lemma stock_limpiado_celdas conv s :
  Forall (λ r, sumable (field s "Stock_Total" r)) (rows (stock_limpiado conv s)).
Proof.
  unfold stock_limpiado. cbn [rows]. apply Forall_fmap, Forall_forall.
  intros r _. apply sumable_limpiar_numero.
Qed.

Lemma as_floats_sumable (s : Series) :
  Forall (λ v, sumable v) s → ∃ xs, as_floats s = Ok xs.
Proof.
  induction 1 as [|v s Hv _ [xs IH]]; [by eexists|].
  simpl. rewrite IH. destruct v; try done; by eexists.
Qed.

Lemma gt0_series_sumable (s : Series) :
  Forall (λ v, sumable v) s → ∃ m, gt0_series s = Ok m.
Proof.
  induction 1 as [|v s Hv _ [m IH]]; [by eexists|].
  simpl. rewrite IH. destruct v as [|[]| |]; try done; by eexists.
Qed.



Lemma Forall_select_mask {A} (P : A → Prop) (l : list A) m :
  Forall P l → Forall P (select_mask l m).
Proof.
  intros Hall. apply Forall_forall. intros x Hx.
  eapply Forall_forall; [exact Hall|].
  by apply (sublist_subseteq _ _ (select_mask_sublist l m)).
Qed.

(** The KPI computation succeeds on tables whose amounts are numbers or
    nulls. *)
Lemma calcular_kpis_body_sumable ar w p :
  "Doc_Venta" ∈ columns w → "Cantidad" ∈ columns w → "Valor_Neto" ∈ columns w →
  "Referencia_Factura" ∈ columns p → "Monto_Pago" ∈ columns p →
  Forall (λ r, sumable (field w "Cantidad" r)
               ∧ sumable (field w "Valor_Neto" r)) (rows w) →
  Forall (λ r, sumable (field p "Monto_Pago" r)) (rows p) →
  ∃ k, calcular_kpis_body ar w p = Ok k.
Proof.
  intros Hd Hc Hv Hr Hm Hw Hp. unfold calcular_kpis_body.
  rewrite (getitem_field _ _ Hc), (getitem_field _ _ Hv),
    (getitem_field _ _ Hd), (getitem_field _ _ Hr).
  cbn [mbind result_bind]. unfold series_mul.
  destruct (as_floats_sumable (field w "Cantidad" <$> rows w)) as [xs ->].
  { apply Forall_fmap. eapply Forall_impl; [exact Hw|]. by intros r [? _]. }
  destruct (as_floats_sumable (field w "Valor_Neto" <$> rows w)) as [ys ->].
  { apply Forall_fmap. eapply Forall_impl; [exact Hw|]. by intros r [_ ?]. }
  cbn [mbind result_bind mret result_ret].
  rewrite (getitem_field (loc p _)) by done.
  cbn [mbind result_bind]. unfold series_sum. rewrite field_loc.
  destruct (as_floats_sumable
              (field p "Monto_Pago" <$> rows (loc p
                 (isin (unique (field w "Doc_Venta" <$> rows w))
                    (field p "Referencia_Factura" <$> rows p)))))
    as [zs ->].
  { apply Forall_fmap. unfold loc. cbn [rows]. by apply Forall_select_mask. }
  by eexists.
Qed.

(** X20: on the tables of a complete load, and on every narrowing of
    the loaded sales table (the result of any filter), the KPI
    computation does not raise, so [calcular_kpis] never falls back to
    the zero triple, and [generar_reporte_excel] returns a workbook, with
    or without the summary sheet. *)
Theorem kpis_reporte_datos_cargados (ar : Aritmetica) conv so fs self v p s :
  en_disco fs (data_path self) v p s →
  esquema_completo "ventas" v → esquema_completo "pagos" p →
  esquema_completo "stock" s →
  ∃ v' p' s' self',
    cargar_datos conv so fs self = (Ok (v', p', s'), self')
    ∧ ∀ w, estrecha v' w →
        (∃ k, calcular_kpis_body ar w p' = Ok k
              ∧ calcular_kpis ar w p' = Ok k)
        ∧ ∀ incluir_resumen,
            ∃ libro,
              generar_reporte_excel ar w p' s' incluir_resumen = Ok libro.
Proof.
  intros Hd Hv Hp Hs. eexists _, _, _, _.
  split; [by apply cargar_datos_filas|].
  intros w [Hcols Hrows].
  assert (Hcv : ∀ c, c ∈ requeridas "ventas" → c ∈ columns w).
  { intros c Hc. rewrite Hcols. by apply (esquema_completo_elem "ventas"). }
  assert (Hcp : ∀ c, c ∈ requeridas "pagos" →
                     c ∈ columns (pagos_limpiados conv p)).
  { intros c Hc. by apply (esquema_completo_elem "pagos"). }
  assert (Hcs : ∀ c, c ∈ requeridas "stock" →
                     c ∈ columns (stock_limpiado conv s)).
  { intros c Hc. by apply (esquema_completo_elem "stock"). }
  assert (Hbody : ∃ k, calcular_kpis_body ar w (pagos_limpiados conv p)
                       = Ok k).
  { apply calcular_kpis_body_sumable;
      [apply Hcv; compute_done..|apply Hcp; compute_done
      |apply Hcp; compute_done| |].
    - apply Forall_forall. intros r Hr%(sublist_subseteq _ _ Hrows).
      pose proof (ventas_limpiadas_celdas conv v) as Hall.
      eapply Forall_forall in Hall; [|exact Hr].
      rewrite !(field_same_columns (ventas_limpiadas conv v) w) by done.
      tauto.
    - exact (pagos_limpiados_celdas conv p). }
  destruct Hbody as [k Hk]. split.
  { exists k. split; [done|]. unfold calcular_kpis. by rewrite Hk. }
  intros [|]; [|by eexists].
  unfold generar_reporte_excel, generar_reporte_excel_body, _crear_hoja_resumen,
    calcular_kpis.
  rewrite Hk. destruct k as [[tv tp] pe].
  cbn [catch mret result_ret mbind result_bind].
  rewrite !contar_unicos_Ok by (apply Hcv || apply Hcs; compute_done).
  cbn [mbind result_bind].
  rewrite (getitem_field (stock_limpiado conv s) "Stock_Total")
    by (apply Hcs; compute_done).
  cbn [mbind result_bind].
  destruct (gt0_series_sumable
              (field (stock_limpiado conv s) "Stock_Total"
                 <$> rows (stock_limpiado conv s))) as [m ->].
  { apply Forall_fmap. exact (stock_limpiado_celdas conv s). }
  unfold series_sum.
  destruct (as_floats_sumable
              (field (stock_limpiado conv s) "Stock_Total"
                 <$> rows (stock_limpiado conv s))) as [xs ->].
  { apply Forall_fmap. exact (stock_limpiado_celdas conv s). }
  destruct (empty (stock_limpiado conv s)); by eexists.
Qed.

Lemma kpis_reporte_datos_cargados_witness :
  en_disco (disco_ejemplo pagos_crudos) "." ventas_crudas pagos_crudos stock_crudo
  ∧ ∃ v' p' s' self',
      cargar_datos conv_basic orden_lista (disco_ejemplo pagos_crudos) (__init__ ".")
      = (Ok (v', p', s'), self')
      ∧ calcular_kpis aritmetica_exacta v' p'
        = Ok (of_Z 200, of_Z 150, of_Z 50)
      ∧ ∃ libro,
          generar_reporte_excel aritmetica_exacta v' p' s' true = Ok libro.
Proof.
  assert (Hd : en_disco (disco_ejemplo pagos_crudos) "."
                 ventas_crudas pagos_crudos stock_crudo)
    by (split_and!; by vm_compute).
  split; [exact Hd|].
  destruct (kpis_reporte_datos_cargados aritmetica_exacta conv_basic
              orden_lista (disco_ejemplo pagos_crudos)
              (__init__ ".") ventas_crudas pagos_crudos stock_crudo)
    as (v' & p' & s' & self' & H & Hf); [exact Hd|compute_done..|].
  exists v', p', s', self'. split; [done|].
  destruct (Hf v' (estrecha_refl v')) as [_ Hrep]. split; [|apply Hrep].
  assert (Hl : cargar_datos conv_basic orden_lista (disco_ejemplo pagos_crudos) (__init__ ".")
               = (Ok (ventas_limpiadas conv_basic ventas_crudas,
                      pagos_limpiados conv_basic pagos_crudos,
                      stock_limpiado conv_basic stock_crudo),
                  mkProcessor "." (Some (ventas_limpiadas conv_basic ventas_crudas))
                    (Some (pagos_limpiados conv_basic pagos_crudos))
                    (Some (stock_limpiado conv_basic stock_crudo))))
    by compute_done.
  rewrite Hl in H. injection H as <- <- <- _. compute_done.
Defined.
